(** * A shallow embedding of the MCP chat tutorial

    The development follows the Python sources:
    - [src/core/tools.py]  : [ToolManager] (catalogue, schema conversion,
      tool dispatch);
    - [src/core/chat.py]   : [Chat] (the bounded model/tool loop);
    - [src/mcp_client.py]  : [MCPClient] (session life cycle).

    Conventions of the embedding.
    - A Python [str] is a [string] whose characters are code points
      below 256.
    - A Python [dict] is an association list in insertion order; the
      operations below keep keys distinct the way Python does.
    - A raised value is an instance of [Exception]; it propagates as the
      [Raise] outcome together with the state reached so far.
      Interpreter signals outside [Exception] (keyboard interrupt, task
      cancellation) are not modelled.
    - [print] calls are omitted. *)

From Stdlib Require Import String Ascii List Bool Arith ZArith Lia.
From Stdlib Require Import Decimal DecimalNat DecimalString.
Import ListNotations.
Open Scope string_scope.

Set Implicit Arguments.
Set Warnings "-register-all".

(** ** Python values *)

(** The JSON-like values that flow through schemas and tool arguments.
    [POpaque] stands for any other object (a float, a class instance...),
    of which only the type name and the truth value are observed. *)
Inductive pyval : Type :=
| PNone
| PBool (b : bool)
| PInt (z : Z)
| PStr (s : string)
| PList (l : list pyval)
| PDict (d : list (string * pyval))
| POpaque (type_name : string) (truth : bool).

Definition pydict := list (string * pyval).

(** [isinstance(v, dict)] *)
Definition isinstance_dict (v : pyval) : bool :=
  match v with PDict _ => true | _ => false end.

(** [bool(v)] *)
Definition truthy (v : pyval) : bool :=
  match v with
  | PNone => false
  | PBool b => b
  | PInt z => negb (Z.eqb z 0)
  | PStr s => negb (String.eqb s EmptyString)
  | PList l => match l with [] => false | _ => true end
  | PDict d => match d with [] => false | _ => true end
  | POpaque _ t => t
  end.

(** [type(v).__name__] *)
Definition py_type_name (v : pyval) : string :=
  match v with
  | PNone => "NoneType"
  | PBool _ => "bool"
  | PInt _ => "int"
  | PStr _ => "str"
  | PList _ => "list"
  | PDict _ => "dict"
  | POpaque n _ => n
  end.

(** [d.get(k)] *)
Fixpoint dict_get (d : pydict) (k : string) : option pyval :=
  match d with
  | [] => None
  | (k', v) :: d' => if String.eqb k' k then Some v else dict_get d' k
  end.

(** [d.get(k, default)] *)
Definition dict_get_default (d : pydict) (k : string) (default : pyval) : pyval :=
  match dict_get d k with Some v => v | None => default end.

(** [d[k] = v]: overwrite in place when the key exists, append otherwise. *)
Fixpoint dict_set (d : pydict) (k : string) (v : pyval) : pydict :=
  match d with
  | [] => [(k, v)]
  | (k', v') :: d' =>
      if String.eqb k' k then (k, v) :: d' else (k', v') :: dict_set d' k v
  end.

(** [if k in src: dst[k] = src[k]] *)
Definition dict_copy_key (k : string) (src dst : pydict) : pydict :=
  match dict_get src k with
  | Some v => dict_set dst k v
  | None => dst
  end.

Definition dict_keys (d : pydict) : list string := map fst d.

(** ** Exceptions and outcomes *)

Record PyExc : Type := mkExc { exc_class : string; exc_str : string }.

Inductive Result (A : Type) : Type :=
| Ok (a : A)
| Raise (e : PyExc).
Arguments Ok {A} a.
Arguments Raise {A} e.

Definition AttributeError_items (v : pyval) : PyExc :=
  mkExc "AttributeError"
        ("'" ++ py_type_name v ++ "' object has no attribute 'items'").

(** ** [json.dumps] on the values the program serialises *)

Inductive json : Type :=
| JString (s : string)
| JArray (l : list json)
| JObject (members : list (string * json)).

Definition hex_digit (n : nat) : ascii :=
  match n with
  | 0 => "0" | 1 => "1" | 2 => "2" | 3 => "3" | 4 => "4" | 5 => "5"
  | 6 => "6" | 7 => "7" | 8 => "8" | 9 => "9" | 10 => "a" | 11 => "b"
  | 12 => "c" | 13 => "d" | 14 => "e" | _ => "f"
  end%char.

Definition dquote : ascii := ascii_of_nat 34.
Definition backslash : ascii := ascii_of_nat 92.
Definition newline : string := String (ascii_of_nat 10) EmptyString.

(** One character of [py_encode_basestring_ascii] ([ensure_ascii=True]):
    the short escapes of [ESCAPE_DCT], printable ASCII unchanged, and
    [\u00xx] for every other code point below 256. *)
Definition json_escape_char (c : ascii) : string :=
  let n := nat_of_ascii c in
  if Nat.eqb n 34 then String backslash (String dquote EmptyString)
  else if Nat.eqb n 92 then String backslash (String backslash EmptyString)
  else if Nat.eqb n 8 then String backslash "b"
  else if Nat.eqb n 12 then String backslash "f"
  else if Nat.eqb n 10 then String backslash "n"
  else if Nat.eqb n 13 then String backslash "r"
  else if Nat.eqb n 9 then String backslash "t"
  else if Nat.leb 32 n && Nat.leb n 126 then String c EmptyString
  else String backslash "u00"
       ++ String (hex_digit (n / 16)) (String (hex_digit (n mod 16)) EmptyString).

Fixpoint json_escape (s : string) : string :=
  match s with
  | EmptyString => EmptyString
  | String c s' => json_escape_char c ++ json_escape s'
  end.

Definition json_quote (s : string) : string :=
  String dquote (json_escape s ++ String dquote EmptyString).

(** [sep.join(parts)] *)
Fixpoint str_join (sep : string) (parts : list string) : string :=
  match parts with
  | [] => EmptyString
  | [p] => p
  | p :: ps => p ++ sep ++ str_join sep ps
  end.

(** [json.dumps(j)] with the default separators [", "] and [": "]. *)
Fixpoint json_dumps (j : json) : string :=
  match j with
  | JString s => json_quote s
  | JArray l => "[" ++ str_join ", " (map json_dumps l) ++ "]"
  | JObject members =>
      "{" ++ str_join ", "
               (map (fun kv => json_quote (fst kv) ++ ": " ++ json_dumps (snd kv))
                    members)
          ++ "}"
  end.

(** [str(n)] for a non-negative integer. *)
Definition str_of_nat (n : nat) : string :=
  NilEmpty.string_of_uint (Nat.to_uint n).

(** ** A state and exception monad

    A computation runs from a state to an outcome and the state reached;
    a raised exception keeps the effects performed before it. *)

Definition M (S A : Type) : Type := S -> Result A * S.

Definition ret {S A : Type} (a : A) : M S A := fun s => (Ok a, s).

Definition bind {S A B : Type} (c : M S A) (k : A -> M S B) : M S B :=
  fun s =>
    match c s with
    | (Ok a, s') => k a s'
    | (Raise e, s') => (Raise e, s')
    end.

Definition raise {S A : Type} (e : PyExc) : M S A := fun s => (Raise e, s).

Definition lift_result {S A : Type} (r : Result A) : M S A := fun s => (r, s).

Definition modify {S : Type} (f : S -> S) : M S unit := fun s => (Ok tt, f s).

Definition gets {S A : Type} (f : S -> A) : M S A := fun s => (Ok (f s), s).

(** [try: body  except Exception as e: handler(e)] *)
Definition try_except {S A : Type} (body : M S A) (handler : PyExc -> M S A)
  : M S A :=
  fun s =>
    match body s with
    | (Ok a, s') => (Ok a, s')
    | (Raise e, s') => handler e s'
    end.

(** [try: body  finally: final] *)
Definition try_finally {S A : Type} (body : M S A) (final : M S unit) : M S A :=
  fun s =>
    match body s with
    | (r, s') =>
        match final s' with
        | (Ok _, s'') => (r, s'')
        | (Raise e, s'') => (Raise e, s'')
        end
    end.

Declare Scope monad_scope.
Delimit Scope monad_scope with monad.
Notation "x <- c ;; k" := (bind c (fun x => k))
  (at level 61, c at next level, right associativity) : monad_scope.
Notation "c ;; k" := (bind c (fun _ => k))
  (at level 61, right associativity) : monad_scope.
Open Scope monad_scope.

(** ** The types of the protocol and of the model adapter *)

(** [mcp.types.Tool]; [inputSchema] is [None] when the attribute is absent. *)
Record Tool : Type := mkTool {
  tool_name : string;
  tool_description : pyval;
  inputSchema : option pyval
}.

(** Content items of a tool result; only [TextContent] carries text. *)
Inductive ContentItem : Type :=
| TextContent (item_text : string)
| OtherContent.

(** [mcp.types.CallToolResult] *)
Record CallToolResult : Type := mkCallToolResult {
  ctr_content : list ContentItem;
  isError : bool
}.

(** A function call requested by the model (variant A): name and args. *)
Record FunctionCall : Type := mkFunctionCall {
  fc_name : string;
  fc_args : pyval
}.

(** A tool-use request (variant B): id, name and input. *)
Record ToolUse : Type := mkToolUse {
  tu_id : string;
  tu_name : string;
  tu_input : pyval
}.

(** Blocks of a Claude-style response content: a text block (type
    ["text"]), a tool-use block (type ["tool_use"], with id, name and
    input) or a block without a [type] attribute. *)
Inductive ContentBlock : Type :=
| TextBlock (block_text : string)
| ToolUseBlock (tu : ToolUse)
| UntypedBlock.

(** What [Chat] and [ToolManager] probe on a model response: each
    attribute is [None] when [hasattr] fails (for [function_calls], also
    when its value is [None]); [resp_str] is [str(response)]. *)
Record Response : Type := mkResponse {
  text : option string;
  function_calls : option (list FunctionCall);
  resp_content : option (list ContentBlock);
  resp_str : string
}.

(** [hasattr(response, 'function_calls') and response.function_calls] *)
Definition wants_function_calls (response : Response) : bool :=
  match function_calls response with
  | Some (_ :: _) => true
  | _ => false
  end.

(** [ToolResultBlockParam], the record built by [_build_tool_result_part].
    All four keys are always present, so the defaults of the [.get]
    calls in [Chat._add_user_message] are never used. *)
Record ToolResult : Type := mkToolResult {
  tool_use_id : string;
  type_ : string;
  content : string;
  is_error : bool
}.

(** Transcript messages. *)
Inductive Role : Type := user | assistant.

Inductive Part : Type :=
| TextPart (part_text : string)
| FunctionCallPart (name : string) (args : pyval).

Inductive Content : Type :=
| ContentText (s : string)
| ContentParts (parts : list Part).

Record Message : Type := mkMessage { role : Role; msg_content : Content }.

(** ** The environment: tool servers and the model adapter

    A client is referred to by its identity.  The environment owns the
    state of the tool servers and of the model adapter; its operations may
    change that state and may raise.  The adapter reads the transcript it
    is handed and does not modify it: the transcript has the engine as
    its single writer. *)

Definition ClientRef := nat.

Class Environment (W : Type) : Type := {
  client_list_tools : ClientRef -> W -> Result (list Tool) * W;
  client_call_tool :
    ClientRef -> string -> pyval -> W -> Result (option CallToolResult) * W;
  ai_chat_with_tools :
    list Message -> list pyval -> W -> Result Response * W
}.

(** What the program asked of its environment, in order. *)
Inductive Event : Type :=
| EvListTools (client : ClientRef)
| EvCallTool (client : ClientRef) (name : string) (input : pyval)
| EvChatWithTools (messages : list Message) (tools : list pyval)
                  (outcome : Result Response).

(** The state threaded through [Chat] and [ToolManager]: the transcript
    [self.messages], the environment and the record of requests made. *)
Record State (W : Type) : Type := mkState {
  messages : list Message;
  world : W;
  trace : list Event
}.
Arguments mkState {W} messages world trace.

Section Calls.
Context {W : Type} {E : Environment W}.

Definition call_env {A : Type} (op : W -> Result A * W)
           (ev : Result A -> Event) : M (State W) A :=
  fun s =>
    match op (world s) with
    | (r, w') => (r, mkState (messages s) w' (trace s ++ [ev r])%list)
    end.

(** [await client.list_tools()] *)
Definition list_tools (client : ClientRef) : M (State W) (list Tool) :=
  call_env (client_list_tools client) (fun _ => EvListTools client).

(** [await client.call_tool(tool_name, tool_input)] *)
Definition call_tool (client : ClientRef) (name : string) (input : pyval)
  : M (State W) (option CallToolResult) :=
  call_env (client_call_tool client name input)
           (fun _ => EvCallTool client name input).

(** [await self.ai_service.chat_with_tools(messages=..., tools=...)] *)
Definition chat_with_tools (msgs : list Message) (tools : list pyval)
  : M (State W) Response :=
  call_env (ai_chat_with_tools msgs tools) (EvChatWithTools msgs tools).
End Calls.

(** ** [ToolManager] (src/core/tools.py) *)

Module ToolManager.

(** The body of the loop over [mcp_schema["properties"].items()]:
    only mapping definitions are kept, reduced to [type] (defaulting to
    ["string"]), [description] and [enum]. *)
Definition clean_property (prop_def : pydict) : pydict :=
  let clean_prop := [("type", dict_get_default prop_def "type" (PStr "string"))] in
  let clean_prop := dict_copy_key "description" prop_def clean_prop in
  let clean_prop := dict_copy_key "enum" prop_def clean_prop in
  clean_prop.

Fixpoint convert_properties (items : list (string * pyval))
         (properties : pydict) : pydict :=
  match items with
  | [] => properties
  | (prop_name, prop_def) :: rest =>
      match prop_def with
      | PDict pd =>
          convert_properties rest
            (dict_set properties prop_name (PDict (clean_property pd)))
      | _ => convert_properties rest properties
      end
  end.

Definition _convert_mcp_schema_to_gemini (mcp_schema : pyval) : Result pyval :=
  match mcp_schema with
  | PDict d =>
      let gemini_schema := [("type", dict_get_default d "type" (PStr "object"))] in
      let with_properties :=
        match dict_get d "properties" with
        | None => Ok gemini_schema
        | Some (PDict props) =>
            Ok (dict_set gemini_schema "properties"
                         (PDict (convert_properties props [])))
        | Some other => Raise (AttributeError_items other)
        end in
      match with_properties with
      | Ok gemini_schema => Ok (PDict (dict_copy_key "required" d gemini_schema))
      | Raise e => Raise e
      end
  | _ => Ok (PDict [])
  end.

(** The body of the loop over [tool_models] in [get_all_tools]: the
    function declaration emitted for one tool. *)
Definition gemini_tool_of (t : Tool) : Result pyval :=
  let gemini_tool :=
    [("name", PStr (tool_name t)); ("description", tool_description t)] in
  match inputSchema t with
  | Some schema =>
      if truthy schema then
        match _convert_mcp_schema_to_gemini schema with
        | Ok parameters =>
            if truthy parameters && isinstance_dict parameters
            then Ok (PDict (dict_set gemini_tool "parameters" parameters))
            else Ok (PDict gemini_tool)
        | Raise e => Raise e
        end
      else Ok (PDict gemini_tool)
  | None => Ok (PDict gemini_tool)
  end.

Fixpoint append_tools (tool_models : list Tool) (tools : list pyval)
  : Result (list pyval) :=
  match tool_models with
  | [] => Ok tools
  | t :: rest =>
      match gemini_tool_of t with
      | Ok gemini_tool => append_tools rest (tools ++ [gemini_tool])%list
      | Raise e => Raise e
      end
  end.

(** [clients.values()] *)
Definition dict_values (clients : list (string * ClientRef)) : list ClientRef :=
  map snd clients.

(** [ToolResultBlockParam] built from id, text and status. *)
Definition _build_tool_result_part (tool_use_id text status : string)
  : ToolResult :=
  mkToolResult tool_use_id "tool_result" text (String.eqb status "error").

(** [[item.text for item in items if isinstance(item, TextContent)]] *)
Fixpoint text_items (items : list ContentItem) : list string :=
  match items with
  | [] => []
  | TextContent t :: rest => t :: text_items rest
  | OtherContent :: rest => text_items rest
  end.

(** [[block for block in response.content
      if hasattr(block, 'type') and block.type == "tool_use"]] *)
Fixpoint tool_use_blocks (blocks : list ContentBlock) : list ToolUse :=
  match blocks with
  | [] => []
  | ToolUseBlock tu :: rest => tu :: tool_use_blocks rest
  | _ :: rest => tool_use_blocks rest
  end.

(** [f"gemini_call_{i}_{tool_name}"] *)
Definition gemini_tool_use_id (i : nat) (tool_name : string) : string :=
  "gemini_call_" ++ str_of_nat i ++ "_" ++ tool_name.

Section WithEnvironment.
Context {W : Type} {E : Environment W}.

Fixpoint get_all_tools_from (clients : list ClientRef) (tools : list pyval)
  : M (State W) (list pyval) :=
  match clients with
  | [] => ret tools
  | client :: rest =>
      tool_models <- list_tools client ;;
      tools <- lift_result (append_tools tool_models tools) ;;
      get_all_tools_from rest tools
  end.

Definition get_all_tools (clients : list (string * ClientRef))
  : M (State W) (list pyval) :=
  get_all_tools_from (dict_values clients) [].

Fixpoint _find_client_with_tool (clients : list ClientRef)
         (tool_name_ : string) : M (State W) (option ClientRef) :=
  match clients with
  | [] => ret None
  | client :: rest =>
      tools <- list_tools client ;;
      match find (fun t => String.eqb (tool_name t) tool_name_) tools with
      | Some _ => ret (Some client)
      | None => _find_client_with_tool rest tool_name_
      end
  end.

(** The [try]/[except] block that both executors share: call the
    tool, serialise the text items of its output, and turn a raised
    exception into an error result. *)
Definition invoke_tool (client : ClientRef)
           (tool_use_id tool_name_ : string) (tool_input : pyval)
  : M (State W) ToolResult :=
  try_except
    (tool_output <- call_tool client tool_name_ tool_input ;;
     let items :=
       match tool_output with
       | Some out => ctr_content out
       | None => []
       end in
     let content_list := text_items items in
     let content_json := json_dumps (JArray (map JString content_list)) in
     ret (_build_tool_result_part
            tool_use_id content_json
            (match tool_output with
             | Some out => if isError out then "error" else "success"
             | None => "success"
             end)))
    (fun e =>
       let error_message :=
         "Error executing tool '" ++ tool_name_ ++ "': " ++ exc_str e in
       ret (_build_tool_result_part
              tool_use_id
              (json_dumps (JObject [("error", JString error_message)]))
              "error")).

(** The loop of [_execute_gemini_function_calls], from index [i] with
    the results collected so far. *)
Fixpoint gemini_loop (clients : list (string * ClientRef)) (i : nat)
         (function_calls : list FunctionCall)
         (tool_result_blocks : list ToolResult)
  : M (State W) (list ToolResult) :=
  match function_calls with
  | [] => ret tool_result_blocks
  | func_call :: rest =>
      let tool_name_ := fc_name func_call in
      let tool_input := fc_args func_call in
      let tool_use_id := gemini_tool_use_id i tool_name_ in
      client <- _find_client_with_tool (dict_values clients) tool_name_ ;;
      match client with
      | None =>
          let tool_result_part :=
            _build_tool_result_part
              tool_use_id "Could not find that tool" "error" in
          gemini_loop clients (S i) rest
                      (tool_result_blocks ++ [tool_result_part])%list
      | Some client =>
          tool_result_part <-
            invoke_tool client tool_use_id tool_name_ tool_input ;;
          gemini_loop clients (S i) rest
                      (tool_result_blocks ++ [tool_result_part])%list
      end
  end.

Definition _execute_gemini_function_calls
           (clients : list (string * ClientRef))
           (function_calls : list FunctionCall)
  : M (State W) (list ToolResult) :=
  gemini_loop clients 0 function_calls [].

(** The loop of [_execute_claude_tool_requests]. *)
Fixpoint claude_loop (clients : list (string * ClientRef))
         (tool_requests : list ToolUse)
         (tool_result_blocks : list ToolResult)
  : M (State W) (list ToolResult) :=
  match tool_requests with
  | [] => ret tool_result_blocks
  | tool_request :: rest =>
      let tool_use_id := tu_id tool_request in
      let tool_name_ := tu_name tool_request in
      let tool_input := tu_input tool_request in
      client <- _find_client_with_tool (dict_values clients) tool_name_ ;;
      match client with
      | None =>
          let tool_result_part :=
            _build_tool_result_part
              tool_use_id "Could not find that tool" "error" in
          claude_loop clients rest
                      (tool_result_blocks ++ [tool_result_part])%list
      | Some client =>
          tool_result_part <-
            invoke_tool client tool_use_id tool_name_ tool_input ;;
          claude_loop clients rest
                      (tool_result_blocks ++ [tool_result_part])%list
      end
  end.

Definition _execute_claude_tool_requests
           (clients : list (string * ClientRef))
           (tool_requests : list ToolUse)
  : M (State W) (list ToolResult) :=
  claude_loop clients tool_requests [].

Definition execute_tool_requests (clients : list (string * ClientRef))
           (response : Response) : M (State W) (list ToolResult) :=
  match function_calls response with
  | Some (fc :: fcs) => _execute_gemini_function_calls clients (fc :: fcs)
  | _ =>
      match resp_content response with
      | Some blocks =>
          _execute_claude_tool_requests clients (tool_use_blocks blocks)
      | None => ret []
      end
  end.
End WithEnvironment.

End ToolManager.

(** ** [Chat] (src/core/chat.py) *)

Module Chat.

Definition max_iterations : nat := 5.

Definition fallback_text : string :=
  "I encountered an issue while processing your request. Please try rephrasing your question.".

(** [response.text if hasattr(response, 'text') else str(response)] *)
Definition response_text (response : Response) : string :=
  match text response with
  | Some t => t
  | None => resp_str response
  end.

(** The content list built by [_add_assistant_message] for a response
    with function calls. *)
Definition assistant_parts (response : Response)
           (calls : list FunctionCall) : list Part :=
  let content :=
    match text response with
    | Some t => if negb (String.eqb t EmptyString) then [TextPart t] else []
    | None => []
    end in
  (content ++ map (fun func_call =>
                     FunctionCallPart (fc_name func_call) (fc_args func_call))
                  calls)%list.

Definition assistant_message (response : Response) : Message :=
  match function_calls response with
  | Some (fc :: fcs) =>
      mkMessage assistant (ContentParts (assistant_parts response (fc :: fcs)))
  | _ => mkMessage assistant (ContentText (response_text response))
  end.

(** One line of the tool-result summary. *)
Definition result_line (result : ToolResult) : string :=
  let status := if is_error result then "ERROR" else "SUCCESS" in
  "- " ++ tool_use_id result ++ ": " ++ status ++ " - " ++ content result
       ++ newline.

Fixpoint result_lines (tool_result_parts : list ToolResult)
         (result_text : string) : string :=
  match tool_result_parts with
  | [] => result_text
  | result :: rest => result_lines rest (result_text ++ result_line result)
  end.

Definition user_message (tool_result_parts : list ToolResult) : Message :=
  match tool_result_parts with
  | _ :: _ =>
      mkMessage user
        (ContentText
           (result_lines tool_result_parts ("Tool execution results:" ++ newline)))
  | [] =>
      mkMessage user (ContentText "Tool execution completed with no results.")
  end.

Section WithEnvironment.
Context {W : Type} {E : Environment W}.

(** [self.messages.append(m)] *)
Definition append_message (m : Message) : M (State W) unit :=
  modify (fun s => mkState (messages s ++ [m])%list (world s) (trace s)).

Definition _process_query (query : string) : M (State W) unit :=
  append_message (mkMessage user (ContentText query)).

Definition _add_assistant_message (response : Response) : M (State W) unit :=
  append_message (assistant_message response).

Definition _add_user_message (tool_result_parts : list ToolResult)
  : M (State W) unit :=
  append_message (user_message tool_result_parts).

(** The [while iteration_count < max_iterations] loop.  [remaining]
    is [max_iterations - iteration_count]; it reaches [0] exactly when
    the guard fails.  The loop yields the final values of
    [iteration_count] and [final_text_response]. *)
Fixpoint run_loop (clients : list (string * ClientRef)) (remaining : nat)
         (iteration_count : nat) (final_text_response : string)
  : M (State W) (nat * string) :=
  match remaining with
  | 0 => ret (iteration_count, final_text_response)
  | S remaining' =>
      let iteration_count := iteration_count + 1 in
      tools <- ToolManager.get_all_tools clients ;;
      msgs <- gets (@messages W) ;;
      response <- chat_with_tools msgs tools ;;
      _add_assistant_message response ;;
      if wants_function_calls response then
        tool_result_parts <-
          ToolManager.execute_tool_requests clients response ;;
        _add_user_message tool_result_parts ;;
        run_loop clients remaining' iteration_count final_text_response
      else
        ret (iteration_count, response_text response)
  end.

Definition run (clients : list (string * ClientRef)) (query : string)
  : M (State W) string :=
  let final_text_response := EmptyString in
  _process_query query ;;
  let iteration_count := 0 in
  out <- run_loop clients (max_iterations - iteration_count)
                  iteration_count final_text_response ;;
  let '(iteration_count, final_text_response) := out in
  if Nat.leb max_iterations iteration_count
  then ret fallback_text
  else ret final_text_response.
End WithEnvironment.

End Chat.

(** ** [MCPClient] (src/mcp_client.py) *)

Module MCPClient.

(** The message of the [ConnectionError] raised by [session()]: the
    session-not-ready error. *)
Definition session_not_ready : PyExc :=
  mkExc "ConnectionError"
        "Client session not initialized or cache not populated. Call connect_to_server first.".

(** The library operations behind a client: the stdio transport, the
    protocol session and the exit stack, acting on an external state
    [X].  Each may raise. *)
Class Transport (Session Ctx X : Type) : Type := {
  stdio_client : string -> list string -> option pyval -> X -> Result Ctx * X;
  client_session : Ctx -> X -> Result Session * X;
  session_initialize : Session -> X -> Result unit * X;
  session_list_tools : Session -> X -> Result (list Tool) * X;
  session_call_tool :
    Session -> string -> pyval -> X -> Result (option CallToolResult) * X;
  exit_stack_aclose : list (Ctx + Session) -> X -> Result unit * X;
  asyncio_sleep : X -> X;
  platform_is_win32 : bool
}.

Section Client.
Context {Session Ctx X : Type} {T : Transport Session Ctx X}.

(** The attributes of one client object. *)
Record t : Type := mk {
  _command : string;
  _args : list string;
  _env : option pyval;
  _session : option Session;
  _exit_stack : list (Ctx + Session)
}.

(** The state a method runs in: the object and the outside world. *)
Definition ClientState : Type := (t * X)%type.

Definition extern {A : Type} (op : X -> Result A * X) : M ClientState A :=
  fun s => match op (snd s) with (r, x') => (r, (fst s, x')) end.

Definition sleep : M ClientState unit :=
  modify (fun s => (fst s, asyncio_sleep (snd s))).

Definition set_session (v : option Session) : M ClientState unit :=
  modify (fun s =>
            (mk (_command (fst s)) (_args (fst s)) (_env (fst s)) v
                (_exit_stack (fst s)), snd s)).

Definition set_exit_stack (v : list (Ctx + Session)) : M ClientState unit :=
  modify (fun s =>
            (mk (_command (fst s)) (_args (fst s)) (_env (fst s))
                (_session (fst s)) v, snd s)).

(** [__init__] *)
Definition init (command : string) (args : list string)
           (env : option pyval) : t :=
  mk command args env None [].

(** The exit stack records a context entered through
    [enter_async_context]: the transport, then the session. *)
Definition push_context (c : Ctx + Session) : M ClientState unit :=
  stack <- gets (fun s => _exit_stack (fst s)) ;;
  set_exit_stack (c :: stack).

Definition connect : M ClientState unit :=
  self <- gets fst ;;
  stdio_transport <-
    extern (stdio_client (_command self) (_args self) (_env self)) ;;
  push_context (inl stdio_transport) ;;
  sess <- extern (client_session stdio_transport) ;;
  push_context (inr sess) ;;
  set_session (Some sess) ;;
  extern (session_initialize sess).

Definition session : M ClientState Session :=
  self <- gets fst ;;
  match _session self with
  | None => raise session_not_ready
  | Some sess => ret sess
  end.

Definition list_tools : M ClientState (list Tool) :=
  sess <- session ;;
  extern (session_list_tools sess).

Definition call_tool (tool_name_ : string) (tool_input : pyval)
  : M ClientState (option CallToolResult) :=
  sess <- session ;;
  extern (session_call_tool sess tool_name_ tool_input).

(** [await self._exit_stack.aclose()]: the callbacks are popped while
    they run, so the stack is empty afterwards whether or not one of
    them raised. *)
Definition aclose : M ClientState unit :=
  stack <- gets (fun s => _exit_stack (fst s)) ;;
  set_exit_stack [] ;;
  extern (exit_stack_aclose stack).

Definition cleanup : M ClientState unit :=
  try_finally
    (try_except
       (self <- gets fst ;;
        (match _session self with
         | Some _ => sleep
         | None => ret tt
         end) ;;
        aclose ;;
        if platform_is_win32 then sleep else ret tt)
       (fun e => ret tt))
    (set_session None).
(** A later use of the client by a caller: [list_tools()] or
    [call_tool(name, input)]. *)
Inductive ClientCall : Type :=
| ListTools
| CallTool (name : string) (input : pyval).

Definition perform (c : ClientCall) : M ClientState unit :=
  match c with
  | ListTools => _ <- list_tools ;; ret tt
  | CallTool n i => _ <- call_tool n i ;; ret tt
  end.

(** The exceptions raised by a sequence of calls made one after the
    other ([None] for a call that returned). *)
Fixpoint raised_by (calls : list ClientCall) (st : ClientState)
  : list (option PyExc) :=
  match calls with
  | [] => []
  | c :: rest =>
      match perform c st with
      | (Ok _, st') => None :: raised_by rest st'
      | (Raise e, st') => Some e :: raised_by rest st'
      end
  end.
End Client.

End MCPClient.

(** ** Notions used to state the properties *)

(** The requests of a function-call batch under their synthesized ids,
    numbered from [i]: what the loop of [_execute_gemini_function_calls]
    extracts from [enumerate(function_calls)]. *)
Fixpoint gemini_requests (i : nat) (function_calls : list FunctionCall)
  : list ToolUse :=
  match function_calls with
  | [] => []
  | func_call :: rest =>
      mkToolUse (ToolManager.gemini_tool_use_id i (fc_name func_call))
                (fc_name func_call) (fc_args func_call)
      :: gemini_requests (S i) rest
  end.

Definition is_call_tool_event (ev : Event) : bool :=
  match ev with EvCallTool _ _ _ => true | _ => false end.

(** The tool invocations recorded in a trace. *)
Definition call_events (tr : list Event) : list Event :=
  filter is_call_tool_event tr.

Definition is_chat_event (ev : Event) : bool :=
  match ev with EvChatWithTools _ _ _ => true | _ => false end.

(** The model-adapter calls recorded in a trace. *)
Definition chat_events (tr : list Event) : list Event :=
  filter is_chat_event tr.

(** Every registered client answers [list_tools] in every state. *)
Definition catalog_answers {W : Type} {E : Environment W}
           (clients : list (string * ClientRef)) : Prop :=
  forall c, In c (ToolManager.dict_values clients) ->
            forall w, exists ts w', client_list_tools c w = (Ok ts, w').

(** No registered client ever lists a tool of that name. *)
Definition unowned {W : Type} {E : Environment W}
           (clients : list (string * ClientRef)) (tool_name_ : string) : Prop :=
  forall c, In c (ToolManager.dict_values clients) ->
            forall w, exists ts w',
              client_list_tools c w = (Ok ts, w') /\
              find (fun t => String.eqb (tool_name t) tool_name_) ts = None.

(** A computation that leaves the transcript alone and calls no model. *)
Definition quiet {W A : Type} (c : M (State W) A) : Prop :=
  forall s, messages (snd (c s)) = messages s /\
            chat_events (trace (snd (c s))) = chat_events (trace s).

(** Every registered client answers [list_tools], with tools whose
    schemas convert. *)
Definition catalog_ready {W : Type} {E : Environment W}
           (clients : list (string * ClientRef)) : Prop :=
  forall c, In c (ToolManager.dict_values clients) ->
            forall w, exists ts w',
              client_list_tools c w = (Ok ts, w') /\
              forall t, In t ts -> exists g, ToolManager.gemini_tool_of t = Ok g.

(** The model adapter answers every call with a response that carries
    a non-empty list of function calls. *)
Definition always_requests_tools {W : Type} {E : Environment W} : Prop :=
  forall msgs tools w, exists r w',
      ai_chat_with_tools msgs tools w = (Ok r, w') /\
      wants_function_calls r = true.

(** An assistant message whose content holds a function-call part. *)
Definition has_function_call_part (m : Message) : bool :=
  match role m, msg_content m with
  | assistant, ContentParts parts =>
      existsb (fun p => match p with
                        | FunctionCallPart _ _ => true
                        | TextPart _ => false
                        end) parts
  | _, _ => false
  end.

(** The function calls carried by the parts of an assistant message, in
    order. *)
Definition function_call_parts (m : Message) : list FunctionCall :=
  match role m, msg_content m with
  | assistant, ContentParts parts =>
      flat_map (fun p => match p with
                         | FunctionCallPart name args => [mkFunctionCall name args]
                         | TextPart _ => []
                         end) parts
  | _, _ => []
  end.

(** Following the specification: one line of the summary block,
    [- <id>: <SUCCESS|ERROR> - <content>], closed by a newline. *)
Definition summary_line (r : ToolResult) : string :=
  "- " ++ tool_use_id r ++ ": " ++ (if is_error r then "ERROR" else "SUCCESS")
       ++ " - " ++ content r ++ newline.

(** Following the specification: the user message that reports a batch
    of results, the summary block with one line per result, in order;
    the placeholder when the batch is empty. *)
Definition tool_result_report (results : list ToolResult) : Message :=
  match results with
  | [] => mkMessage user (ContentText "Tool execution completed with no results.")
  | _ :: _ =>
      mkMessage user
        (ContentText ("Tool execution results:" ++ newline
                        ++ str_join EmptyString (map summary_line results)))
  end.

(** [u] answers the tool-call message [m]: it is the report of a batch
    of results that has one result per function call of [m], under the
    ids synthesized for these calls. *)
Definition answers (m u : Message) : Prop :=
  exists results : list ToolResult,
    map tool_use_id results = map tu_id (gemini_requests 0 (function_call_parts m)) /\
    u = tool_result_report results.

(** In a transcript, every assistant message with a function-call part
    is directly followed by a user message that answers it. *)
Definition answered_transcript (msgs : list Message) : Prop :=
  forall i m,
    nth_error msgs i = Some m ->
    has_function_call_part m = true ->
    exists u, nth_error msgs (S i) = Some u /\ answers m u.

(** What a computation raised, if it did. *)
Definition raised {A : Type} (r : Result A) : option PyExc :=
  match r with
  | Ok _ => None
  | Raise e => Some e
  end.

(** The model calls of a stretch of the loop of [run] that starts with
    the transcript [msgs], the transcript it leaves and what it raised.
    Between two calls lies a completed tool turn: the assistant message
    of the response, the execution of its requests, and the report of
    the results this execution returned. *)
Inductive loop_calls {W : Type} {E : Environment W}
          (clients : list (string * ClientRef))
  : list Message -> list Event -> list Message -> option PyExc -> Prop :=
| loop_stop (msgs : list Message) (failure : option PyExc) :
    loop_calls clients msgs [] msgs failure
| loop_adapter_raise (msgs : list Message) (tools : list pyval) (e : PyExc) :
    loop_calls clients msgs [EvChatWithTools msgs tools (Raise e)] msgs (Some e)
| loop_answer (msgs : list Message) (tools : list pyval) (r : Response) :
    wants_function_calls r = false ->
    loop_calls clients msgs [EvChatWithTools msgs tools (Ok r)]
               (msgs ++ [Chat.assistant_message r])%list None
| loop_tools_raise (msgs : list Message) (tools : list pyval) (r : Response)
                   (e : PyExc) (s_a s_b : State W) :
    wants_function_calls r = true ->
    messages s_a = (msgs ++ [Chat.assistant_message r])%list ->
    ToolManager.execute_tool_requests clients r s_a = (Raise e, s_b) ->
    loop_calls clients msgs [EvChatWithTools msgs tools (Ok r)]
               (msgs ++ [Chat.assistant_message r])%list (Some e)
| loop_turn (msgs : list Message) (tools : list pyval) (r : Response)
            (results : list ToolResult) (s_a s_b : State W)
            (evs : list Event) (final : list Message) (failure : option PyExc) :
    wants_function_calls r = true ->
    messages s_a = (msgs ++ [Chat.assistant_message r])%list ->
    ToolManager.execute_tool_requests clients r s_a = (Ok results, s_b) ->
    loop_calls clients
               (msgs ++ [Chat.assistant_message r; tool_result_report results])%list
               evs final failure ->
    loop_calls clients msgs (EvChatWithTools msgs tools (Ok r) :: evs) final failure.

(** Completed tool turns: an assistant message requesting function
    calls followed by the user message built from the results. *)
Inductive tool_turns : list Message -> Prop :=
| tool_turns_nil : tool_turns []
| tool_turns_snoc (tail : list Message) (r : Response)
                  (results : list ToolResult) :
    tool_turns tail ->
    wants_function_calls r = true ->
    tool_turns (tail ++ [Chat.assistant_message r; Chat.user_message results])%list.

Definition is_digit (c : ascii) : bool :=
  Nat.leb 48 (nat_of_ascii c) && Nat.leb (nat_of_ascii c) 57.

Fixpoint all_digits (s : string) : bool :=
  match s with
  | EmptyString => true
  | String c s' => is_digit c && all_digits s'
  end.

(** ** Fixtures used by the examples below *)

(** The well-formed schema of the conversion example. *)
Definition example_schema : pyval :=
  PDict [("type", PStr "object");
         ("properties",
          PDict [("x", PDict [("type", PStr "string");
                              ("description", PStr "d");
                              ("enum", PList [PStr "a"; PStr "b"])])]);
         ("required", PList [PStr "x"])].

(** A schema with an untyped property, a non-mapping property and a
    property carrying a key outside the reduced vocabulary. *)
Definition loose_properties : pydict :=
  [("q", PDict [("description", PStr "query"); ("minLength", PInt 1)]);
   ("n", PInt 3);
   ("k", PDict [("type", PStr "integer")])].

Definition loose_schema : pydict :=
  [("type", PStr "object"); ("properties", PDict loose_properties)].

(** Two tool servers: client [0] serves [search], client [1] serves
    [fetch] and a tool [boom] whose invocation raises. *)
Definition fixture_tools (c : ClientRef) : list Tool :=
  match c with
  | 0 => [mkTool "search" (PStr "Search documents") (Some example_schema)]
  | 1 => [mkTool "fetch" (PStr "Fetch a page") None; mkTool "boom" PNone None]
  | _ => []
  end.

Definition fixture_call (name : string) : Result (option CallToolResult) :=
  if String.eqb name "boom" then Raise (mkExc "RuntimeError" "kaboom")
  else Ok (Some (mkCallToolResult [TextContent ("ran " ++ name)] false)).

Definition fixture_clients : list (string * ClientRef) :=
  [("doc_client", 0); ("client_0_web.py", 1)].

Definition asks (tool : string) : Response :=
  mkResponse (Some EmptyString) (Some [mkFunctionCall tool (PDict [])])
             None "MockResponse".

Definition says (answer : string) : Response :=
  mkResponse (Some answer) (Some []) None "MockResponse".

(** The adapter replays a script of responses, then keeps requesting
    [search]. *)
#[export] Instance ScriptedEnv : Environment (list Response) := {|
  client_list_tools c w := (Ok (fixture_tools c), w);
  client_call_tool c n i w := (fixture_call n, w);
  ai_chat_with_tools msgs tools w :=
    match w with
    | r :: rest => (Ok r, rest)
    | [] => (Ok (asks "search"), [])
    end
|}.

(** The adapter requests [search] on every call. *)
#[export] Instance LoopingEnv : Environment unit := {|
  client_list_tools c w := (Ok (fixture_tools c), w);
  client_call_tool c n i w := (fixture_call n, w);
  ai_chat_with_tools msgs tools w := (Ok (asks "search"), w)
|}.

Definition initial_state {W : Type} (w : W) : State W := mkState [] w [].

Definition batch_search_unknown_boom_fetch : list FunctionCall :=
  [mkFunctionCall "search" (PDict []); mkFunctionCall "unknown" (PDict []);
   mkFunctionCall "boom" (PDict []); mkFunctionCall "fetch" (PDict [])].

Definition blocks_text_fetch_boom : list ContentBlock :=
  [TextBlock "Let me look."; ToolUseBlock (mkToolUse "toolu_01" "fetch" (PDict []));
   UntypedBlock; ToolUseBlock (mkToolUse "toolu_02" "boom" (PDict []))].

Definition response_batch : Response :=
  mkResponse (Some EmptyString) (Some batch_search_unknown_boom_fetch)
             None "MockResponse".

Definition response_blocks : Response :=
  mkResponse None None (Some blocks_text_fetch_boom) "Message".

Definition response_bare : Response :=
  mkResponse (Some "hello") None None "Reply".

Definition requests_fetch_unknown_boom : list ToolUse :=
  [mkToolUse "toolu_01" "fetch" (PDict []);
   mkToolUse "toolu_02" "unknown" (PDict []);
   mkToolUse "toolu_03" "boom" (PDict [])].

Definition start : State (list Response) := initial_state [].

(** Four tool requests, then a plain-text answer on the fifth call. *)
Definition script_answer_on_fifth : list Response :=
  [asks "search"; asks "fetch"; asks "search"; asks "fetch"; says "done"].

(** One tool request, then a plain-text answer on the second call. *)
Definition script_answer_on_second : list Response :=
  [asks "search"; says "done"].

(** A transport whose teardown fails: sessions and contexts are
    numbers, the outside world is the log of what was done. *)
#[export] Instance FailingTeardown : MCPClient.Transport nat nat (list string) := {|
  MCPClient.stdio_client command args env x := (Ok 1, ("spawn " ++ command) :: x);
  MCPClient.client_session ctx x := (Ok 2, "session" :: x);
  MCPClient.session_initialize sess x := (Ok tt, "initialize" :: x);
  MCPClient.session_list_tools sess x := (Ok (fixture_tools 0), "tools/list" :: x);
  MCPClient.session_call_tool sess n i x := (fixture_call n, ("tools/call " ++ n) :: x);
  MCPClient.exit_stack_aclose stack x :=
    (Raise (mkExc "RuntimeError" "Attempted to exit cancel scope in a different task"),
     "aclose" :: x);
  MCPClient.asyncio_sleep x := ("sleep" :: x);
  MCPClient.platform_is_win32 := false
|}.

Definition fresh_client : @MCPClient.ClientState nat nat (list string) :=
  (MCPClient.init "uv" ["run"; "mcp_server.py"] None, []).

(** ** The rest of [MCPClient] (src/mcp_client.py) *)

Module MCPClientAux.

(** [mcp.types.TextResourceContents] with its MIME type and text, or a
    content item of another class. *)
Inductive ResourceContents : Type :=
| TextResourceContents (mimeType : option string) (resource_text : string)
| BlobResourceContents.

Definition IndexError : PyExc := mkExc "IndexError" "list index out of range".

(** The session operations behind prompts and resources, with the two
    library functions [read_resource] relies on: the [AnyUrl]
    validator and [json.loads]. *)
Class Resources (Session X Prompt PromptMessage Url : Type) : Type := {
  session_list_prompts : Session -> X -> Result (list Prompt) * X;
  session_get_prompt :
    Session -> string -> list (string * string) -> X
    -> Result (list PromptMessage) * X;
  AnyUrl : string -> Result Url;
  session_read_resource :
    Session -> Url -> X -> Result (list ResourceContents) * X;
  json_loads : string -> Result pyval
}.

Section Methods.
Context {Session Ctx X Prompt PromptMessage Url : Type}.
Context {T : MCPClient.Transport Session Ctx X}.
Context {R : Resources Session X Prompt PromptMessage Url}.

Definition list_prompts : M (MCPClient.ClientState (Session := Session) (Ctx := Ctx)) (list Prompt) :=
  sess <- MCPClient.session ;;
  MCPClient.extern (session_list_prompts sess).

Definition get_prompt (prompt_name : string) (args : list (string * string))
  : M (MCPClient.ClientState (Session := Session) (Ctx := Ctx)) (list PromptMessage) :=
  sess <- MCPClient.session ;;
  MCPClient.extern (session_get_prompt sess prompt_name args).

(** [self.session()] is evaluated before [AnyUrl(uri)]; a content item
    that is not text falls off the end of the function, which returns
    [None]. *)
Definition read_resource (uri : string)
  : M (MCPClient.ClientState (Session := Session) (Ctx := Ctx)) pyval :=
  sess <- MCPClient.session ;;
  url <- lift_result (AnyUrl uri) ;;
  contents <- MCPClient.extern (session_read_resource sess url) ;;
  match contents with
  | [] => raise IndexError
  | response :: _ =>
      match response with
      | TextResourceContents mimeType resource_text =>
          match mimeType with
          | Some mime =>
              if String.eqb mime "application/json"
              then lift_result (json_loads resource_text)
              else ret (PStr resource_text)
          | None => ret (PStr resource_text)
          end
      | BlobResourceContents => ret PNone
      end
  end.

(** Entering the client connects it (and hands the client to the
    block). *)
Definition __aenter__
  : M (MCPClient.ClientState (Session := Session) (Ctx := Ctx)) unit :=
  MCPClient.connect.

(** Leaving the client cleans it up; the method returns [None], so an
    exception of the block is not suppressed. *)
Definition __aexit__
  : M (MCPClient.ClientState (Session := Session) (Ctx := Ctx)) unit :=
  MCPClient.cleanup.

(** [async with client: body]: enter, run the block, and exit whether
    the block returned or raised; when entering raises, neither the
    block nor the exit runs. *)
Definition async_with {A : Type}
           (body : M (MCPClient.ClientState (Session := Session) (Ctx := Ctx)) A)
  : M (MCPClient.ClientState (Session := Session) (Ctx := Ctx)) A :=
  __aenter__ ;;
  try_finally body __aexit__.
End Methods.

End MCPClientAux.

(** ** [GeminiService] (src/main.py)

    The two pure steps of [chat_with_tools]: the conversion of the
    transcript to Gemini contents, and the reading of a Gemini reply
    into the [MockResponse] handed back to [Chat]. *)

Module GeminiService.

(** [genai.types.Content]: a role and the texts of its parts (every
    part the program builds is a text part). *)
Record GeminiContent : Type := mkContent {
  gc_role : string;
  gc_parts : list string
}.

(** The part built for one item of a list content. *)
Definition gemini_part (item : Part) : string :=
  match item with
  | TextPart t => t
  | FunctionCallPart n _ => "Function call: " ++ n
  end.

Definition gemini_role (r : Role) : string :=
  match r with assistant => "model" | user => "user" end.

(** On the messages [Chat] appends: a text content gives one part, a
    list content one part per item, and a message whose list gives no
    part is left out. *)
Fixpoint _convert_messages_to_gemini_format (msgs : list Message)
  : list GeminiContent :=
  match msgs with
  | [] => []
  | message :: rest =>
      match msg_content message with
      | ContentText content =>
          mkContent (gemini_role (role message)) [content]
          :: _convert_messages_to_gemini_format rest
      | ContentParts content =>
          match map gemini_part content with
          | [] => _convert_messages_to_gemini_format rest
          | parts =>
              mkContent (gemini_role (role message)) parts
              :: _convert_messages_to_gemini_format rest
          end
      end
  end.

(** A part of a Gemini candidate: its function call when the attribute
    is present and truthy (name as [str(name)], args as the mapping,
    empty when absent), and its text when present. *)
Record GeminiPart : Type := mkPart {
  part_function_call : option (string * pydict);
  part_text : option string
}.

(** A Gemini reply: the parts of each candidate ([None] when the
    candidate has no content or no parts), and [response.text] when the
    attribute exists ([Some None] when its value is [None]). *)
Record GeminiResponse : Type := mkGeminiResponse {
  candidates : option (list (option (list GeminiPart)));
  response_text_attr : option (option string)
}.

(** The loop over [candidate.content.parts]: a part with a function
    call adds a call, otherwise a part with non-empty text extends the
    text. *)
Fixpoint read_parts (parts : list GeminiPart)
         (calls : list FunctionCall) (response_text : string)
  : list FunctionCall * string :=
  match parts with
  | [] => (calls, response_text)
  | part :: rest =>
      match part_function_call part with
      | Some (n, a) =>
          read_parts rest (calls ++ [mkFunctionCall n (PDict a)])%list
                     response_text
      | None =>
          match part_text part with
          | Some t =>
              if negb (String.eqb t EmptyString)
              then read_parts rest calls (response_text ++ t)
              else read_parts rest calls response_text
          | None => read_parts rest calls response_text
          end
      end
  end.

(** [str(response.text) if hasattr(response, 'text') else ""] *)
Definition str_response_text (response : GeminiResponse) : string :=
  match response_text_attr response with
  | Some (Some t) => t
  | Some None => "None"
  | None => EmptyString
  end.

(** The reading of a reply inside [chat_with_tools], up to the
    [MockResponse] it returns; [repr] is [str] of that object. *)
Definition read_response (repr : string) (response : GeminiResponse)
  : Response :=
  let '(calls, response_text) :=
    match candidates response with
    | Some (Some (part :: parts) :: _) => read_parts (part :: parts) [] EmptyString
    | _ => ([], EmptyString)
    end in
  let response_text :=
    match calls with
    | [] => if String.eqb response_text EmptyString
            then str_response_text response
            else response_text
    | _ => response_text
    end in
  mkResponse (Some response_text) (Some calls) None repr.

End GeminiService.

(** ** Further notions used to state the properties *)

(** Every registered client reports the same tools, [cat c], in every
    state. *)
Definition static_catalog {W : Type} {E : Environment W}
           (clients : list (string * ClientRef))
           (cat : ClientRef -> list Tool) : Prop :=
  forall c, In c (ToolManager.dict_values clients) ->
            forall w, exists w', client_list_tools c w = (Ok (cat c), w').

(** A tool of that name is in the list. *)
Definition lists_tool (ts : list Tool) (tool_name_ : string) : bool :=
  existsb (fun t => String.eqb (tool_name t) tool_name_) ts.

(** The invocations a batch of requests, given by tool name and input,
    leads to under a catalogue: one per request whose tool some client
    lists, at the first such client. *)
Definition routed_calls (cat : ClientRef -> list Tool)
           (clients : list ClientRef) (reqs : list (string * pyval))
  : list Event :=
  flat_map (fun req =>
              match find (fun c => lists_tool (cat c) (fst req)) clients with
              | Some c => [EvCallTool c (fst req) (snd req)]
              | None => []
              end) reqs.

(** The model adapter answers every call. *)
Definition adapter_answers {W : Type} {E : Environment W} : Prop :=
  forall msgs tools w, exists r w', ai_chat_with_tools msgs tools w = (Ok r, w').

(** Printable ASCII: every character from space to tilde. *)
Fixpoint printable (s : string) : bool :=
  match s with
  | EmptyString => true
  | String c s' =>
      Nat.leb 32 (nat_of_ascii c) && Nat.leb (nat_of_ascii c) 126
      && printable s'
  end.

(** The number of line breaks in a text. *)
Fixpoint count_newlines (s : string) : nat :=
  match s with
  | EmptyString => 0
  | String c s' =>
      (if Nat.eqb (nat_of_ascii c) 10 then 1 else 0) + count_newlines s'
  end.

(** The fixture's catalogue and a second fixture for resources. *)
Definition failing_schema_tool : Tool :=
  mkTool "broken" (PStr "Broken schema")
         (Some (PDict [("type", PStr "object"); ("properties", PList [])])).

#[export] Instance FixtureResources
  : MCPClientAux.Resources nat (list string) string string string := {|
  MCPClientAux.session_list_prompts sess x := (Ok ["format"], "prompts/list" :: x);
  MCPClientAux.session_get_prompt sess n a x := (Ok ["Rewrite the document"], ("prompts/get " ++ n) :: x);
  MCPClientAux.AnyUrl uri :=
    if String.eqb uri EmptyString
    then Raise (mkExc "ValidationError" "Input should be a valid URL")
    else Ok uri;
  MCPClientAux.session_read_resource sess url x :=
    (if String.eqb url "docs://documents"
     then Ok [MCPClientAux.TextResourceContents (Some "application/json") "[1]";
              MCPClientAux.BlobResourceContents]
     else if String.eqb url "docs://empty" then Ok []
     else Ok [MCPClientAux.BlobResourceContents],
     ("resources/read " ++ url) :: x);
  MCPClientAux.json_loads s :=
    if String.eqb s "[1]" then Ok (PList [PInt 1])
    else Raise (mkExc "JSONDecodeError" "Expecting value")
|}.

(** Environments for the failure cases: a world in which client [1] is
    down, one in which client [1] lists a tool with a broken schema, and
    one in which the model adapter is down. *)
Inductive ClientDownWorld : Type := client_down.

#[export] Instance ClientDownEnv : Environment ClientDownWorld := {|
  client_list_tools c w :=
    match c with
    | 1 => (Raise (mkExc "ConnectionError" "Connection closed"), w)
    | _ => (Ok (fixture_tools c), w)
    end;
  client_call_tool c n i w := (fixture_call n, w);
  ai_chat_with_tools msgs tools w := (Ok (says "done"), w)
|}.

Inductive BrokenSchemaWorld : Type := broken_schema.

Definition broken_catalog (c : ClientRef) : list Tool :=
  match c with
  | 1 => [mkTool "fetch" (PStr "Fetch a page") None; failing_schema_tool;
          mkTool "boom" PNone None]
  | _ => fixture_tools c
  end.

#[export] Instance BrokenSchemaEnv : Environment BrokenSchemaWorld := {|
  client_list_tools c w := (Ok (broken_catalog c), w);
  client_call_tool c n i w := (fixture_call n, w);
  ai_chat_with_tools msgs tools w := (Ok (says "done"), w)
|}.

Inductive AdapterDownWorld : Type := adapter_down.

Definition quota_error : PyExc := mkExc "ClientError" "429 RESOURCE_EXHAUSTED".

#[export] Instance AdapterDownEnv : Environment AdapterDownWorld := {|
  client_list_tools c w := (Ok (fixture_tools c), w);
  client_call_tool c n i w := (fixture_call n, w);
  ai_chat_with_tools msgs tools w := (Raise quota_error, w)
|}.

(** A world in which the tool server drops exactly one catalogue query,
    the second one; the number counts the queries made so far.  The
    adapter requests [search] on every call. *)
Inductive FlakyWorld : Type := flaky (queries : nat).

#[export] Instance FlakyEnv : Environment FlakyWorld := {|
  client_list_tools c w :=
    match w with
    | flaky 1 => (Raise (mkExc "ConnectionError" "Connection closed"), flaky 2)
    | flaky n => (Ok (fixture_tools c), flaky (S n))
    end;
  client_call_tool c n i w := (fixture_call n, w);
  ai_chat_with_tools msgs tools w := (Ok (asks "search"), w)
|}.

(** A chat that knows the document server only. *)
Definition doc_client_only : list (string * ClientRef) := [("doc_client", 0)].

(** A transport whose steps fail according to a mode kept in the
    outside world: [1] the transport start, [2] the session start,
    [3] the handshake; any other mode lets [connect] through. *)
Definition spawn_error : PyExc := mkExc "FileNotFoundError" "No such file or directory: 'uv'".
Definition handshake_error : PyExc := mkExc "McpError" "Connection closed".

#[export] Instance ModalTransport : MCPClient.Transport nat nat (nat * list string) := {|
  MCPClient.stdio_client command args env x :=
    match fst x with
    | 1 => (Raise spawn_error, x)
    | _ => (Ok 1, (fst x, "spawn" :: snd x))
    end;
  MCPClient.client_session ctx x :=
    match fst x with
    | 2 => (Raise handshake_error, x)
    | _ => (Ok 2, (fst x, "session" :: snd x))
    end;
  MCPClient.session_initialize sess x :=
    match fst x with
    | 3 => (Raise handshake_error, x)
    | _ => (Ok tt, (fst x, "initialize" :: snd x))
    end;
  MCPClient.session_list_tools sess x := (Ok (fixture_tools 0), (fst x, "tools/list" :: snd x));
  MCPClient.session_call_tool sess n i x := (fixture_call n, (fst x, "tools/call" :: snd x));
  MCPClient.exit_stack_aclose stack x := (Ok tt, (fst x, "aclose" :: snd x));
  MCPClient.asyncio_sleep x := x;
  MCPClient.platform_is_win32 := true
|}.

Definition modal_client (mode : nat)
  : @MCPClient.ClientState nat nat (nat * list string) :=
  (MCPClient.init "uv" ["run"; "mcp_server.py"] None, (mode, [])).

(** A reply with a text part, a function call that also carries text,
    and a second function call without arguments. *)
Definition mixed_reply : GeminiService.GeminiResponse :=
  GeminiService.mkGeminiResponse
    (Some [Some [GeminiService.mkPart None (Some "Let me check. ");
                 GeminiService.mkPart (Some ("search", [("q", PStr "report")]))
                                      (Some "ignored");
                 GeminiService.mkPart (Some ("fetch", [])) None];
           Some [GeminiService.mkPart None (Some "second candidate")]])
    (Some (Some "Let me check. ")).

(** * Properties *)

(** ** Dictionaries *)

Lemma dict_get_set_same (d : pydict) (k : string) (v : pyval) :
  dict_get (dict_set d k v) k = Some v.
Proof.
  induction d as [|[k' v'] d IH]; simpl.
  - now rewrite String.eqb_refl.
  - destruct (String.eqb k' k) eqn:Hk; simpl.
    + now rewrite String.eqb_refl.
    + now rewrite Hk.
Qed.

Lemma dict_get_set_other (d : pydict) (k k' : string) (v : pyval) :
  k <> k' -> dict_get (dict_set d k v) k' = dict_get d k'.
Proof.
  intros Hne. induction d as [|[k0 v0] d IH]; simpl.
  - apply String.eqb_neq in Hne. now rewrite Hne.
  - destruct (String.eqb k0 k) eqn:Hk; simpl.
    + apply String.eqb_eq in Hk. subst k0.
      apply String.eqb_neq in Hne. now rewrite Hne.
    + destruct (String.eqb k0 k'); [reflexivity | exact IH].
Qed.

Lemma dict_get_None_iff (d : pydict) (k : string) :
  dict_get d k = None <-> ~ In k (dict_keys d).
Proof.
  induction d as [|[k' v'] d IH]; simpl.
  - tauto.
  - destruct (String.eqb k' k) eqn:Hk.
    + apply String.eqb_eq in Hk. split; [discriminate | tauto].
    + apply String.eqb_neq in Hk. rewrite IH. tauto.
Qed.

Lemma dict_set_fresh (d : pydict) (k : string) (v : pyval) :
  ~ In k (dict_keys d) -> dict_set d k v = (d ++ [(k, v)])%list.
Proof.
  induction d as [|[k' v'] d IH]; simpl; intros Hnin.
  - reflexivity.
  - destruct (String.eqb k' k) eqn:Hk.
    + apply String.eqb_eq in Hk. tauto.
    + f_equal. apply IH. tauto.
Qed.

Lemma dict_keys_set (d : pydict) (k : string) (v : pyval) :
  dict_keys (dict_set d k v) =
  if existsb (String.eqb k) (dict_keys d) then dict_keys d
  else (dict_keys d ++ [k])%list.
Proof.
  induction d as [|[k' v'] d IH]; simpl.
  - reflexivity.
  - rewrite (String.eqb_sym k k').
    destruct (String.eqb k' k) eqn:Hk; simpl.
    + apply String.eqb_eq in Hk. now subst.
    + rewrite IH. now destruct (existsb (String.eqb k) (dict_keys d)).
Qed.

Lemma dict_set_NoDup (d : pydict) (k : string) (v : pyval) :
  NoDup (dict_keys d) -> NoDup (dict_keys (dict_set d k v)).
Proof.
  intros Hd. rewrite dict_keys_set.
  destruct (existsb (String.eqb k) (dict_keys d)) eqn:Hex; [exact Hd|].
  apply NoDup_app; [exact Hd | repeat constructor; simpl; tauto |].
  intros x Hx [Heq | []]. subst x.
  assert (existsb (String.eqb k) (dict_keys d) = true) as Habs.
  { apply existsb_exists. exists k. split; [exact Hx | apply String.eqb_refl]. }
  congruence.
Qed.

Lemma dict_set_Forall (P : string * pyval -> Prop) (d : pydict)
      (k : string) (v : pyval) :
  Forall P d -> P (k, v) -> Forall P (dict_set d k v).
Proof.
  intros Hd Hv. induction Hd as [|[k' v'] d Hx Hd IH]; simpl.
  - now constructor.
  - destruct (String.eqb k' k); constructor; assumption.
Qed.

(** ** Schema conversion *)

Module SchemaFacts.
Import ToolManager.

Lemma clean_property_idem (pd : pydict) :
  clean_property (clean_property pd) = clean_property pd.
Proof.
  unfold clean_property, dict_copy_key, dict_get_default.
  destruct (dict_get pd "type"), (dict_get pd "description"),
    (dict_get pd "enum"); reflexivity.
Qed.

Lemma clean_property_type (pd : pydict) :
  dict_get (clean_property pd) "type" =
  Some (dict_get_default pd "type" (PStr "string")).
Proof.
  unfold clean_property, dict_copy_key.
  destruct (dict_get pd "description"), (dict_get pd "enum"); reflexivity.
Qed.

(** The converted map holds, under each name, the cleaned definition
    when the source definition is a mapping, and nothing new otherwise. *)
Lemma convert_properties_get (items : list (string * pyval)) :
  forall (acc : pydict) (name : string),
    NoDup (dict_keys items) ->
    dict_get (convert_properties items acc) name =
    match dict_get items name with
    | Some (PDict pd) => Some (PDict (clean_property pd))
    | _ => dict_get acc name
    end.
Proof.
  induction items as [|[k v] items IH]; intros acc name Hnd; simpl.
  - reflexivity.
  - simpl in Hnd. apply NoDup_cons_iff in Hnd as [Hk Hnd].
    destruct (String.eqb k name) eqn:Hkn.
    + apply String.eqb_eq in Hkn. subst k.
      apply dict_get_None_iff in Hk.
      destruct v; rewrite IH, Hk by assumption; try reflexivity.
      apply dict_get_set_same.
    + apply String.eqb_neq in Hkn.
      destruct v; rewrite IH by assumption; try reflexivity.
      rewrite dict_get_set_other by assumption. reflexivity.
Qed.

(** A converted properties map has distinct names and cleaned
    definitions. *)
Lemma convert_properties_cleaned (items : list (string * pyval)) :
  forall acc,
    NoDup (dict_keys acc) /\
    Forall (fun kv => exists pd, snd kv = PDict (clean_property pd)) acc ->
    NoDup (dict_keys (convert_properties items acc)) /\
    Forall (fun kv => exists pd, snd kv = PDict (clean_property pd))
           (convert_properties items acc).
Proof.
  induction items as [|[k v] items IH]; intros acc Hacc; simpl.
  - exact Hacc.
  - destruct v as [ | | | | | pd | ]; try (now apply IH).
    apply IH. destruct Hacc as [Hnd Hall]. split.
    + now apply dict_set_NoDup.
    + apply dict_set_Forall; [exact Hall | now exists pd].
Qed.

Lemma convert_properties_fixed (cp : pydict) :
  forall acc,
    Forall (fun kv => exists pd, snd kv = PDict (clean_property pd)) cp ->
    NoDup (dict_keys acc ++ dict_keys cp) ->
    convert_properties cp acc = (acc ++ cp)%list.
Proof.
  induction cp as [|[k v] cp IH]; intros acc Hall Hnd; simpl.
  - now rewrite app_nil_r.
  - inversion Hall as [|? ? [pd Hpd] Hall']; subst. simpl in Hpd. subst v.
    rewrite clean_property_idem.
    simpl in Hnd.
    assert (~ In k (dict_keys acc)) as Hfresh.
    { apply NoDup_remove_2 in Hnd. intro Hin. apply Hnd.
      apply in_or_app. now left. }
    rewrite dict_set_fresh by exact Hfresh.
    rewrite IH.
    + now rewrite <- app_assoc.
    + exact Hall'.
    + unfold dict_keys in *. rewrite map_app. simpl.
      now rewrite <- app_assoc.
Qed.

(** Converting the result of converting a mapping changes nothing. *)
Lemma convert_idempotent (d : pydict) (converted : pyval) :
  _convert_mcp_schema_to_gemini (PDict d) = Ok converted ->
  _convert_mcp_schema_to_gemini converted = Ok converted.
Proof.
  simpl. unfold dict_copy_key, dict_get_default.
  destruct (dict_get d "properties") as [[ | | | | | props | ]|] eqn:Hp;
    try discriminate.
  - destruct (@convert_properties_cleaned props []
                (conj (NoDup_nil _) (Forall_nil _))) as [Hnd Hall].
    destruct (dict_get d "type"), (dict_get d "required");
      intros [= <-]; simpl;
      rewrite (@convert_properties_fixed _ [] Hall Hnd); reflexivity.
  - destruct (dict_get d "type"), (dict_get d "required");
      intros [= <-]; reflexivity.
Qed.

(** Outside mappings the conversion is not idempotent: the empty object
    it returns converts to an object with the default type. *)
Lemma convert_non_mapping_twice :
  _convert_mcp_schema_to_gemini (PInt 5) = Ok (PDict []) /\
  _convert_mcp_schema_to_gemini (PDict []) = Ok (PDict [("type", PStr "object")]).
Proof. split; reflexivity. Qed.
End SchemaFacts.

(** C5. Schema conversion returns the well-formed example schema
    unchanged; converting the result of converting any mapping changes
    nothing (so the conversion is idempotent on the example); every
    non-mapping input converts to the empty object; and a tool whose
    schema converts to the empty object is emitted with its name and
    description only, without a [parameters] field. *)
Theorem C5_schema_conversion_fixed_point :
  ToolManager._convert_mcp_schema_to_gemini example_schema = Ok example_schema /\
  (forall (d : pydict) (converted : pyval),
      ToolManager._convert_mcp_schema_to_gemini (PDict d) = Ok converted ->
      ToolManager._convert_mcp_schema_to_gemini converted = Ok converted) /\
  (forall v : pyval,
      isinstance_dict v = false ->
      ToolManager._convert_mcp_schema_to_gemini v = Ok (PDict [])) /\
  (forall (t : Tool) (schema : pyval) (rest : list Tool) (tools : list pyval),
      inputSchema t = Some schema ->
      ToolManager._convert_mcp_schema_to_gemini schema = Ok (PDict []) ->
      let emitted :=
        [("name", PStr (tool_name t)); ("description", tool_description t)] in
      dict_get emitted "parameters" = None /\
      ToolManager.gemini_tool_of t = Ok (PDict emitted) /\
      ToolManager.append_tools (t :: rest) tools =
      ToolManager.append_tools rest (tools ++ [PDict emitted])%list).
Proof.
  split; [reflexivity|].
  split; [exact SchemaFacts.convert_idempotent|].
  split.
  - intros v Hv. destruct v; try reflexivity. discriminate.
  - intros t schema rest tools Hs Hc emitted.
    assert (ToolManager.gemini_tool_of t = Ok (PDict emitted)) as Hg.
    { unfold ToolManager.gemini_tool_of. rewrite Hs, Hc.
      destruct (truthy schema); reflexivity. }
    split; [reflexivity|]. split; [exact Hg|].
    simpl. now rewrite Hg.
Qed.

Lemma C5_schema_conversion_fixed_point_witness :
  ToolManager._convert_mcp_schema_to_gemini example_schema = Ok example_schema /\
  ToolManager._convert_mcp_schema_to_gemini (PStr "text") = Ok (PDict []) /\
  ToolManager.gemini_tool_of (mkTool "ping" (PStr "Ping") (Some (PStr "text")))
  = Ok (PDict [("name", PStr "ping"); ("description", PStr "Ping")]).
Proof.
  destruct C5_schema_conversion_fixed_point as (Hex & Hidem & Hnon & Htool).
  split; [exact (Hidem _ _ Hex)|].
  split; [apply Hnon; reflexivity|].
  apply (Htool (mkTool "ping" (PStr "Ping") (Some (PStr "text")))
               (PStr "text") [] []); reflexivity.
Defined.

(** C10. In the conversion of a mapping schema whose [properties] is a
    mapping, a property definition without a [type] key is emitted with
    [type] set to ["string"], and a property definition that is not a
    mapping does not appear in the converted properties. *)
Theorem C10_property_type_default_and_drop
        (d props : pydict) :
  dict_get d "properties" = Some (PDict props) ->
  NoDup (dict_keys props) ->
  exists g cp : pydict,
    ToolManager._convert_mcp_schema_to_gemini (PDict d) = Ok (PDict g) /\
    dict_get g "properties" = Some (PDict cp) /\
    (forall (name : string) (pd : pydict),
        dict_get props name = Some (PDict pd) ->
        dict_get pd "type" = None ->
        exists cleaned : pydict,
          dict_get cp name = Some (PDict cleaned) /\
          dict_get cleaned "type" = Some (PStr "string")) /\
    (forall (name : string) (v : pyval),
        dict_get props name = Some v ->
        isinstance_dict v = false ->
        dict_get cp name = None).
Proof.
  intros Hp Hnd.
  exists (dict_copy_key "required" d
            [("type", dict_get_default d "type" (PStr "object"));
             ("properties", PDict (ToolManager.convert_properties props []))]),
         (ToolManager.convert_properties props []).
  split; [simpl; now rewrite Hp|].
  split; [unfold dict_copy_key; now destruct (dict_get d "required")|].
  split.
  - intros name pd Hget Hty.
    exists (ToolManager.clean_property pd). split.
    + rewrite SchemaFacts.convert_properties_get by exact Hnd. now rewrite Hget.
    + rewrite SchemaFacts.clean_property_type.
      unfold dict_get_default. now rewrite Hty.
  - intros name v Hget Hv.
    rewrite SchemaFacts.convert_properties_get by exact Hnd. rewrite Hget.
    destruct v; try reflexivity. discriminate.
Qed.

Lemma C10_property_type_default_and_drop_witness :
  exists g cp : pydict,
    ToolManager._convert_mcp_schema_to_gemini (PDict loose_schema) = Ok (PDict g) /\
    dict_get g "properties" = Some (PDict cp) /\
    (exists cleaned : pydict,
        dict_get cp "q" = Some (PDict cleaned) /\
        dict_get cleaned "type" = Some (PStr "string")) /\
    dict_get cp "n" = None.
Proof.
  destruct (@C10_property_type_default_and_drop loose_schema loose_properties)
    as (g & cp & Hc & Hg & Hdef & Hdrop).
  - reflexivity.
  - unfold loose_properties; simpl.
    repeat constructor; simpl; intuition discriminate.
  - exists g, cp. split; [exact Hc|]. split; [exact Hg|]. split.
    + apply (Hdef "q" [("description", PStr "query"); ("minLength", PInt 1)]);
        reflexivity.
    + apply (Hdrop "n" (PInt 3)); reflexivity.
Defined.

(** ** The monad and the environment calls *)

Section EnvironmentFacts.
Context {W : Type} {E : Environment W}.

Lemma call_env_world {A : Type} (op : W -> Result A * W)
      (ev : Result A -> Event) (s : State W) :
  call_env op ev s =
  (fst (op (world s)),
   mkState (messages s) (snd (op (world s)))
           (trace s ++ [ev (fst (op (world s)))])%list).
Proof. unfold call_env. now destruct (op (world s)). Qed.

Lemma list_tools_messages (c : ClientRef) (s : State W) :
  messages (snd (list_tools c s)) = messages s.
Proof. unfold list_tools. now rewrite call_env_world. Qed.

Lemma list_tools_call_events (c : ClientRef) (s : State W) :
  call_events (trace (snd (list_tools c s))) = call_events (trace s).
Proof.
  unfold list_tools. rewrite call_env_world. simpl.
  unfold call_events. rewrite filter_app. simpl. apply app_nil_r.
Qed.

Lemma list_tools_chat_events (c : ClientRef) (s : State W) :
  chat_events (trace (snd (list_tools c s))) = chat_events (trace s).
Proof.
  unfold list_tools. rewrite call_env_world. simpl.
  unfold chat_events. rewrite filter_app. simpl. apply app_nil_r.
Qed.

Lemma call_tool_messages (c : ClientRef) (n : string) (i : pyval) (s : State W) :
  messages (snd (call_tool c n i s)) = messages s.
Proof. unfold call_tool. now rewrite call_env_world. Qed.

Lemma call_tool_chat_events (c : ClientRef) (n : string) (i : pyval)
      (s : State W) :
  chat_events (trace (snd (call_tool c n i s))) = chat_events (trace s).
Proof.
  unfold call_tool. rewrite call_env_world. simpl.
  unfold chat_events. rewrite filter_app. simpl. apply app_nil_r.
Qed.

Lemma list_tools_answers (c : ClientRef) (s : State W) :
  (forall w, exists ts w', client_list_tools c w = (Ok ts, w')) ->
  exists ts s', list_tools c s = (Ok ts, s').
Proof.
  intros H. destruct (H (world s)) as (ts & w' & Hw).
  unfold list_tools, call_env. rewrite Hw. eauto.
Qed.
End EnvironmentFacts.

(** ** Tool dispatch *)

Section DispatchFacts.
Context {W : Type} {E : Environment W}.
Import ToolManager.

Lemma find_client_cons (c : ClientRef) (cs : list ClientRef) (n : string)
      (s : State W) :
  _find_client_with_tool (c :: cs) n s =
  match list_tools c s with
  | (Ok tools, s1) =>
      match find (fun t => String.eqb (tool_name t) n) tools with
      | Some _ => (Ok (Some c), s1)
      | None => _find_client_with_tool cs n s1
      end
  | (Raise e, s1) => (Raise e, s1)
  end.
Proof.
  simpl. unfold bind. destruct (list_tools c s) as [[tools|e] s1]; [|reflexivity].
  now destruct (find _ tools).
Qed.

(** Looking a tool up only lists catalogues: no tool is invoked, no
    model is called and the transcript is untouched. *)
Lemma find_client_quiet (cs : list ClientRef) (n : string) :
  forall s,
    call_events (trace (snd (_find_client_with_tool cs n s))) = call_events (trace s) /\
    chat_events (trace (snd (_find_client_with_tool cs n s))) = chat_events (trace s) /\
    messages (snd (_find_client_with_tool cs n s)) = messages s.
Proof.
  induction cs as [|c cs IH]; intros s.
  - simpl. auto.
  - rewrite find_client_cons.
    pose proof (list_tools_call_events c s) as Hc.
    pose proof (list_tools_chat_events c s) as Hm.
    pose proof (list_tools_messages c s) as Hg.
    destruct (list_tools c s) as [[tools|e] s1]; simpl in *; [|auto].
    destruct (find _ tools); simpl; [auto|].
    destruct (IH s1) as (H1 & H2 & H3). rewrite H1, H2, H3. auto.
Qed.

Lemma find_client_total (cs : list ClientRef) (n : string) :
  (forall c, In c cs -> forall w, exists ts w', client_list_tools c w = (Ok ts, w')) ->
  forall s, exists o s', _find_client_with_tool cs n s = (Ok o, s').
Proof.
  induction cs as [|c cs IH]; intros Hans s.
  - simpl. unfold ret. eauto.
  - rewrite find_client_cons.
    destruct (list_tools_answers c s (Hans c (or_introl eq_refl)))
      as (ts & s1 & Hl).
    rewrite Hl. destruct (find _ ts); [eauto|].
    apply IH. intros c' Hc'. apply Hans. now right.
Qed.

Lemma find_client_unowned (cs : list ClientRef) (n : string) :
  (forall c, In c cs ->
             forall w, exists ts w',
               client_list_tools c w = (Ok ts, w') /\
               find (fun t => String.eqb (tool_name t) n) ts = None) ->
  forall s, exists s', _find_client_with_tool cs n s = (Ok None, s').
Proof.
  induction cs as [|c cs IH]; intros Hun s.
  - simpl. unfold ret. eauto.
  - rewrite find_client_cons.
    destruct (Hun c (or_introl eq_refl) (world s)) as (ts & w' & Hw & Hf).
    unfold list_tools, call_env. rewrite Hw, Hf.
    apply IH. intros c' Hc'. apply Hun. now right.
Qed.

(** [invoke_tool] never raises: an exception of the call becomes an
    error result. *)
Lemma invoke_tool_eq (c : ClientRef) (id n : string) (input : pyval)
      (s : State W) :
  invoke_tool c id n input s =
  match call_tool c n input s with
  | (Ok tool_output, s') =>
      (Ok (mkToolResult
             id "tool_result"
             (json_dumps
                (JArray (map JString
                             (text_items match tool_output with
                                         | Some out => ctr_content out
                                         | None => []
                                         end))))
             match tool_output with
             | Some out => isError out
             | None => false
             end), s')
  | (Raise e, s') =>
      (Ok (mkToolResult
             id "tool_result"
             (json_dumps
                (JObject [("error",
                           JString ("Error executing tool '" ++ n ++ "': "
                                                             ++ exc_str e))]))
             true), s')
  end.
Proof.
  unfold invoke_tool, try_except, bind, ret.
  destruct (call_tool c n input s) as [[[out|]|e] s']; try reflexivity.
  unfold _build_tool_result_part. now destruct (isError out).
Qed.

Lemma invoke_tool_total (c : ClientRef) (id n : string) (input : pyval)
      (s : State W) :
  exists r s', invoke_tool c id n input s = (Ok r, s') /\ tool_use_id r = id.
Proof.
  rewrite invoke_tool_eq.
  destruct (call_tool c n input s) as [[out|e] s']; eauto.
Qed.

Lemma claude_loop_cons (clients : list (string * ClientRef)) (req : ToolUse)
      (rest : list ToolUse) (acc : list ToolResult) (s : State W) :
  claude_loop clients (req :: rest) acc s =
  match _find_client_with_tool (dict_values clients) (tu_name req) s with
  | (Ok None, s1) =>
      claude_loop clients rest
        (acc ++ [mkToolResult (tu_id req) "tool_result"
                              "Could not find that tool" true])%list s1
  | (Ok (Some c), s1) =>
      match invoke_tool c (tu_id req) (tu_name req) (tu_input req) s1 with
      | (Ok part, s2) => claude_loop clients rest (acc ++ [part])%list s2
      | (Raise e, s2) => (Raise e, s2)
      end
  | (Raise e, s1) => (Raise e, s1)
  end.
Proof.
  simpl. unfold bind.
  destruct (_find_client_with_tool _ _ s) as [[[c|]|e] s1]; reflexivity.
Qed.

(** The function-call loop is the tool-use loop run on the requests
    with synthesized ids. *)
Lemma gemini_loop_as_claude (clients : list (string * ClientRef))
      (fcs : list FunctionCall) :
  forall i acc s,
    gemini_loop clients i fcs acc s =
    claude_loop clients (gemini_requests i fcs) acc s.
Proof.
  induction fcs as [|fc fcs IH]; intros i acc s; simpl.
  - reflexivity.
  - unfold bind.
    destruct (_find_client_with_tool _ _ s) as [[[c|]|e] s1]; try reflexivity.
    + destruct (invoke_tool _ _ _ _ s1) as [[part|e] s2]; [apply IH | reflexivity].
    + apply IH.
Qed.

Lemma gemini_requests_app (pre post : list FunctionCall) :
  forall i,
    gemini_requests i (pre ++ post) =
    (gemini_requests i pre ++ gemini_requests (i + length pre) post)%list.
Proof.
  induction pre as [|fc pre IH]; intros i; simpl.
  - now rewrite Nat.add_0_r.
  - rewrite IH. now rewrite Nat.add_succ_r.
Qed.

Lemma gemini_requests_length (fcs : list FunctionCall) :
  forall i, length (gemini_requests i fcs) = length fcs.
Proof. induction fcs as [|fc fcs IH]; intros i; simpl; [|rewrite IH]; reflexivity. Qed.

Lemma gemini_requests_nth (fcs : list FunctionCall) :
  forall i j,
    nth_error (gemini_requests i fcs) j =
    option_map (fun fc => mkToolUse (gemini_tool_use_id (i + j) (fc_name fc))
                                    (fc_name fc) (fc_args fc))
               (nth_error fcs j).
Proof.
  induction fcs as [|fc fcs IH]; intros i j; destruct j; simpl; try reflexivity.
  - now rewrite Nat.add_0_r.
  - rewrite IH. now rewrite Nat.add_succ_r.
Qed.

(** Running a batch is running a prefix and then the rest on the
    results collected so far. *)
Lemma claude_loop_app (clients : list (string * ClientRef))
      (pre post : list ToolUse) :
  forall acc s,
    claude_loop clients (pre ++ post) acc s =
    match claude_loop clients pre acc s with
    | (Ok acc', s1) => claude_loop clients post acc' s1
    | (Raise e, s1) => (Raise e, s1)
    end.
Proof.
  induction pre as [|req pre IH]; intros acc s.
  - reflexivity.
  - rewrite <- app_comm_cons. rewrite !claude_loop_cons.
    destruct (_find_client_with_tool _ _ s) as [[[c|]|e] s1]; try reflexivity.
    + destruct (invoke_tool _ _ _ _ s1) as [[part|e] s2]; [apply IH | reflexivity].
    + apply IH.
Qed.

(** The ids of the results are the ids of the requests, in order, after
    those of the results collected before. *)
Lemma claude_loop_ids (clients : list (string * ClientRef))
      (reqs : list ToolUse) :
  forall acc s rs s',
    claude_loop clients reqs acc s = (Ok rs, s') ->
    map tool_use_id rs = (map tool_use_id acc ++ map tu_id reqs)%list.
Proof.
  induction reqs as [|req reqs IH]; intros acc s rs s' Hrun.
  - simpl in Hrun. injection Hrun as <- _. now rewrite app_nil_r.
  - rewrite claude_loop_cons in Hrun.
    destruct (_find_client_with_tool _ _ s) as [[[c|]|e] s1]; try discriminate.
    + destruct (invoke_tool_total c (tu_id req) (tu_name req) (tu_input req) s1)
        as (part & s2 & Hinv & Hid).
      rewrite Hinv in Hrun. apply IH in Hrun.
      rewrite Hrun, map_app. simpl. rewrite Hid. now rewrite <- app_assoc.
    + apply IH in Hrun. rewrite Hrun, map_app. simpl. now rewrite <- app_assoc.
Qed.

Lemma claude_loop_total (clients : list (string * ClientRef))
      (reqs : list ToolUse) :
  catalog_answers clients ->
  forall acc s, exists rs s', claude_loop clients reqs acc s = (Ok rs, s').
Proof.
  intros Hans. induction reqs as [|req reqs IH]; intros acc s.
  - simpl. unfold ret. eauto.
  - rewrite claude_loop_cons.
    destruct (find_client_total (dict_values clients) (tu_name req) Hans s)
      as (o & s1 & Hf).
    rewrite Hf. destruct o as [c|]; [|apply IH].
    destruct (invoke_tool_total c (tu_id req) (tu_name req) (tu_input req) s1)
      as (part & s2 & Hinv & _).
    rewrite Hinv. apply IH.
Qed.

(** The results collected before a request stay in front. *)
Lemma claude_loop_prefix (clients : list (string * ClientRef))
      (reqs : list ToolUse) :
  forall acc s rs s',
    claude_loop clients reqs acc s = (Ok rs, s') ->
    exists rs', rs = (acc ++ rs')%list /\ length rs' = length reqs.
Proof.
  induction reqs as [|req reqs IH]; intros acc s rs s' Hrun.
  - simpl in Hrun. injection Hrun as <- _. exists []. now rewrite app_nil_r.
  - rewrite claude_loop_cons in Hrun.
    destruct (_find_client_with_tool _ _ s) as [[[c|]|e] s1]; try discriminate.
    + destruct (invoke_tool _ _ _ _ s1) as [[part|e] s2]; try discriminate.
      apply IH in Hrun as (rs' & -> & Hlen).
      exists (part :: rs'). rewrite <- app_assoc. simpl. now rewrite Hlen.
    + apply IH in Hrun as (rs' & -> & Hlen).
      eexists (_ :: rs'). rewrite <- app_assoc. simpl. now rewrite Hlen.
Qed.
End DispatchFacts.

Example str_of_nat_examples :
  str_of_nat 0 = "0" /\ str_of_nat 7 = "7" /\ str_of_nat 12 = "12".
Proof. repeat split. Qed.

Example execute_fixture_batch :
  fst (ToolManager._execute_gemini_function_calls
         fixture_clients batch_search_unknown_boom_fetch
         (initial_state ([] : list Response)))
  = Ok [mkToolResult "gemini_call_0_search" "tool_result"
                     (json_dumps (JArray [JString "ran search"])) false;
        mkToolResult "gemini_call_1_unknown" "tool_result"
                     "Could not find that tool" true;
        mkToolResult "gemini_call_2_boom" "tool_result"
                     (json_dumps
                        (JObject [("error",
                                   JString "Error executing tool 'boom': kaboom")]))
                     true;
        mkToolResult "gemini_call_3_fetch" "tool_result"
                     (json_dumps (JArray [JString "ran fetch"])) false].
Proof. reflexivity. Qed.

Example json_dumps_examples :
  let q := String dquote EmptyString in
  json_dumps (JArray [JString "ran search"; JString "b"]) =
  "[" ++ q ++ "ran search" ++ q ++ ", " ++ q ++ "b" ++ q ++ "]"
  /\ json_dumps (JArray []) = "[]"
  /\ json_dumps (JObject [("error", JString "x")]) =
     "{" ++ q ++ "error" ++ q ++ ": " ++ q ++ "x" ++ q ++ "}"
  /\ json_escape ("a" ++ q ++ newline ++ String (ascii_of_nat 233) "b") =
     "a" ++ String backslash q ++ String backslash "n"
         ++ String backslash "u00e9" ++ "b".
Proof. repeat split. Qed.

Lemma map_eq_nth {A B C : Type} (f : A -> C) (g : B -> C) :
  forall (xs : list A) (ys : list B),
    map f xs = map g ys ->
    length xs = length ys /\
    forall i y, nth_error ys i = Some y ->
                exists x, nth_error xs i = Some x /\ f x = g y.
Proof.
  induction xs as [|x xs IH]; intros [|y ys] Heq; simpl in Heq; try discriminate.
  - split; [reflexivity|]. intros [|i] y Hy; discriminate.
  - injection Heq as Hhd Htl. destruct (IH ys Htl) as [Hlen Hnth].
    split; [simpl; now rewrite Hlen|].
    intros [|i] y' Hy; simpl in *.
    + injection Hy as <-. eauto.
    + now apply Hnth.
Qed.

Section DispatchClaims.
Context {W : Type} {E : Environment W}.
Import ToolManager.

(** C3. [execute_tool_requests] returns one result per request, in the
    order of the requests: for a function-call batch and for a batch of
    tool-use blocks the result list has the length of the batch and its
    i-th entry carries the id of the i-th request; a response with
    neither yields the empty list; and the list is returned whenever the
    registered clients answer their catalogue queries. *)
Theorem C3_one_result_per_request
        (clients : list (string * ClientRef)) (response : Response)
        (s : State W) :
  (forall fcs : list FunctionCall,
      function_calls response = Some fcs -> fcs <> [] ->
      forall rs s',
        execute_tool_requests clients response s = (Ok rs, s') ->
        length rs = length fcs /\
        forall i call, nth_error fcs i = Some call ->
                       exists r, nth_error rs i = Some r /\
                                 tool_use_id r = gemini_tool_use_id i (fc_name call)) /\
  (forall blocks : list ContentBlock,
      wants_function_calls response = false ->
      resp_content response = Some blocks ->
      forall rs s',
        execute_tool_requests clients response s = (Ok rs, s') ->
        length rs = length (tool_use_blocks blocks) /\
        forall i req, nth_error (tool_use_blocks blocks) i = Some req ->
                      exists r, nth_error rs i = Some r /\
                                tool_use_id r = tu_id req) /\
  (wants_function_calls response = false ->
   resp_content response = None ->
   execute_tool_requests clients response s = (Ok [], s)) /\
  (catalog_answers clients ->
   exists rs s', execute_tool_requests clients response s = (Ok rs, s')).
Proof.
  unfold execute_tool_requests, wants_function_calls,
    _execute_gemini_function_calls, _execute_claude_tool_requests.
  split; [|split; [|split]].
  - intros fcs Hfcs Hne rs s' Hrun. rewrite Hfcs in Hrun.
    destruct fcs as [|fc fcs]; [congruence|].
    rewrite gemini_loop_as_claude in Hrun.
    apply claude_loop_ids in Hrun. simpl map at 2 in Hrun. simpl app in Hrun.
    apply map_eq_nth in Hrun as [Hlen Hnth].
    split; [now rewrite Hlen, gemini_requests_length|].
    intros i call Hcall.
    destruct (Hnth i (mkToolUse (gemini_tool_use_id i (fc_name call))
                                (fc_name call) (fc_args call)))
      as (r & Hr & Hid).
    + rewrite gemini_requests_nth, Hcall. reflexivity.
    + eauto.
  - intros blocks Hw Hc rs s' Hrun. rewrite Hc in Hrun.
    assert (claude_loop clients (tool_use_blocks blocks) [] s = (Ok rs, s'))
      as Hrun'.
    { destruct (function_calls response) as [[|fc fcs]|];
        [exact Hrun | discriminate | exact Hrun]. }
    apply claude_loop_ids in Hrun'. now apply map_eq_nth in Hrun'.
  - intros Hw Hc. rewrite Hc.
    destruct (function_calls response) as [[|fc fcs]|]; try discriminate;
      reflexivity.
  - intros Hans.
    destruct (function_calls response) as [[|fc fcs]|];
      try (destruct (resp_content response);
           [apply claude_loop_total; exact Hans | unfold ret; eauto]).
    rewrite gemini_loop_as_claude. apply claude_loop_total; exact Hans.
Qed.
End DispatchClaims.

(** ** Synthesized ids *)

Lemma string_of_uint_digits (d : Decimal.uint) :
  all_digits (NilEmpty.string_of_uint d) = true.
Proof. induction d; simpl; try reflexivity; exact IHd. Qed.

Lemma str_of_nat_inj (i j : nat) : str_of_nat i = str_of_nat j -> i = j.
Proof.
  unfold str_of_nat. intros H. apply Unsigned.to_uint_inj.
  apply (f_equal NilEmpty.uint_of_string) in H.
  rewrite !NilEmpty.usu in H. now injection H.
Qed.

(** A run of digits closed by an underscore is determined by the text
    that starts with it. *)
Lemma digits_underscore_inj (a : string) :
  forall (b n m : string),
    all_digits a = true -> all_digits b = true ->
    a ++ "_" ++ n = b ++ "_" ++ m -> a = b.
Proof.
  induction a as [|c a IH]; intros [|c' b] n m Ha Hb Heq; simpl in *.
  - reflexivity.
  - injection Heq as Hc _. subst c'.
    apply andb_true_iff in Hb as [Hb _]. discriminate.
  - injection Heq as Hc _. subst c.
    apply andb_true_iff in Ha as [Ha _]. discriminate.
  - injection Heq as Hc Heq. subst c'.
    apply andb_true_iff in Ha as [_ Ha]. apply andb_true_iff in Hb as [_ Hb].
    f_equal. exact (IH b n m Ha Hb Heq).
Qed.

Lemma gemini_tool_use_id_index (i j : nat) (n m : string) :
  ToolManager.gemini_tool_use_id i n = ToolManager.gemini_tool_use_id j m ->
  i = j.
Proof.
  unfold ToolManager.gemini_tool_use_id. intros H.
  simpl in H. injection H as H.
  apply str_of_nat_inj.
  apply (digits_underscore_inj _ _ n m); try apply string_of_uint_digits.
  exact H.
Qed.

Lemma gemini_requests_ids_from (fcs : list FunctionCall) :
  forall i x,
    In x (map tu_id (gemini_requests i fcs)) ->
    exists j n, i <= j /\ x = ToolManager.gemini_tool_use_id j n.
Proof.
  induction fcs as [|fc fcs IH]; intros i x Hin; simpl in Hin.
  - contradiction.
  - destruct Hin as [<- | Hin].
    + exists i, (fc_name fc). split; [lia | reflexivity].
    + destruct (IH (S i) x Hin) as (j & n & Hle & ->).
      exists j, n. split; [lia | reflexivity].
Qed.

Lemma gemini_requests_ids_NoDup (fcs : list FunctionCall) :
  forall i, NoDup (map tu_id (gemini_requests i fcs)).
Proof.
  induction fcs as [|fc fcs IH]; intros i; simpl.
  - constructor.
  - constructor; [|apply IH].
    intros Hin. apply gemini_requests_ids_from in Hin as (j & n & Hle & Heq).
    apply gemini_tool_use_id_index in Heq. lia.
Qed.

(** C4. For a function-call batch there is one result per call and, for
    every position i of the batch, the i-th result carries the id
    [gemini_call_<i>_<name>] built from that position and the tool name
    of the i-th call: the ids of the results are, in order, the ids of
    [gemini_requests 0 fcs].  So the ids within one batch are pairwise
    distinct and the same batch yields the same ids whatever the
    environment, the clients and the state; for a tool-use batch each
    result carries the id of its request unchanged. *)
Theorem C4_result_ids :
  (forall (W : Type) (E : Environment W) (clients : list (string * ClientRef))
          (fcs : list FunctionCall) (s : State W) rs s',
      ToolManager._execute_gemini_function_calls clients fcs s = (Ok rs, s') ->
      length rs = length fcs /\
      map tool_use_id rs = map tu_id (gemini_requests 0 fcs) /\
      (forall i call, nth_error fcs i = Some call ->
                      exists r, nth_error rs i = Some r /\
                                tool_use_id r =
                                "gemini_call_" ++ str_of_nat i ++ "_" ++ fc_name call) /\
      (forall i r, nth_error rs i = Some r ->
                   exists call, nth_error fcs i = Some call /\
                                tool_use_id r =
                                "gemini_call_" ++ str_of_nat i ++ "_" ++ fc_name call) /\
      NoDup (map tool_use_id rs)) /\
  (forall (W1 W2 : Type) (E1 : Environment W1) (E2 : Environment W2)
          (clients1 clients2 : list (string * ClientRef))
          (fcs : list FunctionCall) (s1 : State W1) (s2 : State W2)
          rs1 s1' rs2 s2',
      ToolManager._execute_gemini_function_calls clients1 fcs s1 = (Ok rs1, s1') ->
      ToolManager._execute_gemini_function_calls clients2 fcs s2 = (Ok rs2, s2') ->
      map tool_use_id rs1 = map tool_use_id rs2) /\
  (forall (W : Type) (E : Environment W) (clients : list (string * ClientRef))
          (reqs : list ToolUse) (s : State W) rs s',
      ToolManager._execute_claude_tool_requests clients reqs s = (Ok rs, s') ->
      map tool_use_id rs = map tu_id reqs).
Proof.
  unfold ToolManager._execute_gemini_function_calls,
    ToolManager._execute_claude_tool_requests.
  split; [|split].
  - intros W E clients fcs s rs s' Hrun.
    rewrite gemini_loop_as_claude in Hrun. apply claude_loop_ids in Hrun.
    simpl in Hrun.
    destruct (map_eq_nth _ _ _ _ Hrun) as [Hlen Hnth].
    split; [now rewrite Hlen, gemini_requests_length|].
    split; [exact Hrun|].
    split; [|split].
    + intros i call Hcall.
      destruct (Hnth i (mkToolUse (ToolManager.gemini_tool_use_id i (fc_name call))
                                  (fc_name call) (fc_args call)))
        as (r & Hr & Hid).
      * rewrite gemini_requests_nth, Hcall. reflexivity.
      * exists r. split; [exact Hr|]. rewrite Hid. reflexivity.
    + intros i r Hr.
      apply (map_nth_error tool_use_id) in Hr. rewrite Hrun in Hr.
      rewrite nth_error_map, gemini_requests_nth in Hr.
      destruct (nth_error fcs i) as [call|]; [|discriminate].
      exists call. split; [reflexivity|].
      simpl in Hr. injection Hr as <-. reflexivity.
    + rewrite Hrun. apply gemini_requests_ids_NoDup.
  - intros W1 W2 E1 E2 clients1 clients2 fcs s1 s2 rs1 s1' rs2 s2' H1 H2.
    rewrite gemini_loop_as_claude in H1. rewrite gemini_loop_as_claude in H2.
    apply claude_loop_ids in H1. apply claude_loop_ids in H2.
    now rewrite H1, H2.
  - intros W E clients reqs s rs s' Hrun.
    apply claude_loop_ids in Hrun. exact Hrun.
Qed.

(** ** Requests that fail *)

Section DispatchErrors.
Context {W : Type} {E : Environment W}.
Import ToolManager.

Lemma claude_loop_after (clients : list (string * ClientRef))
      (post : list ToolUse) (acc : list ToolResult) (r : ToolResult)
      (s : State W) rs s' :
  claude_loop clients post (acc ++ [r])%list s = (Ok rs, s') ->
  length rs = length acc + 1 + length post /\
  nth_error rs (length acc) = Some r.
Proof.
  intros Hrun. apply claude_loop_prefix in Hrun as (rs' & -> & Hlen).
  split.
  - rewrite !length_app. simpl. lia.
  - rewrite <- app_assoc. rewrite nth_error_app2 by lia.
    now rewrite Nat.sub_diag.
Qed.

Lemma claude_loop_done_length (clients : list (string * ClientRef))
      (pre : list ToolUse) (s : State W) acc s1 :
  claude_loop clients pre [] s = (Ok acc, s1) -> length acc = length pre.
Proof. intros H. now apply claude_loop_prefix in H as (rs' & -> & Hlen). Qed.

(** One request whose tool no client owns, after the prefix [pre]. *)
Lemma claude_unowned_step (clients : list (string * ClientRef))
      (pre : list ToolUse) (req : ToolUse) (post : list ToolUse)
      (s : State W) acc s1 :
  unowned clients (tu_name req) ->
  claude_loop clients pre [] s = (Ok acc, s1) ->
  let r := mkToolResult (tu_id req) "tool_result" "Could not find that tool" true in
  exists s2,
    _find_client_with_tool (dict_values clients) (tu_name req) s1 = (Ok None, s2) /\
    call_events (trace s2) = call_events (trace s1) /\
    claude_loop clients (pre ++ req :: post) [] s =
    claude_loop clients post (acc ++ [r])%list s2 /\
    forall rs s',
      claude_loop clients (pre ++ req :: post) [] s = (Ok rs, s') ->
      length rs = length (pre ++ req :: post) /\
      nth_error rs (length pre) = Some r.
Proof.
  intros Hun Hpre r.
  destruct (find_client_unowned (dict_values clients) (tu_name req) Hun s1)
    as (s2 & Hfind).
  assert (claude_loop clients (pre ++ req :: post) [] s =
          claude_loop clients post (acc ++ [r])%list s2) as Hstep.
  { rewrite claude_loop_app, Hpre, claude_loop_cons, Hfind. reflexivity. }
  exists s2. split; [exact Hfind|]. split.
  - pose proof (find_client_quiet (dict_values clients) (tu_name req) s1) as Hq.
    rewrite Hfind in Hq. apply Hq.
  - split; [exact Hstep|].
    intros rs s' Hrun. rewrite Hstep in Hrun.
    apply claude_loop_after in Hrun as [Hlen Hnth].
    rewrite (claude_loop_done_length _ _ _ Hpre) in Hlen, Hnth.
    split; [rewrite length_app; simpl; lia | exact Hnth].
Qed.

(** One request whose invocation raises, after the prefix [pre]. *)
Lemma claude_raise_step (clients : list (string * ClientRef))
      (pre : list ToolUse) (req : ToolUse) (post : list ToolUse)
      (s : State W) acc s1 c s2 e s3 :
  claude_loop clients pre [] s = (Ok acc, s1) ->
  _find_client_with_tool (dict_values clients) (tu_name req) s1 = (Ok (Some c), s2) ->
  call_tool c (tu_name req) (tu_input req) s2 = (Raise e, s3) ->
  let r :=
    mkToolResult
      (tu_id req) "tool_result"
      (json_dumps
         (JObject [("error",
                    JString ("Error executing tool '" ++ tu_name req ++ "': "
                                                      ++ exc_str e))]))
      true in
  claude_loop clients (pre ++ req :: post) [] s =
  claude_loop clients post (acc ++ [r])%list s3 /\
  (forall rs s',
      claude_loop clients (pre ++ req :: post) [] s = (Ok rs, s') ->
      length rs = length (pre ++ req :: post) /\
      nth_error rs (length pre) = Some r) /\
  (catalog_answers clients ->
   exists rs s', claude_loop clients (pre ++ req :: post) [] s = (Ok rs, s')).
Proof.
  intros Hpre Hfind Hcall r.
  assert (claude_loop clients (pre ++ req :: post) [] s =
          claude_loop clients post (acc ++ [r])%list s3) as Hstep.
  { rewrite claude_loop_app, Hpre, claude_loop_cons, Hfind, invoke_tool_eq, Hcall.
    reflexivity. }
  split; [exact Hstep|]. split.
  - intros rs s' Hrun. rewrite Hstep in Hrun.
    apply claude_loop_after in Hrun as [Hlen Hnth].
    rewrite (claude_loop_done_length _ _ _ Hpre) in Hlen, Hnth.
    split; [rewrite length_app; simpl; lia | exact Hnth].
  - intros Hans. rewrite Hstep. now apply claude_loop_total.
Qed.

Lemma gemini_requests_split (pre : list FunctionCall) (call : FunctionCall)
      (post : list FunctionCall) :
  gemini_requests 0 (pre ++ call :: post) =
  (gemini_requests 0 pre
   ++ mkToolUse (gemini_tool_use_id (length pre) (fc_name call))
                (fc_name call) (fc_args call)
   :: gemini_requests (S (length pre)) post)%list.
Proof. now rewrite gemini_requests_app. Qed.

(** C6. A request whose tool name no registered client owns, met after
    any prefix of a batch (of either variant), yields exactly one result
    with [is_error] set and content ["Could not find that tool"]; the
    lookup finds no client and no tool is invoked for it; and the
    executor goes on with the remaining requests of the batch. *)
Theorem C6_unknown_tool_result (clients : list (string * ClientRef)) :
  (forall (pre : list FunctionCall) (call : FunctionCall)
          (post : list FunctionCall) (s : State W) acc s1,
      unowned clients (fc_name call) ->
      _execute_gemini_function_calls clients pre s = (Ok acc, s1) ->
      let r := mkToolResult (gemini_tool_use_id (length pre) (fc_name call))
                            "tool_result" "Could not find that tool" true in
      exists s2,
        _find_client_with_tool (dict_values clients) (fc_name call) s1
        = (Ok None, s2) /\
        call_events (trace s2) = call_events (trace s1) /\
        _execute_gemini_function_calls clients (pre ++ call :: post) s =
        gemini_loop clients (S (length pre)) post (acc ++ [r])%list s2 /\
        forall rs s',
          _execute_gemini_function_calls clients (pre ++ call :: post) s
          = (Ok rs, s') ->
          length rs = length (pre ++ call :: post) /\
          nth_error rs (length pre) = Some r) /\
  (forall (pre : list ToolUse) (req : ToolUse) (post : list ToolUse)
          (s : State W) acc s1,
      unowned clients (tu_name req) ->
      _execute_claude_tool_requests clients pre s = (Ok acc, s1) ->
      let r := mkToolResult (tu_id req) "tool_result"
                            "Could not find that tool" true in
      exists s2,
        _find_client_with_tool (dict_values clients) (tu_name req) s1
        = (Ok None, s2) /\
        call_events (trace s2) = call_events (trace s1) /\
        _execute_claude_tool_requests clients (pre ++ req :: post) s =
        claude_loop clients post (acc ++ [r])%list s2 /\
        forall rs s',
          _execute_claude_tool_requests clients (pre ++ req :: post) s
          = (Ok rs, s') ->
          length rs = length (pre ++ req :: post) /\
          nth_error rs (length pre) = Some r).
Proof.
  unfold _execute_gemini_function_calls, _execute_claude_tool_requests.
  split.
  - intros pre call post s acc s1 Hun Hpre.
    rewrite gemini_loop_as_claude in Hpre.
    destruct (@claude_unowned_step
                clients (gemini_requests 0 pre)
                (mkToolUse (gemini_tool_use_id (length pre) (fc_name call))
                           (fc_name call) (fc_args call))
                (gemini_requests (S (length pre)) post) s acc s1 Hun Hpre)
      as (s2 & Hfind & Hquiet & Hstep & Hres).
    simpl in Hfind, Hstep, Hres.
    exists s2. split; [exact Hfind|]. split; [exact Hquiet|]. split.
    + rewrite !gemini_loop_as_claude, gemini_requests_split. exact Hstep.
    + intros rs s' Hrun.
      rewrite gemini_loop_as_claude, gemini_requests_split in Hrun.
      apply Hres in Hrun.
      rewrite length_app in Hrun. simpl in Hrun.
      rewrite !gemini_requests_length in Hrun.
      rewrite length_app. simpl. exact Hrun.
  - intros pre req post s acc s1 Hun Hpre.
    exact (@claude_unowned_step clients pre req post s acc s1 Hun Hpre).
Qed.

(** C7. A request whose tool invocation raises, met after any prefix of
    a batch (of either variant), yields exactly one result with
    [is_error] set whose content is the JSON object with the single
    member [error] holding the message of the failure; the executor goes
    on with the remaining requests, and the batch returns its results
    whenever the registered clients answer their catalogue queries. *)
Theorem C7_raising_tool_isolated (clients : list (string * ClientRef)) :
  (forall (pre : list FunctionCall) (call : FunctionCall)
          (post : list FunctionCall) (s : State W) acc s1 c s2 e s3,
      _execute_gemini_function_calls clients pre s = (Ok acc, s1) ->
      _find_client_with_tool (dict_values clients) (fc_name call) s1
      = (Ok (Some c), s2) ->
      call_tool c (fc_name call) (fc_args call) s2 = (Raise e, s3) ->
      let r :=
        mkToolResult
          (gemini_tool_use_id (length pre) (fc_name call)) "tool_result"
          (json_dumps
             (JObject [("error",
                        JString ("Error executing tool '" ++ fc_name call
                                   ++ "': " ++ exc_str e))]))
          true in
      _execute_gemini_function_calls clients (pre ++ call :: post) s =
      gemini_loop clients (S (length pre)) post (acc ++ [r])%list s3 /\
      (forall rs s',
          _execute_gemini_function_calls clients (pre ++ call :: post) s
          = (Ok rs, s') ->
          length rs = length (pre ++ call :: post) /\
          nth_error rs (length pre) = Some r) /\
      (catalog_answers clients ->
       exists rs s',
         _execute_gemini_function_calls clients (pre ++ call :: post) s
         = (Ok rs, s'))) /\
  (forall (pre : list ToolUse) (req : ToolUse) (post : list ToolUse)
          (s : State W) acc s1 c s2 e s3,
      _execute_claude_tool_requests clients pre s = (Ok acc, s1) ->
      _find_client_with_tool (dict_values clients) (tu_name req) s1
      = (Ok (Some c), s2) ->
      call_tool c (tu_name req) (tu_input req) s2 = (Raise e, s3) ->
      let r :=
        mkToolResult
          (tu_id req) "tool_result"
          (json_dumps
             (JObject [("error",
                        JString ("Error executing tool '" ++ tu_name req
                                   ++ "': " ++ exc_str e))]))
          true in
      _execute_claude_tool_requests clients (pre ++ req :: post) s =
      claude_loop clients post (acc ++ [r])%list s3 /\
      (forall rs s',
          _execute_claude_tool_requests clients (pre ++ req :: post) s
          = (Ok rs, s') ->
          length rs = length (pre ++ req :: post) /\
          nth_error rs (length pre) = Some r) /\
      (catalog_answers clients ->
       exists rs s',
         _execute_claude_tool_requests clients (pre ++ req :: post) s
         = (Ok rs, s'))).
Proof.
  unfold _execute_gemini_function_calls, _execute_claude_tool_requests.
  split.
  - intros pre call post s acc s1 c s2 e s3 Hpre Hfind Hcall.
    rewrite gemini_loop_as_claude in Hpre.
    destruct (@claude_raise_step
                clients (gemini_requests 0 pre)
                (mkToolUse (gemini_tool_use_id (length pre) (fc_name call))
                           (fc_name call) (fc_args call))
                (gemini_requests (S (length pre)) post)
                s acc s1 c s2 e s3 Hpre Hfind Hcall)
      as (Hstep & Hres & Htotal).
    simpl in Hstep, Hres, Htotal.
    rewrite !gemini_loop_as_claude, gemini_requests_split.
    split; [exact Hstep|]. split; [|exact Htotal].
    intros rs s' Hrun. apply Hres in Hrun.
    rewrite length_app in Hrun. simpl in Hrun.
    rewrite !gemini_requests_length in Hrun.
    rewrite length_app. simpl. exact Hrun.
  - intros pre req post s acc s1 c s2 e s3 Hpre Hfind Hcall.
    exact (@claude_raise_step clients pre req post s acc s1 c s2 e s3
                              Hpre Hfind Hcall).
Qed.
End DispatchErrors.

(** ** The claims on the two-server fixture *)

Lemma fixture_catalog_answers : @catalog_answers _ ScriptedEnv fixture_clients.
Proof. intros c _ w. exists (fixture_tools c), w. reflexivity. Defined.

Lemma fixture_unowned_unknown : @unowned _ ScriptedEnv fixture_clients "unknown".
Proof.
  intros c Hc w. exists (fixture_tools c), w.
  destruct Hc as [<- | [<- | []]]; split; reflexivity.
Defined.

Lemma C3_one_result_per_request_witness :
  (exists rs s',
      ToolManager.execute_tool_requests fixture_clients response_batch start
      = (Ok rs, s') /\
      length rs = 4 /\
      forall i call,
        nth_error batch_search_unknown_boom_fetch i = Some call ->
        exists r, nth_error rs i = Some r /\
                  tool_use_id r = ToolManager.gemini_tool_use_id i (fc_name call)) /\
  (exists rs s',
      ToolManager.execute_tool_requests fixture_clients response_blocks start
      = (Ok rs, s') /\
      length rs = 2) /\
  ToolManager.execute_tool_requests fixture_clients response_bare start
  = (Ok [], start).
Proof.
  split; [|split].
  - destruct (C3_one_result_per_request fixture_clients response_batch start)
      as (Ha & _ & _ & Hd).
    destruct (Hd fixture_catalog_answers) as (rs & s' & Hrun).
    exists rs, s'. split; [exact Hrun|].
    refine (Ha batch_search_unknown_boom_fetch eq_refl _ rs s' Hrun).
    discriminate.
  - destruct (C3_one_result_per_request fixture_clients response_blocks start)
      as (_ & Hb & _ & Hd).
    destruct (Hd fixture_catalog_answers) as (rs & s' & Hrun).
    exists rs, s'. split; [exact Hrun|].
    apply (Hb blocks_text_fetch_boom eq_refl eq_refl rs s' Hrun).
  - destruct (C3_one_result_per_request fixture_clients response_bare start)
      as (_ & _ & Hc & _).
    apply Hc; reflexivity.
Defined.

Lemma C4_result_ids_witness :
  exists rs s' rs2 s2' rb sb',
    ToolManager._execute_gemini_function_calls
      fixture_clients batch_search_unknown_boom_fetch start = (Ok rs, s') /\
    ToolManager._execute_gemini_function_calls
      [] batch_search_unknown_boom_fetch (initial_state tt) = (Ok rs2, s2') /\
    ToolManager._execute_claude_tool_requests
      fixture_clients requests_fetch_unknown_boom start = (Ok rb, sb') /\
    length rs = 4 /\
    map tool_use_id rs =
    ["gemini_call_0_search"; "gemini_call_1_unknown";
     "gemini_call_2_boom"; "gemini_call_3_fetch"] /\
    NoDup (map tool_use_id rs) /\
    map tool_use_id rs = map tool_use_id rs2 /\
    map tool_use_id rb = ["toolu_01"; "toolu_02"; "toolu_03"].
Proof.
  destruct (ToolManager._execute_gemini_function_calls
              fixture_clients batch_search_unknown_boom_fetch start)
    as [[rs|e] s'] eqn:H1; [|vm_compute in H1; discriminate].
  destruct (ToolManager._execute_gemini_function_calls
              [] batch_search_unknown_boom_fetch (initial_state tt))
    as [[rs2|e] s2'] eqn:H2; [|vm_compute in H2; discriminate].
  destruct (ToolManager._execute_claude_tool_requests
              fixture_clients requests_fetch_unknown_boom start)
    as [[rb|e] sb'] eqn:H3; [|vm_compute in H3; discriminate].
  exists rs, s', rs2, s2', rb, sb'.
  do 3 (split; [reflexivity|]).
  destruct C4_result_ids as (Ha & Hb & Hc).
  destruct (Ha _ _ _ _ _ _ _ H1) as (Hlen & Hids & _ & _ & Hnodup).
  split; [exact Hlen|]. split; [exact Hids|].
  split; [|split].
  - exact Hnodup.
  - exact (Hb _ _ _ _ _ _ _ _ _ _ _ _ _ H1 H2).
  - exact (Hc _ _ _ _ _ _ _ H3).
Defined.

Lemma C6_unknown_tool_result_witness :
  (exists rs s',
      ToolManager._execute_gemini_function_calls
        fixture_clients batch_search_unknown_boom_fetch start = (Ok rs, s') /\
      length rs = 4 /\
      nth_error rs 1 =
      Some (mkToolResult "gemini_call_1_unknown" "tool_result"
                         "Could not find that tool" true)) /\
  (exists rs s',
      ToolManager._execute_claude_tool_requests
        fixture_clients requests_fetch_unknown_boom start = (Ok rs, s') /\
      length rs = 3 /\
      nth_error rs 1 =
      Some (mkToolResult "toolu_02" "tool_result"
                         "Could not find that tool" true)).
Proof.
  destruct (@C6_unknown_tool_result _ ScriptedEnv fixture_clients) as [Ha Hb].
  split.
  - edestruct (Ha [mkFunctionCall "search" (PDict [])]
                  (mkFunctionCall "unknown" (PDict []))
                  [mkFunctionCall "boom" (PDict []);
                   mkFunctionCall "fetch" (PDict [])] start)
      as (s2 & _ & _ & _ & Hres);
      [exact fixture_unowned_unknown | vm_compute; reflexivity |].
    do 2 eexists. split; [vm_compute; reflexivity|]. eapply Hres.
    vm_compute; reflexivity.
  - edestruct (Hb [mkToolUse "toolu_01" "fetch" (PDict [])]
                  (mkToolUse "toolu_02" "unknown" (PDict []))
                  [mkToolUse "toolu_03" "boom" (PDict [])] start)
      as (s2 & _ & _ & _ & Hres);
      [exact fixture_unowned_unknown | vm_compute; reflexivity |].
    do 2 eexists. split; [vm_compute; reflexivity|]. eapply Hres.
    vm_compute; reflexivity.
Defined.

Lemma C7_raising_tool_isolated_witness :
  (exists rs s',
      ToolManager._execute_gemini_function_calls
        fixture_clients batch_search_unknown_boom_fetch start = (Ok rs, s') /\
      length rs = 4 /\
      nth_error rs 2 =
      Some (mkToolResult
              "gemini_call_2_boom" "tool_result"
              (json_dumps
                 (JObject [("error",
                            JString "Error executing tool 'boom': kaboom")]))
              true)) /\
  (exists rs s',
      ToolManager._execute_claude_tool_requests
        fixture_clients requests_fetch_unknown_boom start = (Ok rs, s') /\
      length rs = 3 /\
      nth_error rs 2 =
      Some (mkToolResult
              "toolu_03" "tool_result"
              (json_dumps
                 (JObject [("error",
                            JString "Error executing tool 'boom': kaboom")]))
              true)).
Proof.
  destruct (@C7_raising_tool_isolated _ ScriptedEnv fixture_clients) as [Ha Hb].
  split.
  - edestruct (Ha [mkFunctionCall "search" (PDict []);
                   mkFunctionCall "unknown" (PDict [])]
                  (mkFunctionCall "boom" (PDict []))
                  [mkFunctionCall "fetch" (PDict [])] start)
      as (_ & Hres & Htotal);
      [vm_compute; reflexivity | vm_compute; reflexivity
       | vm_compute; reflexivity |].
    destruct (Htotal fixture_catalog_answers) as (rs & s' & Hrun).
    exists rs, s'. split; [exact Hrun|]. exact (Hres rs s' Hrun).
  - edestruct (Hb [mkToolUse "toolu_01" "fetch" (PDict []);
                   mkToolUse "toolu_02" "unknown" (PDict [])]
                  (mkToolUse "toolu_03" "boom" (PDict []))
                  [] start)
      as (_ & Hres & Htotal);
      [vm_compute; reflexivity | vm_compute; reflexivity
       | vm_compute; reflexivity |].
    destruct (Htotal fixture_catalog_answers) as (rs & s' & Hrun).
    exists rs, s'. split; [exact Hrun|]. exact (Hres rs s' Hrun).
Defined.

(** ** Strings *)

Lemma append_nil_r (s : string) : s ++ EmptyString = s.
Proof. induction s as [|c s IH]; simpl; [|rewrite IH]; reflexivity. Qed.

Lemma append_assoc (a b c : string) : (a ++ b) ++ c = a ++ (b ++ c).
Proof. induction a as [|x a IH]; simpl; [|rewrite IH]; reflexivity. Qed.

(** ** Quiet computations *)

Section QuietFacts.
Context {W : Type} {E : Environment W}.
Import ToolManager.

Lemma quiet_ret {A : Type} (a : A) : quiet (ret (S := State W) a).
Proof. intros s. simpl. auto. Qed.

Lemma quiet_lift_result {A : Type} (r : Result A) :
  quiet (lift_result (S := State W) r).
Proof. intros s. simpl. auto. Qed.

Lemma quiet_bind {A B : Type} (c : M (State W) A) (k : A -> M (State W) B) :
  quiet c -> (forall a, quiet (k a)) -> quiet (bind c k).
Proof.
  intros Hc Hk s. unfold bind. specialize (Hc s).
  destruct (c s) as [[a|e] s1]; simpl in *; [|exact Hc].
  destruct (Hk a s1) as [H1 H2]. destruct Hc as [H3 H4].
  rewrite H1, H2. auto.
Qed.

Lemma quiet_try_except {A : Type} (body : M (State W) A)
      (handler : PyExc -> M (State W) A) :
  quiet body -> (forall e, quiet (handler e)) -> quiet (try_except body handler).
Proof.
  intros Hb Hh s. unfold try_except. specialize (Hb s).
  destruct (body s) as [[a|e] s1]; simpl in *; [exact Hb|].
  destruct (Hh e s1) as [H1 H2]. destruct Hb as [H3 H4].
  rewrite H1, H2. auto.
Qed.

Lemma quiet_list_tools (c : ClientRef) : quiet (list_tools c).
Proof.
  intros s. split; [apply list_tools_messages | apply list_tools_chat_events].
Qed.

Lemma quiet_call_tool (c : ClientRef) (n : string) (i : pyval) :
  quiet (call_tool c n i).
Proof.
  intros s. split; [apply call_tool_messages | apply call_tool_chat_events].
Qed.

Lemma quiet_find_client (cs : list ClientRef) (n : string) :
  quiet (_find_client_with_tool cs n).
Proof. intros s. destruct (find_client_quiet cs n s) as (_ & H1 & H2). auto. Qed.

Lemma quiet_invoke_tool (c : ClientRef) (id n : string) (i : pyval) :
  quiet (invoke_tool c id n i).
Proof.
  unfold invoke_tool. apply quiet_try_except.
  - apply quiet_bind; [apply quiet_call_tool | intros; apply quiet_ret].
  - intros; apply quiet_ret.
Qed.

Lemma quiet_claude_loop (clients : list (string * ClientRef))
      (reqs : list ToolUse) :
  forall acc, quiet (claude_loop clients reqs acc).
Proof.
  induction reqs as [|req reqs IH]; intros acc; simpl.
  - apply quiet_ret.
  - apply quiet_bind; [apply quiet_find_client|].
    intros [c|]; [|apply IH].
    apply quiet_bind; [apply quiet_invoke_tool | intros; apply IH].
Qed.

Lemma quiet_gemini_loop (clients : list (string * ClientRef))
      (fcs : list FunctionCall) (i : nat) (acc : list ToolResult) :
  quiet (gemini_loop clients i fcs acc).
Proof.
  intros s. rewrite gemini_loop_as_claude. apply quiet_claude_loop.
Qed.

Lemma quiet_execute_tool_requests (clients : list (string * ClientRef))
      (response : Response) :
  quiet (execute_tool_requests clients response).
Proof.
  unfold execute_tool_requests, _execute_gemini_function_calls,
    _execute_claude_tool_requests.
  destruct (function_calls response) as [[|fc fcs]|];
    try (destruct (resp_content response);
         [apply quiet_claude_loop | apply quiet_ret]).
  apply quiet_gemini_loop.
Qed.

Lemma quiet_get_all_tools_from (cs : list ClientRef) :
  forall tools, quiet (get_all_tools_from cs tools).
Proof.
  induction cs as [|c cs IH]; intros tools; simpl.
  - apply quiet_ret.
  - apply quiet_bind; [apply quiet_list_tools|]. intros tool_models.
    apply quiet_bind; [apply quiet_lift_result | intros; apply IH].
Qed.

Lemma quiet_get_all_tools (clients : list (string * ClientRef)) :
  quiet (get_all_tools clients).
Proof. apply quiet_get_all_tools_from. Qed.

Lemma append_tools_ready (ts : list Tool) :
  (forall t, In t ts -> exists g, gemini_tool_of t = Ok g) ->
  forall tools, exists out, append_tools ts tools = Ok out.
Proof.
  induction ts as [|t ts IH]; intros Hok tools; simpl.
  - eauto.
  - destruct (Hok t (or_introl eq_refl)) as (g & Hg). rewrite Hg.
    apply IH. intros t' Ht'. apply Hok. now right.
Qed.

Lemma get_all_tools_from_ready (cs : list ClientRef) :
  (forall c, In c cs ->
             forall w, exists ts w',
               client_list_tools c w = (Ok ts, w') /\
               forall t, In t ts -> exists g, gemini_tool_of t = Ok g) ->
  forall tools s, exists out s', get_all_tools_from cs tools s = (Ok out, s').
Proof.
  induction cs as [|c cs IH]; intros Hr tools s; simpl.
  - unfold ret. eauto.
  - unfold bind, list_tools, call_env, lift_result.
    destruct (Hr c (or_introl eq_refl) (world s)) as (ts & w' & Hw & Hts).
    rewrite Hw.
    destruct (append_tools_ready ts Hts tools) as (out & Hout). rewrite Hout.
    apply IH. intros c' Hc'. apply Hr. now right.
Qed.

Lemma catalog_ready_answers (clients : list (string * ClientRef)) :
  catalog_ready clients -> catalog_answers clients.
Proof.
  intros Hr c Hc w. destruct (Hr c Hc w) as (ts & w' & Hw & _). eauto.
Qed.
End QuietFacts.

(** ** The chat loop *)

Section ChatFacts.
Context {W : Type} {E : Environment W}.
Import ToolManager Chat.

Lemma execute_tool_requests_total (clients : list (string * ClientRef))
      (response : Response) (s : State W) :
  catalog_answers clients ->
  exists rs s', execute_tool_requests clients response s = (Ok rs, s').
Proof.
  intros Hans.
  unfold execute_tool_requests, _execute_gemini_function_calls,
    _execute_claude_tool_requests.
  destruct (function_calls response) as [[|fc fcs]|];
    try (destruct (resp_content response);
         [apply claude_loop_total; exact Hans | unfold ret; eauto]).
  rewrite gemini_loop_as_claude. apply claude_loop_total; exact Hans.
Qed.

(** One iteration of the loop of [run]. *)
Lemma run_loop_S (clients : list (string * ClientRef)) (k count : nat)
      (final : string) (s : State W) :
  run_loop clients (S k) count final s =
  match get_all_tools clients s with
  | (Raise e, s1) => (Raise e, s1)
  | (Ok tools, s1) =>
      match ai_chat_with_tools (messages s1) tools (world s1) with
      | (Raise e, w2) =>
          (Raise e,
           mkState (messages s1) w2
                   (trace s1 ++ [EvChatWithTools (messages s1) tools (Raise e)])%list)
      | (Ok response, w2) =>
          let s3 :=
            mkState (messages s1 ++ [assistant_message response])%list w2
                    (trace s1 ++ [EvChatWithTools (messages s1) tools (Ok response)])%list in
          if wants_function_calls response then
            match execute_tool_requests clients response s3 with
            | (Raise e, s4) => (Raise e, s4)
            | (Ok parts, s4) =>
                run_loop clients k (count + 1) final
                         (mkState (messages s4 ++ [user_message parts])%list
                                  (world s4) (trace s4))
            end
          else (Ok (count + 1, response_text response), s3)
      end
  end.
Proof.
  simpl. unfold bind at 1.
  destruct (get_all_tools clients s) as [[tools|e] s1]; [|reflexivity].
  unfold bind, gets, chat_with_tools, call_env, _add_assistant_message,
    _add_user_message, append_message, modify. simpl.
  destruct (ai_chat_with_tools (messages s1) tools (world s1)) as [[r|e] w2];
    [|reflexivity].
  simpl. destruct (wants_function_calls r); [|reflexivity].
  destruct (execute_tool_requests clients r _) as [[parts|e] s4]; reflexivity.
Qed.

Lemma run_eq (clients : list (string * ClientRef)) (query : string)
      (s : State W) :
  run clients query s =
  match run_loop clients max_iterations 0 EmptyString
                 (mkState (messages s ++ [mkMessage user (ContentText query)])%list
                          (world s) (trace s)) with
  | (Ok (n, txt), s') =>
      (Ok (if Nat.leb max_iterations n then fallback_text else txt), s')
  | (Raise e, s') => (Raise e, s')
  end.
Proof.
  unfold run, bind, _process_query, append_message, modify.
  change (max_iterations - 0) with max_iterations. cbv beta iota.
  destruct (run_loop clients max_iterations 0 EmptyString _)
    as [[[n txt]|e] s']; [|reflexivity].
  unfold ret. now destruct (Nat.leb max_iterations n).
Qed.

Lemma assistant_message_function_calls (r : Response) :
  has_function_call_part (assistant_message r) = wants_function_calls r.
Proof.
  unfold assistant_message, wants_function_calls, has_function_call_part.
  destruct (function_calls r) as [[|fc fcs]|]; try reflexivity.
  simpl. unfold assistant_parts. rewrite existsb_app. simpl.
  apply orb_true_r.
Qed.

Lemma user_message_no_function_calls (results : list ToolResult) :
  has_function_call_part (user_message results) = false.
Proof. now destruct results. Qed.

Lemma result_lines_join (results : list ToolResult) :
  forall acc,
    result_lines results acc =
    acc ++ str_join EmptyString (map result_line results).
Proof.
  induction results as [|r rs IH]; intros acc.
  - simpl. now rewrite append_nil_r.
  - simpl result_lines. rewrite IH, append_assoc. f_equal.
    destruct rs as [|r' rs]; [simpl; now rewrite append_nil_r | reflexivity].
Qed.

Lemma user_message_report (results : list ToolResult) :
  user_message results = tool_result_report results.
Proof.
  destruct results as [|r rs]; [reflexivity|].
  unfold user_message, tool_result_report.
  rewrite result_lines_join, append_assoc. reflexivity.
Qed.

Lemma report_no_function_calls (results : list ToolResult) :
  has_function_call_part (tool_result_report results) = false.
Proof. now destruct results. Qed.

Lemma function_call_parts_of_calls (calls : list FunctionCall) :
  flat_map (fun p => match p with
                     | FunctionCallPart name args => [mkFunctionCall name args]
                     | TextPart _ => []
                     end)
           (map (fun func_call =>
                   FunctionCallPart (fc_name func_call) (fc_args func_call))
                calls)
  = calls.
Proof.
  induction calls as [|[n a] calls IH]; [reflexivity|].
  simpl. now rewrite IH.
Qed.

(** The function-call parts of the assistant message of a response that
    requests function calls are these calls. *)
Lemma function_call_parts_assistant (r : Response) :
  wants_function_calls r = true ->
  exists fc fcs,
    function_calls r = Some (fc :: fcs) /\
    function_call_parts (assistant_message r) = (fc :: fcs).
Proof.
  unfold wants_function_calls, assistant_message. intros Hr.
  destruct (function_calls r) as [[|fc fcs]|]; try discriminate.
  exists fc, fcs. split; [reflexivity|].
  unfold function_call_parts, assistant_parts.
  cbn [role msg_content]. rewrite flat_map_app, function_call_parts_of_calls.
  destruct (text r) as [t|]; [|reflexivity].
  now destruct (negb (String.eqb t EmptyString)).
Qed.

(** The results of executing the requests of such a response carry, in
    order, the ids synthesized for its function calls. *)
Lemma execute_tool_requests_ids (clients : list (string * ClientRef))
      (r : Response) (s : State W) results s' :
  wants_function_calls r = true ->
  execute_tool_requests clients r s = (Ok results, s') ->
  map tool_use_id results =
  map tu_id (gemini_requests 0 (function_call_parts (assistant_message r))).
Proof.
  intros Hr Hrun.
  destruct (function_call_parts_assistant r Hr) as (fc & fcs & Hfc & ->).
  unfold execute_tool_requests, _execute_gemini_function_calls in Hrun.
  rewrite Hfc in Hrun.
  rewrite gemini_loop_as_claude in Hrun. apply claude_loop_ids in Hrun.
  exact Hrun.
Qed.

Lemma execute_tool_requests_count (clients : list (string * ClientRef))
      (r : Response) (s : State W) results s' :
  wants_function_calls r = true ->
  execute_tool_requests clients r s = (Ok results, s') ->
  length results = length (function_call_parts (assistant_message r)) /\
  results <> [].
Proof.
  intros Hr Hrun.
  pose proof (execute_tool_requests_ids _ _ _ Hr Hrun) as Hids.
  apply (f_equal (@length string)) in Hids.
  rewrite !length_map, gemini_requests_length in Hids.
  split; [exact Hids|].
  destruct (function_call_parts_assistant r Hr) as (fc & fcs & _ & Hparts).
  rewrite Hparts in Hids. intros ->. discriminate.
Qed.

Lemma answers_report (clients : list (string * ClientRef))
      (r : Response) (s : State W) results s' :
  wants_function_calls r = true ->
  execute_tool_requests clients r s = (Ok results, s') ->
  answers (assistant_message r) (tool_result_report results).
Proof.
  intros Hr Hrun. exists results.
  split; [exact (execute_tool_requests_ids _ _ _ Hr Hrun) | reflexivity].
Qed.

Lemma answered_transcript_plain (msgs : list Message) (p : Message) :
  answered_transcript msgs -> has_function_call_part p = false ->
  answered_transcript (msgs ++ [p]).
Proof.
  intros Hmsgs Hp i m Hm Hfc.
  destruct (Nat.lt_ge_cases i (length msgs)) as [Hlt | Hge].
  - rewrite nth_error_app1 in Hm by exact Hlt.
    destruct (Hmsgs i m Hm Hfc) as (u & Hu & Hans).
    exists u. split; [|exact Hans].
    rewrite nth_error_app1; [exact Hu|].
    apply nth_error_Some. congruence.
  - rewrite nth_error_app2 in Hm by exact Hge.
    destruct (i - length msgs) as [|j]; simpl in Hm.
    + injection Hm as <-. congruence.
    + destruct j; discriminate.
Qed.

Lemma answered_transcript_turn (msgs : list Message) (a u : Message) :
  answered_transcript msgs -> answers a u ->
  has_function_call_part u = false ->
  answered_transcript (msgs ++ [a; u]).
Proof.
  intros Hmsgs Hau Hu i m Hm Hfc.
  destruct (Nat.lt_ge_cases i (length msgs)) as [Hlt | Hge].
  - rewrite nth_error_app1 in Hm by exact Hlt.
    destruct (Hmsgs i m Hm Hfc) as (u' & Hu' & Hans).
    exists u'. split; [|exact Hans].
    rewrite nth_error_app1; [exact Hu'|].
    apply nth_error_Some. congruence.
  - rewrite nth_error_app2 in Hm by exact Hge.
    destruct (i - length msgs) as [|[|j]] eqn:Hi; simpl in Hm.
    + injection Hm as <-. exists u. split; [|exact Hau].
      rewrite nth_error_app2 by lia.
      replace (S i - length msgs) with 1 by lia. reflexivity.
    + injection Hm as <-. congruence.
    + destruct j; discriminate.
Qed.

(** *** What the model calls of a stretch of the loop tell *)

Lemma loop_calls_nil (clients : list (string * ClientRef))
      (msgs final : list Message) (failure : option PyExc) :
  loop_calls clients msgs [] final failure -> final = msgs.
Proof. intros H. now inversion H. Qed.

Lemma loop_calls_first (clients : list (string * ClientRef))
      (msgs0 final : list Message) (evs : list Event) (failure : option PyExc) :
  loop_calls clients msgs0 evs final failure ->
  forall msgs tools o,
    nth_error evs 0 = Some (EvChatWithTools msgs tools o) -> msgs = msgs0.
Proof.
  intros H msgs tools o Hev.
  inversion H; subst; simpl in Hev; try discriminate;
    injection Hev as <- _ _; reflexivity.
Qed.

Lemma loop_calls_next (clients : list (string * ClientRef))
      (msgs0 final : list Message) (evs : list Event) (failure : option PyExc) :
  loop_calls clients msgs0 evs final failure ->
  forall k msgs tools o msgs' tools' o',
    nth_error evs k = Some (EvChatWithTools msgs tools o) ->
    nth_error evs (S k) = Some (EvChatWithTools msgs' tools' o') ->
    exists r results (s_a s_b : State W),
      o = Ok r /\
      has_function_call_part (assistant_message r) = true /\
      messages s_a = (msgs ++ [assistant_message r])%list /\
      execute_tool_requests clients r s_a = (Ok results, s_b) /\
      length results = length (function_call_parts (assistant_message r)) /\
      results <> [] /\
      msgs' = (msgs ++ [assistant_message r; tool_result_report results])%list.
Proof.
  induction 1 as [msgs0 failure | msgs0 tools0 e | msgs0 tools0 r Hr
                  | msgs0 tools0 r e s_a s_b Hr Hsa Hexec
                  | msgs0 tools0 r results s_a s_b evs final failure
                      Hr Hsa Hexec Hrest IH];
    intros k msgs tools o msgs' tools' o' Hk HSk;
    try (destruct k as [|[|k]]; discriminate).
  destruct k as [|k].
  - simpl in Hk, HSk. injection Hk as <- <- <-.
    apply (loop_calls_first Hrest) in HSk. subst msgs'.
    destruct (execute_tool_requests_count _ _ _ Hr Hexec) as [Hlen Hne].
    exists r, results, s_a, s_b.
    rewrite assistant_message_function_calls. auto 10.
  - simpl in Hk, HSk. exact (IH _ _ _ _ _ _ _ Hk HSk).
Qed.

Lemma loop_calls_last (clients : list (string * ClientRef))
      (msgs0 final : list Message) (evs : list Event) (failure : option PyExc) :
  loop_calls clients msgs0 evs final failure ->
  forall evs0 msgs tools r,
    evs = (evs0 ++ [EvChatWithTools msgs tools (Ok r)])%list ->
    has_function_call_part (assistant_message r) = true ->
    exists s_a : State W,
      messages s_a = (msgs ++ [assistant_message r])%list /\
      ((exists results s_b,
           execute_tool_requests clients r s_a = (Ok results, s_b) /\
           results <> [] /\
           final = (msgs ++ [assistant_message r; tool_result_report results])%list) \/
       (exists e s_b,
           execute_tool_requests clients r s_a = (Raise e, s_b) /\
           failure = Some e /\
           final = (msgs ++ [assistant_message r])%list)).
Proof.
  induction 1 as [msgs0 failure | msgs0 tools0 e | msgs0 tools0 r0 Hr
                  | msgs0 tools0 r0 e s_a s_b Hr Hsa Hexec
                  | msgs0 tools0 r0 results s_a s_b evs final failure
                      Hr Hsa Hexec Hrest IH];
    intros evs0 msgs tools r Hevs Hfc.
  - destruct evs0; discriminate.
  - destruct evs0 as [|ev [|ev' evs0]]; discriminate.
  - destruct evs0 as [|ev [|ev' evs0]]; try discriminate.
    injection Hevs as <- <- <-.
    rewrite assistant_message_function_calls in Hfc. congruence.
  - destruct evs0 as [|ev [|ev' evs0]]; try discriminate.
    injection Hevs as <- <- <-.
    exists s_a. split; [exact Hsa|]. right. exists e, s_b. auto.
  - destruct evs0 as [|ev evs0].
    + injection Hevs as <- <- <- Hnil. subst evs.
      apply loop_calls_nil in Hrest. subst final.
      destruct (execute_tool_requests_count _ _ _ Hr Hexec) as [_ Hne].
      exists s_a. split; [exact Hsa|]. left. exists results, s_b. auto.
    + injection Hevs as _ Hevs. exact (IH _ _ _ _ Hevs Hfc).
Qed.

Lemma loop_calls_answered (clients : list (string * ClientRef))
      (msgs0 final : list Message) (evs : list Event) (failure : option PyExc) :
  loop_calls clients msgs0 evs final failure ->
  answered_transcript msgs0 ->
  (forall msgs tools o,
      In (EvChatWithTools msgs tools o) evs -> answered_transcript msgs) /\
  (failure = None -> answered_transcript final).
Proof.
  induction 1 as [msgs0 failure | msgs0 tools0 e | msgs0 tools0 r0 Hr
                  | msgs0 tools0 r0 e s_a s_b Hr Hsa Hexec
                  | msgs0 tools0 r0 results s_a s_b evs final failure
                      Hr Hsa Hexec Hrest IH];
    intros Hans.
  - split; [intros msgs tools o []| auto].
  - split; [|discriminate].
    intros msgs tools o [[= <- _ _] | []]. exact Hans.
  - split.
    + intros msgs tools o [[= <- _ _] | []]. exact Hans.
    + intros _. apply answered_transcript_plain; [exact Hans|].
      now rewrite assistant_message_function_calls.
  - split; [|discriminate].
    intros msgs tools o [[= <- _ _] | []]. exact Hans.
  - destruct IH as [IHin IHfinal].
    + apply answered_transcript_turn; [exact Hans | |].
      * exact (answers_report _ _ _ Hr Hexec).
      * apply report_no_function_calls.
    + split; [|exact IHfinal].
      intros msgs tools o [[= <- _ _] | Hin]; [exact Hans|].
      exact (IHin _ _ _ Hin).
Qed.

End ChatFacts.

Section ChatLoop.
Context {W : Type} {E : Environment W}.
Import ToolManager Chat.

(** What a run of the loop from a transcript [base ++ tail] of completed
    tool turns does: it calls the model at most [remaining] times, each
    time on a transcript of completed tool turns, and on return either
    every iteration asked for tools or the last response was plain text. *)
Lemma run_loop_inv (clients : list (string * ClientRef)) (base : list Message) :
  forall remaining count final (s : State W) tail,
    messages s = (base ++ tail)%list -> tool_turns tail ->
    forall out s',
      run_loop clients remaining count final s = (out, s') ->
      exists evs,
        chat_events (trace s') = (chat_events (trace s) ++ evs)%list /\
        length evs <= remaining /\
        Forall (fun ev => exists msgs tools o tl,
                    ev = EvChatWithTools msgs tools o /\
                    msgs = (base ++ tl)%list /\ tool_turns tl) evs /\
        forall n txt,
          out = Ok (n, txt) ->
          n = count + length evs /\
          ((length evs = remaining /\ txt = final /\
            exists tl, messages s' = (base ++ tl)%list /\ tool_turns tl) \/
           (exists msgs tools r evs0 tl,
               evs = (evs0 ++ [EvChatWithTools msgs tools (Ok r)])%list /\
               wants_function_calls r = false /\
               txt = response_text r /\
               messages s' = (base ++ tl ++ [assistant_message r])%list /\
               tool_turns tl)).
Proof.
  induction remaining as [|k IH]; intros count final s tail Hm Ht out s' Hrun.
  - simpl in Hrun. injection Hrun as <- <-.
    exists []. rewrite app_nil_r.
    split; [reflexivity|]. split; [simpl; lia|]. split; [constructor|].
    intros n txt [= <- <-]. split; [simpl; lia|].
    left. split; [reflexivity|]. split; [reflexivity|]. eauto.
  - rewrite run_loop_S in Hrun.
    destruct (quiet_get_all_tools clients s) as [Hm1 Hc1].
    destruct (get_all_tools clients s) as [[tools|e] s1]; simpl in Hm1, Hc1.
    2:{ injection Hrun as <- <-. exists []. rewrite app_nil_r, Hc1.
        split; [reflexivity|]. split; [simpl; lia|]. split; [constructor|].
        intros n txt; discriminate. }
    destruct (ai_chat_with_tools (messages s1) tools (world s1)) as [[r|e] w2].
    2:{ injection Hrun as <- <-.
        exists [EvChatWithTools (messages s1) tools (Raise e)]. simpl.
        unfold chat_events in *. rewrite filter_app, Hc1. simpl.
        split; [reflexivity|]. split; [lia|]. split; [|intros n txt; discriminate].
        constructor; [|constructor].
        exists (messages s1), tools, (Raise e), tail.
        split; [reflexivity|]. split; [congruence | exact Ht]. }
    cbv zeta in Hrun.
    assert (Forall (fun ev => exists msgs tools o tl,
                        ev = EvChatWithTools msgs tools o /\
                        msgs = (base ++ tl)%list /\ tool_turns tl)
                   [EvChatWithTools (messages s1) tools (Ok r)]) as Hev.
    { constructor; [|constructor]. exists (messages s1), tools, (Ok r), tail.
      split; [reflexivity|]. split; [congruence | exact Ht]. }
    destruct (wants_function_calls r) eqn:Hr.
    + destruct (quiet_execute_tool_requests clients r
                  (mkState (messages s1 ++ [assistant_message r])%list w2
                           (trace s1 ++ [EvChatWithTools (messages s1) tools (Ok r)])%list))
        as [Hm4 Hc4].
      destruct (execute_tool_requests clients r _) as [[parts|e] s4];
        simpl in Hm4, Hc4.
      2:{ injection Hrun as <- <-.
          exists [EvChatWithTools (messages s1) tools (Ok r)].
          rewrite Hc4. unfold chat_events in *. rewrite filter_app, Hc1. simpl.
          split; [reflexivity|]. split; [lia|]. split; [exact Hev|].
          intros n txt; discriminate. }
      apply (IH _ _ _ (tail ++ [assistant_message r; user_message parts])%list)
        in Hrun.
      * destruct Hrun as (evs & Hc & Hlen & Hall & Hout). simpl in Hc.
        exists (EvChatWithTools (messages s1) tools (Ok r) :: evs).
        rewrite Hc, Hc4. unfold chat_events in *. rewrite filter_app, Hc1.
        simpl. rewrite <- app_assoc. simpl.
        split; [reflexivity|]. split; [lia|].
        split; [constructor; [now inversion Hev | exact Hall]|].
        intros n txt Hn. destruct (Hout n txt Hn) as [Hcount Hcases].
        split; [lia|].
        destruct Hcases as [(Hl & Htxt & Htl) | (ms & ts & r' & evs0 & tl & He & Hcase)].
        -- left. split; [lia | auto].
        -- right. exists ms, ts, r', (EvChatWithTools (messages s1) tools (Ok r) :: evs0), tl.
           rewrite He. split; [reflexivity | exact Hcase].
      * simpl. rewrite Hm4. simpl. rewrite Hm1, Hm, <- !app_assoc. reflexivity.
      * now constructor.
    + injection Hrun as <- <-.
      exists [EvChatWithTools (messages s1) tools (Ok r)]. simpl.
      unfold chat_events in *. rewrite filter_app, Hc1. simpl.
      split; [reflexivity|]. split; [lia|]. split; [exact Hev|].
      intros n txt [= <- <-]. split; [lia|].
      right. exists (messages s1), tools, r, [], tail.
      split; [reflexivity|]. split; [exact Hr|]. split; [reflexivity|].
      split; [|exact Ht]. rewrite Hm1, Hm, <- app_assoc. reflexivity.
Qed.

(** The model calls of the loop, the transcript it leaves and what it
    raised: between two calls the loop appends the assistant message of
    the response and the report of the results that executing the
    response returned. *)
Lemma run_loop_calls (clients : list (string * ClientRef)) :
  forall remaining count final (s : State W) out s',
    run_loop clients remaining count final s = (out, s') ->
    exists evs,
      chat_events (trace s') = (chat_events (trace s) ++ evs)%list /\
      loop_calls clients (messages s) evs (messages s') (raised out).
Proof.
  induction remaining as [|k IH]; intros count final s out s' Hrun.
  - simpl in Hrun. injection Hrun as <- <-.
    exists []. rewrite app_nil_r. split; [reflexivity | constructor].
  - rewrite run_loop_S in Hrun.
    destruct (quiet_get_all_tools clients s) as [Hm1 Hc1].
    destruct (get_all_tools clients s) as [[tools|e] s1]; simpl in Hm1, Hc1.
    2:{ injection Hrun as <- <-. exists []. rewrite app_nil_r, Hc1, Hm1.
        split; [reflexivity | constructor]. }
    destruct (ai_chat_with_tools (messages s1) tools (world s1)) as [[r|e] w2].
    2:{ injection Hrun as <- <-.
        exists [EvChatWithTools (messages s1) tools (Raise e)]. simpl.
        unfold chat_events in *. rewrite filter_app, Hc1. simpl.
        split; [reflexivity|]. rewrite Hm1. constructor. }
    cbv zeta in Hrun.
    destruct (wants_function_calls r) eqn:Hr.
    + destruct (quiet_execute_tool_requests clients r
                  (mkState (messages s1 ++ [assistant_message r])%list w2
                           (trace s1 ++ [EvChatWithTools (messages s1) tools (Ok r)])%list))
        as [Hm4 Hc4].
      destruct (execute_tool_requests clients r _) as [[parts|e] s4] eqn:Hexec;
        simpl in Hm4, Hc4.
      2:{ injection Hrun as <- <-.
          exists [EvChatWithTools (messages s1) tools (Ok r)].
          rewrite Hc4. unfold chat_events in *. rewrite filter_app, Hc1. simpl.
          split; [reflexivity|]. rewrite Hm4, Hm1.
          eapply loop_tools_raise; [exact Hr | | exact Hexec].
          simpl. now rewrite Hm1. }
      apply IH in Hrun. destruct Hrun as (evs & Hc & Hcalls).
      simpl in Hc, Hcalls.
      exists (EvChatWithTools (messages s1) tools (Ok r) :: evs).
      rewrite Hc, Hc4. unfold chat_events in *. rewrite filter_app, Hc1.
      simpl. rewrite <- app_assoc. simpl.
      split; [reflexivity|]. rewrite Hm1.
      eapply loop_turn; [exact Hr | | exact Hexec |].
      * simpl. now rewrite Hm1.
      * rewrite Hm4, user_message_report in Hcalls. simpl in Hcalls.
        rewrite Hm1, <- app_assoc in Hcalls. exact Hcalls.
    + injection Hrun as <- <-.
      exists [EvChatWithTools (messages s1) tools (Ok r)]. simpl.
      unfold chat_events in *. rewrite filter_app, Hc1. simpl.
      split; [reflexivity|]. rewrite Hm1. now constructor.
Qed.

(** With a model that always requests tools and a working catalogue the
    loop runs to the cap. *)
Lemma run_loop_looping (clients : list (string * ClientRef)) :
  always_requests_tools -> catalog_ready clients ->
  forall remaining count final (s : State W),
  exists s' evs,
    run_loop clients remaining count final s = (Ok (count + remaining, final), s') /\
    chat_events (trace s') = (chat_events (trace s) ++ evs)%list /\
    length evs = remaining /\
    length (messages s') = length (messages s) + 2 * remaining.
Proof.
  intros Hloop Hready.
  induction remaining as [|k IH]; intros count final s.
  - exists s, []. simpl. unfold ret. rewrite app_nil_r, !Nat.add_0_r. auto.
  - rewrite run_loop_S.
    destruct (quiet_get_all_tools clients s) as [Hm1 Hc1].
    destruct (get_all_tools_from_ready (dict_values clients) Hready [] s)
      as (tools & s1 & Htools).
    unfold get_all_tools in *. rewrite Htools in *. simpl in Hm1, Hc1.
    destruct (Hloop (messages s1) tools (world s1)) as (r & w2 & Hai & Hr).
    rewrite Hai. cbv zeta. rewrite Hr.
    match goal with
    | |- context [execute_tool_requests clients r ?s3] =>
        destruct (quiet_execute_tool_requests clients r s3) as [Hm4 Hc4];
        destruct (execute_tool_requests_total r s3
                    (catalog_ready_answers Hready)) as (parts & s4 & Hexec)
    end.
    rewrite Hexec in *. simpl in Hm4, Hc4.
    destruct (IH (count + 1) final
                 (mkState (messages s4 ++ [user_message parts])%list
                          (world s4) (trace s4)))
      as (s' & evs & Hrun & Hc & Hlen & Hmsgs).
    exists s', (EvChatWithTools (messages s1) tools (Ok r) :: evs).
    split; [rewrite Hrun; do 3 f_equal; lia|].
    simpl in Hc, Hmsgs. rewrite Hc, Hc4.
    unfold chat_events in *. rewrite filter_app, Hc1. simpl.
    rewrite <- app_assoc. simpl. split; [reflexivity|]. split; [lia|].
    rewrite Hmsgs, length_app, Hm4, length_app, Hm1. simpl. lia.
Qed.
End ChatLoop.

Section ChatClaims.
Context {W : Type} {E : Environment W}.
Import ToolManager Chat.

(** X16. The answer of [run] by the number of model calls it made:
    below the cap it is the text of the last, plain-text response; at
    the cap it is the fallback text whatever the last response was. *)
Lemma run_answer_by_iteration (clients : list (string * ClientRef))
      (query : string) (s : State W) ans s' :
  run clients query s = (Ok ans, s') ->
  exists evs,
    chat_events (trace s') = (chat_events (trace s) ++ evs)%list /\
    length evs <= max_iterations /\
    (length evs < max_iterations ->
     exists msgs tools r evs0,
       evs = (evs0 ++ [EvChatWithTools msgs tools (Ok r)])%list /\
       wants_function_calls r = false /\
       ans = response_text r) /\
    (length evs = max_iterations -> ans = fallback_text).
Proof.
  rewrite run_eq.
  destruct (run_loop clients max_iterations 0 EmptyString _)
    as [[[n txt]|e] s1] eqn:Hloop; [|discriminate].
  intros [= <- <-].
  apply (@run_loop_inv
           W E clients (messages s ++ [mkMessage user (ContentText query)])%list
           max_iterations 0 EmptyString _ []) in Hloop;
    [|simpl; now rewrite app_nil_r | constructor].
  destruct Hloop as (evs & Hc & Hlen & _ & Hout).
  destruct (Hout n txt eq_refl) as [Hn Hcases]. simpl in Hn, Hc. subst n.
  exists evs. split; [exact Hc|]. split; [exact Hlen|]. split.
  - intros Hlt.
    destruct Hcases as [(Hl & _) | (ms & ts & r & evs0 & tl & He & Hr & Htxt & _)];
      [lia|].
    exists ms, ts, r, evs0. split; [exact He|]. split; [exact Hr|].
    unfold max_iterations in Hlt.
    destruct (length evs) as [|[|[|[|[|k]]]]]; try exact Htxt. lia.
  - intros Heq. rewrite Heq. reflexivity.
Qed.

(** C1. [run] calls the model, and so goes through the model-turn and
    tool-turn cycle, at most 5 times, whatever the adapter and the tool
    servers do; when the adapter always answers with a non-empty list
    of function calls (and the catalogue can be listed), [run] returns
    the fallback text after exactly 5 model calls and 5 tool turns. *)
Theorem C1_at_most_five_cycles (clients : list (string * ClientRef))
        (query : string) (s : State W) :
  (exists evs,
      chat_events (trace (snd (run clients query s)))
      = (chat_events (trace s) ++ evs)%list /\
      length evs <= 5) /\
  (always_requests_tools -> catalog_ready clients ->
   exists s' evs,
     run clients query s =
     (Ok "I encountered an issue while processing your request. Please try rephrasing your question.",
      s') /\
     chat_events (trace s') = (chat_events (trace s) ++ evs)%list /\
     length evs = 5 /\
     length (messages s') = length (messages s) + 1 + 2 * 5).
Proof.
  split.
  - rewrite run_eq.
    destruct (run_loop clients max_iterations 0 EmptyString _)
      as [out s1] eqn:Hloop.
    apply (@run_loop_inv
             W E clients (messages s ++ [mkMessage user (ContentText query)])%list
             max_iterations 0 EmptyString _ []) in Hloop;
      [|simpl; now rewrite app_nil_r | constructor].
    destruct Hloop as (evs & Hc & Hlen & _).
    exists evs. split; [|exact Hlen].
    destruct out as [[n txt]|e]; exact Hc.
  - intros Hloop Hready. rewrite run_eq.
    destruct (run_loop_looping Hloop Hready max_iterations 0 EmptyString
                (mkState (messages s ++ [mkMessage user (ContentText query)])%list
                         (world s) (trace s)))
      as (s' & evs & Hrun & Hc & Hlen & Hmsgs).
    rewrite Hrun. exists s', evs.
    split; [reflexivity|]. split; [exact Hc|]. split; [exact Hlen|].
    rewrite Hmsgs. simpl. rewrite length_app. simpl.
    unfold max_iterations. lia.
Qed.

(** C9 (amended). The user message appended for a batch of results is
    its report: the summary block with one line
    [- <id>: <SUCCESS|ERROR> - <content>] per result, or the placeholder
    for an empty batch.  In every run, the first transcript handed to
    the model adapter is the transcript before the run followed by the
    query, and between two successive model-adapter calls the loop
    appends exactly the assistant message of the first call's response,
    which holds function-call parts, and one user message: the summary block of the
    results that executing this response returned, one line
    [- <id>: <SUCCESS|ERROR> - <content>] per result and one result per
    function call (the batch is never empty here, so the placeholder
    does not occur).  After the last model call of the run, when its
    response requests tools, either the execution returned and the
    same two messages end the transcript, or the execution raised, the
    run raises the same exception and the assistant tool-call message
    is left last, without a user message after it.  When every
    assistant tool-call message of the transcript before the run is
    directly followed by a user message that answers it, so is every one
    in each transcript handed to the adapter and in the transcript of a
    run that returns. *)
Theorem C9_tool_calls_answered_before_next_model_call
        (clients : list (string * ClientRef)) (query : string)
        (s : State W) out s' :
  run clients query s = (out, s') ->
  (forall results (st : State W),
      _add_user_message results st =
      (Ok tt, mkState (messages st ++ [tool_result_report results])%list
                      (world st) (trace st))) /\
  exists evs,
    chat_events (trace s') = (chat_events (trace s) ++ evs)%list /\
    (forall msgs tools o,
        nth_error evs 0 = Some (EvChatWithTools msgs tools o) ->
        msgs = (messages s ++ [mkMessage user (ContentText query)])%list) /\
    (forall k msgs tools o msgs' tools' o',
        nth_error evs k = Some (EvChatWithTools msgs tools o) ->
        nth_error evs (S k) = Some (EvChatWithTools msgs' tools' o') ->
        exists r results (s_a s_b : State W),
          o = Ok r /\
          has_function_call_part (assistant_message r) = true /\
          messages s_a = (msgs ++ [assistant_message r])%list /\
          execute_tool_requests clients r s_a = (Ok results, s_b) /\
          length results = length (function_call_parts (assistant_message r)) /\
          results <> [] /\
          msgs' = (msgs ++ [assistant_message r; tool_result_report results])%list) /\
    (forall evs0 msgs tools r,
        evs = (evs0 ++ [EvChatWithTools msgs tools (Ok r)])%list ->
        has_function_call_part (assistant_message r) = true ->
        exists s_a : State W,
          messages s_a = (msgs ++ [assistant_message r])%list /\
          ((exists results s_b,
               execute_tool_requests clients r s_a = (Ok results, s_b) /\
               results <> [] /\
               messages s' =
               (msgs ++ [assistant_message r; tool_result_report results])%list) \/
           (exists e s_b,
               execute_tool_requests clients r s_a = (Raise e, s_b) /\
               out = Raise e /\
               messages s' = (msgs ++ [assistant_message r])%list))) /\
    (answered_transcript (messages s) ->
     (forall msgs tools o,
         In (EvChatWithTools msgs tools o) evs -> answered_transcript msgs) /\
     (forall ans, out = Ok ans -> answered_transcript (messages s'))).
Proof.
  rewrite run_eq.
  destruct (run_loop clients max_iterations 0 EmptyString _)
    as [lout s1] eqn:Hloop.
  apply run_loop_calls in Hloop. destruct Hloop as (evs & Hc & Hcalls).
  simpl in Hc, Hcalls.
  intros Hrun.
  assert (s1 = s' /\ raised lout = raised out) as [-> Hout].
  { destruct lout as [[n txt]|e]; injection Hrun as <- <-; auto. }
  rewrite Hout in Hcalls. clear Hout Hrun.
  split.
  { intros results st. unfold _add_user_message, append_message, modify.
    now rewrite user_message_report. }
  exists evs. split; [exact Hc|].
  split; [exact (loop_calls_first Hcalls)|].
  split; [exact (loop_calls_next Hcalls)|].
  split.
  - intros evs0 msgs tools r Hevs Hfc.
    destruct (loop_calls_last Hcalls _ _ _ _ Hevs Hfc)
      as (s_a & Hsa & [Hok | (e & s_b & Hexec & Hfail & Hfinal)]).
    + exists s_a. split; [exact Hsa|]. left. exact Hok.
    + exists s_a. split; [exact Hsa|]. right. exists e, s_b.
      split; [exact Hexec|]. split; [|exact Hfinal].
      destruct out as [ans|e']; [discriminate|].
      simpl in Hfail. now injection Hfail as ->.
  - intros Hans.
    destruct (loop_calls_answered Hcalls) as [Hin Hfinal].
    + apply answered_transcript_plain; [exact Hans | reflexivity].
    + split; [exact Hin|].
      intros ans ->. now apply Hfinal.
Qed.
End ChatClaims.

(** C2, at the input where the code departs from it.  The adapter asks
    for a tool on its first four calls and answers in plain text on the
    fifth: the fifth response carries no function calls and its text is
    ["done"], yet [run] returns the fallback text.  When the plain-text
    response arrives on the second call, [run] returns its text. *)
Theorem C2_answer_on_fifth_iteration_is_replaced :
  let out := Chat.run fixture_clients "What does the report say?"
                      (initial_state script_answer_on_fifth) in
  fst out = Ok Chat.fallback_text /\
  length (chat_events (trace (snd out))) = 5 /\
  (exists msgs tools,
      nth_error (chat_events (trace (snd out))) 4
      = Some (EvChatWithTools msgs tools (Ok (says "done")))) /\
  wants_function_calls (says "done") = false /\
  Chat.response_text (says "done") = "done" /\
  Chat.fallback_text <> "done" /\
  fst (Chat.run fixture_clients "What does the report say?"
                (initial_state script_answer_on_second)) = Ok "done".
Proof.
  cbv zeta.
  split; [vm_compute; reflexivity|].
  split; [vm_compute; reflexivity|].
  split; [do 2 eexists; vm_compute; reflexivity|].
  split; [reflexivity|]. split; [reflexivity|].
  split; [discriminate | vm_compute; reflexivity].
Qed.

Lemma looping_always_requests_tools : @always_requests_tools _ LoopingEnv.
Proof. intros msgs tools w. exists (asks "search"), w. split; reflexivity. Defined.

Lemma looping_catalog_ready : @catalog_ready _ LoopingEnv fixture_clients.
Proof.
  intros c Hc w. exists (fixture_tools c), w. split; [reflexivity|].
  intros t Ht.
  destruct Hc as [<- | [<- | []]]; simpl in Ht.
  - destruct Ht as [<- | []]. eexists. vm_compute. reflexivity.
  - destruct Ht as [<- | [<- | []]]; eexists; vm_compute; reflexivity.
Defined.

Lemma C1_at_most_five_cycles_witness :
  exists s' evs,
    Chat.run fixture_clients "Summarise the report" (initial_state tt) =
    (Ok "I encountered an issue while processing your request. Please try rephrasing your question.",
     s') /\
    chat_events (trace s') = evs /\
    length evs = 5 /\
    length (messages s') = 11.
Proof.
  destruct (@C1_at_most_five_cycles
              unit LoopingEnv fixture_clients "Summarise the report"
              (initial_state tt)) as [_ Hb].
  exact (Hb looping_always_requests_tools looping_catalog_ready).
Defined.

Lemma C9_tool_calls_answered_before_next_model_call_witness :
  let res := Chat.run fixture_clients "Summarise the report"
                      (initial_state script_answer_on_second) in
  let query := mkMessage user (ContentText "Summarise the report") in
  (forall results (st : State (list Response)),
      Chat._add_user_message results st =
      (Ok tt, mkState (messages st ++ [tool_result_report results])%list
                      (world st) (trace st))) /\
  exists evs,
    chat_events (trace (snd res)) = evs /\
    (forall msgs tools o,
        nth_error evs 0 = Some (EvChatWithTools msgs tools o) ->
        msgs = [query]) /\
    (forall k msgs tools o msgs' tools' o',
        nth_error evs k = Some (EvChatWithTools msgs tools o) ->
        nth_error evs (S k) = Some (EvChatWithTools msgs' tools' o') ->
        exists r results (s_a s_b : State (list Response)),
          o = Ok r /\
          has_function_call_part (Chat.assistant_message r) = true /\
          messages s_a = (msgs ++ [Chat.assistant_message r])%list /\
          ToolManager.execute_tool_requests fixture_clients r s_a = (Ok results, s_b) /\
          length results = length (function_call_parts (Chat.assistant_message r)) /\
          results <> [] /\
          msgs' = (msgs ++ [Chat.assistant_message r; tool_result_report results])%list) /\
    (forall evs0 msgs tools r,
        evs = (evs0 ++ [EvChatWithTools msgs tools (Ok r)])%list ->
        has_function_call_part (Chat.assistant_message r) = true ->
        exists s_a : State (list Response),
          messages s_a = (msgs ++ [Chat.assistant_message r])%list /\
          ((exists results s_b,
               ToolManager.execute_tool_requests fixture_clients r s_a
               = (Ok results, s_b) /\
               results <> [] /\
               messages (snd res) =
               (msgs ++ [Chat.assistant_message r; tool_result_report results])%list) \/
           (exists e s_b,
               ToolManager.execute_tool_requests fixture_clients r s_a
               = (Raise e, s_b) /\
               fst res = Raise e /\
               messages (snd res) = (msgs ++ [Chat.assistant_message r])%list))) /\
    (answered_transcript [] ->
     (forall msgs tools o,
         In (EvChatWithTools msgs tools o) evs -> answered_transcript msgs) /\
     (forall ans, fst res = Ok ans -> answered_transcript (messages (snd res)))).
Proof.
  intros res query.
  exact (@C9_tool_calls_answered_before_next_model_call
           _ ScriptedEnv fixture_clients "Summarise the report"
           (initial_state script_answer_on_second) (fst res) (snd res)
           (surjective_pairing res)).
Defined.

(** C9 as stated, at an input where the code departs from it.  The tool
    server drops the catalogue query made while the first run executes
    the requested call: the run raises and leaves the assistant
    tool-call message last in the transcript.  The next run of the same
    chat appends its query and calls the model adapter: the user
    message appended before that call, after the assistant tool-call
    message, is the query, which is neither the summary block of any
    results nor the placeholder. *)
Lemma C9_unanswered_tool_call_counterexample :
  let first := Chat.run doc_client_only "Summarise the report"
                        (initial_state (flaky 0)) in
  let second := Chat.run doc_client_only "Try again" (snd first) in
  let query1 := mkMessage user (ContentText "Summarise the report") in
  let call := mkMessage assistant (ContentParts [FunctionCallPart "search" (PDict [])]) in
  let query2 := mkMessage user (ContentText "Try again") in
  fst first = Raise (mkExc "ConnectionError" "Connection closed") /\
  (exists tools,
      chat_events (trace (snd first)) =
      [EvChatWithTools [query1] tools (Ok (asks "search"))]) /\
  Chat.assistant_message (asks "search") = call /\
  messages (snd first) = [query1; call] /\
  (exists tools,
      nth_error (chat_events (trace (snd second))) 1 =
      Some (EvChatWithTools [query1; call; query2] tools (Ok (asks "search")))) /\
  has_function_call_part call = true /\
  (forall results, query2 <> tool_result_report results) /\
  ~ answered_transcript [query1; call; query2].
Proof.
  cbv zeta.
  assert (forall results,
             mkMessage user (ContentText "Try again") <> tool_result_report results)
    as Hquery.
  { intros [|r rs] H; simpl in H; discriminate. }
  split; [vm_compute; reflexivity|].
  split; [eexists; vm_compute; reflexivity|].
  split; [reflexivity|].
  split; [vm_compute; reflexivity|].
  split; [eexists; vm_compute; reflexivity|].
  split; [reflexivity|].
  split; [exact Hquery|].
  intros Hans.
  destruct (Hans 1 _ eq_refl eq_refl) as (u & Hu & results & _ & Hrep).
  simpl in Hu. injection Hu as <-. exact (Hquery results Hrep).
Qed.

Example run_answer_on_second :
  let res := Chat.run fixture_clients "Summarise the report"
                      (initial_state script_answer_on_second) in
  fst res = Ok "done" /\
  messages (snd res) =
  [mkMessage user (ContentText "Summarise the report");
   mkMessage assistant (ContentParts [FunctionCallPart "search" (PDict [])]);
   mkMessage user
     (ContentText
        ("Tool execution results:" ++ newline
           ++ "- gemini_call_0_search: SUCCESS - "
           ++ json_dumps (JArray [JString "ran search"]) ++ newline));
   mkMessage assistant (ContentText "done")].
Proof. split; vm_compute; reflexivity. Qed.

(** ** The client life cycle *)

Section ClientFacts.
Context {Session Ctx X : Type} {T : MCPClient.Transport Session Ctx X}.
Import MCPClient.

Lemma session_closed (self : t (Session := Session) (Ctx := Ctx)) (x : X) :
  _session self = None ->
  list_tools (self, x) = (Raise session_not_ready, (self, x)) /\
  forall n i, call_tool n i (self, x) = (Raise session_not_ready, (self, x)).
Proof.
  intros Hs. unfold list_tools, call_tool, session, bind, gets, raise. simpl.
  rewrite Hs. auto.
Qed.

Lemma raised_by_closed (calls : list ClientCall)
      (self : t (Session := Session) (Ctx := Ctx)) (x : X) :
  _session self = None ->
  raised_by calls (self, x) = map (fun _ => Some session_not_ready) calls.
Proof.
  intros Hs. induction calls as [|c calls IH]; simpl; [reflexivity|].
  destruct (session_closed self x Hs) as [Hl Hc].
  destruct c as [|n i]; unfold perform, bind.
  - rewrite Hl. now rewrite IH.
  - rewrite Hc. now rewrite IH.
Qed.

(** C8. [cleanup] returns normally from every state of the client and
    of the transport, also when closing the exit stack raises; after it
    the session is unset, and every later [list_tools] or [call_tool],
    in any number and order, raises the session-not-ready error (the
    [ConnectionError] of [session]) without reaching the transport. *)
Theorem C8_cleanup_closes_client
        (st : ClientState (Session := Session) (Ctx := Ctx) (X := X)) :
  exists st',
    cleanup st = (Ok tt, st') /\
    _session (fst st') = None /\
    list_tools st' = (Raise session_not_ready, st') /\
    (forall n i, call_tool n i st' = (Raise session_not_ready, st')) /\
    (forall calls,
        raised_by calls st' = map (fun _ => Some session_not_ready) calls).
Proof.
  destruct st as [self x].
  assert (exists self' x',
             cleanup (self, x) = (Ok tt, (self', x')) /\ _session self' = None)
    as (self' & x' & Hrun & Hs).
  { unfold cleanup, try_finally, try_except, aclose, sleep, set_exit_stack,
      set_session, extern, bind, gets, modify, ret. simpl.
    destruct (_session self); simpl;
      match goal with
      | |- context [exit_stack_aclose ?stack ?y] =>
          destruct (exit_stack_aclose stack y) as [[[]|e] x1]
      end; simpl;
      try destruct platform_is_win32; simpl; eauto. }
  exists (self', x'). split; [exact Hrun|]. split; [exact Hs|].
  destruct (session_closed self' x' Hs) as [Hl Hc].
  split; [exact Hl|]. split; [exact Hc|].
  intros calls. now apply raised_by_closed.
Qed.
End ClientFacts.

Example cleanup_with_failing_teardown :
  let connected := snd (MCPClient.connect fresh_client) in
  let closed := snd (MCPClient.cleanup connected) in
  fst (MCPClient.list_tools connected) = Ok (fixture_tools 0) /\
  fst (MCPClient.cleanup connected) = Ok tt /\
  snd closed = ["aclose"; "sleep"; "initialize"; "session"; "spawn uv"] /\
  fst (MCPClient.list_tools closed) = Raise MCPClient.session_not_ready /\
  fst (MCPClient.call_tool "search" (PDict []) closed)
  = Raise MCPClient.session_not_ready /\
  snd (MCPClient.call_tool "search" (PDict []) closed) = closed.
Proof. repeat split. Qed.

(** * Further properties *)

(** ** Schema conversion: what is kept and what is dropped *)

Module SchemaMore.
Import ToolManager.

(** X1. Converting a mapping schema raises exactly when its
    [properties] entry exists and is not a mapping, and the exception is
    the [AttributeError] of the missing [items] method. *)
Theorem convert_raises_iff_properties_not_mapping (d : pydict) (e : PyExc) :
  _convert_mcp_schema_to_gemini (PDict d) = Raise e <->
  exists v, dict_get d "properties" = Some v /\
            isinstance_dict v = false /\
            e = AttributeError_items v.
Proof.
  simpl. split.
  - destruct (dict_get d "properties") as [v|] eqn:Hp; [|discriminate].
    destruct v; try discriminate; intros [= <-]; eexists;
      (split; [reflexivity|]; split; reflexivity).
  - intros (v & Hp & Hv & ->). rewrite Hp.
    destruct v; try reflexivity. discriminate.
Qed.

Lemma dict_keys_copy_required (d g : pydict) :
  ~ In "required" (dict_keys g) ->
  dict_keys (dict_copy_key "required" d g) =
  (dict_keys g ++ match dict_get d "required" with
                  | Some _ => ["required"]
                  | None => []
                  end)%list.
Proof.
  intros Hnin. unfold dict_copy_key.
  destruct (dict_get d "required"); [|now rewrite app_nil_r].
  rewrite dict_set_fresh by exact Hnin.
  unfold dict_keys. now rewrite map_app.
Qed.

(** X2. A converted schema has the key [type] (the source's or
    ["object"]), then [properties] and [required] exactly when the
    source has them, and no other key; [required] is copied unchanged. *)
Theorem convert_top_level_keys (d : pydict) (converted : pyval) :
  _convert_mcp_schema_to_gemini (PDict d) = Ok converted ->
  exists g,
    converted = PDict g /\
    dict_keys g =
    ("type"
       :: match dict_get d "properties" with Some _ => ["properties"] | None => [] end
       ++ match dict_get d "required" with Some _ => ["required"] | None => [] end)%list /\
    dict_get g "type" = Some (dict_get_default d "type" (PStr "object")) /\
    dict_get g "required" = dict_get d "required".
Proof.
  simpl.
  destruct (dict_get d "properties") as [[ | | | | | props | ]|] eqn:Hp;
    try discriminate; intros [= <-]; eexists; (split; [reflexivity|]).
  - split; [|split].
    + rewrite dict_keys_copy_required; [reflexivity|].
      simpl. intuition discriminate.
    + unfold dict_copy_key. now destruct (dict_get d "required").
    + unfold dict_copy_key.
      destruct (dict_get d "required") as [r|]; [|reflexivity].
      apply dict_get_set_same.
  - split; [|split].
    + rewrite dict_keys_copy_required; [reflexivity|].
      simpl. intuition discriminate.
    + unfold dict_copy_key. now destruct (dict_get d "required").
    + unfold dict_copy_key.
      destruct (dict_get d "required") as [r|]; [|reflexivity].
      apply dict_get_set_same.
Qed.

Lemma clean_property_get (pd : pydict) (k : string) :
  dict_get (clean_property pd) k =
  if String.eqb k "type" then Some (dict_get_default pd "type" (PStr "string"))
  else if String.eqb k "description" then dict_get pd "description"
  else if String.eqb k "enum" then dict_get pd "enum"
  else None.
Proof.
  destruct (String.eqb k "type") eqn:Ht.
  { apply String.eqb_eq in Ht. subst k. apply SchemaFacts.clean_property_type. }
  unfold clean_property, dict_copy_key.
  destruct (String.eqb k "description") eqn:Hd.
  { apply String.eqb_eq in Hd. subst k.
    destruct (dict_get pd "description") as [dv|] eqn:Hdv;
      destruct (dict_get pd "enum") as [ev|]; reflexivity. }
  destruct (String.eqb k "enum") eqn:He.
  { apply String.eqb_eq in He. subst k.
    destruct (dict_get pd "description") as [dv|];
      destruct (dict_get pd "enum") as [ev|]; reflexivity. }
  apply String.eqb_neq in Ht, Hd, He.
  assert (dict_get [("type", dict_get_default pd "type" (PStr "string"))] k = None)
    as Hbase.
  { cbn [dict_get]. destruct (String.eqb_spec "type" k); congruence. }
  destruct (dict_get pd "description") as [dv|];
    destruct (dict_get pd "enum") as [ev|];
    rewrite ?dict_get_set_other by congruence; exact Hbase.
Qed.
End SchemaMore.

Module SchemaProperties.
Import ToolManager.

(** X3. In a converted schema each mapping property keeps its [type]
    (or gets ["string"]), its [description] and its [enum] with their
    values, and has no other key: whatever else the definition holds
    (defaults, formats, nested items or properties) is dropped. *)
Theorem convert_property_fields (d props : pydict) (name : string)
        (pd : pydict) :
  dict_get d "properties" = Some (PDict props) ->
  NoDup (dict_keys props) ->
  dict_get props name = Some (PDict pd) ->
  exists g cp cleaned : pydict,
    _convert_mcp_schema_to_gemini (PDict d) = Ok (PDict g) /\
    dict_get g "properties" = Some (PDict cp) /\
    dict_get cp name = Some (PDict cleaned) /\
    dict_get cleaned "type" = Some (dict_get_default pd "type" (PStr "string")) /\
    dict_get cleaned "description" = dict_get pd "description" /\
    dict_get cleaned "enum" = dict_get pd "enum" /\
    forall k, k <> "type" -> k <> "description" -> k <> "enum" ->
              dict_get cleaned k = None.
Proof.
  intros Hp Hnd Hget.
  exists (dict_copy_key "required" d
            [("type", dict_get_default d "type" (PStr "object"));
             ("properties", PDict (convert_properties props []))]),
         (convert_properties props []), (clean_property pd).
  split; [simpl; now rewrite Hp|].
  split; [unfold dict_copy_key; now destruct (dict_get d "required")|].
  split; [rewrite SchemaFacts.convert_properties_get by exact Hnd;
          now rewrite Hget|].
  rewrite !SchemaMore.clean_property_get. repeat split.
  intros k Ht Hd He. rewrite SchemaMore.clean_property_get.
  apply String.eqb_neq in Ht, Hd, He. now rewrite Ht, Hd, He.
Qed.

Lemma convert_properties_keys (items : list (string * pyval)) :
  forall acc,
    NoDup (dict_keys acc ++ dict_keys items) ->
    dict_keys (convert_properties items acc) =
    (dict_keys acc
     ++ dict_keys (filter (fun kv => isinstance_dict (snd kv)) items))%list.
Proof.
  induction items as [|[k v] items IH]; intros acc Hnd; simpl.
  - now rewrite app_nil_r.
  - simpl in Hnd.
    assert (NoDup (dict_keys acc ++ dict_keys items)) as Hrest
        by (eapply NoDup_remove_1; exact Hnd).
    destruct v as [ | | | | | pd | ]; simpl; try (apply IH; exact Hrest).
    assert (~ In k (dict_keys acc)) as Hfresh.
    { apply NoDup_remove_2 in Hnd. intro Hin. apply Hnd.
      apply in_or_app. now left. }
    rewrite IH.
    + rewrite dict_set_fresh by exact Hfresh.
      unfold dict_keys. rewrite map_app. simpl. now rewrite <- app_assoc.
    + rewrite dict_set_fresh by exact Hfresh.
      unfold dict_keys in *. rewrite map_app. simpl.
      now rewrite <- app_assoc.
Qed.

(** X4. The converted properties are the mapping-valued properties of
    the source, under the same names and in the same order. *)
Theorem convert_properties_order (d props : pydict) :
  dict_get d "properties" = Some (PDict props) ->
  NoDup (dict_keys props) ->
  exists g cp : pydict,
    _convert_mcp_schema_to_gemini (PDict d) = Ok (PDict g) /\
    dict_get g "properties" = Some (PDict cp) /\
    dict_keys cp =
    dict_keys (filter (fun kv => isinstance_dict (snd kv)) props).
Proof.
  intros Hp Hnd.
  exists (dict_copy_key "required" d
            [("type", dict_get_default d "type" (PStr "object"));
             ("properties", PDict (convert_properties props []))]),
         (convert_properties props []).
  split; [simpl; now rewrite Hp|].
  split; [unfold dict_copy_key; now destruct (dict_get d "required")|].
  now rewrite convert_properties_keys.
Qed.

Lemma converted_is_truthy_mapping (d : pydict) (p : pyval) :
  _convert_mcp_schema_to_gemini (PDict d) = Ok p ->
  truthy p && isinstance_dict p = true.
Proof.
  simpl.
  destruct (dict_get d "properties") as [[ | | | | | props | ]|];
    try discriminate; intros [= <-]; unfold dict_copy_key;
    destruct (dict_get d "required"); reflexivity.
Qed.

(** X5. The declaration emitted for a tool holds its name and its
    description, and a [parameters] entry exactly when the tool's input
    schema is a non-empty mapping; the entry is then the converted
    schema.  It has no other key. *)
Theorem tool_declaration_parameters (t : Tool) (declaration : pyval) :
  gemini_tool_of t = Ok declaration ->
  exists g,
    declaration = PDict g /\
    dict_get g "name" = Some (PStr (tool_name t)) /\
    dict_get g "description" = Some (tool_description t) /\
    dict_get g "parameters" =
    match inputSchema t with
    | Some (PDict (kv :: d)) =>
        match _convert_mcp_schema_to_gemini (PDict (kv :: d)) with
        | Ok p => Some p
        | Raise _ => None
        end
    | _ => None
    end /\
    forall k, k <> "name" -> k <> "description" -> k <> "parameters" ->
              dict_get g k = None.
Proof.
  unfold gemini_tool_of.
  assert (forall k : string,
             k <> "name" -> k <> "description" ->
             dict_get [("name", PStr (tool_name t));
                       ("description", tool_description t)] k = None) as Hbase.
  { intros k Hn Hd. cbn [dict_get].
    destruct (String.eqb_spec "name" k); [congruence|].
    destruct (String.eqb_spec "description" k); congruence. }
  assert (forall declaration0,
             Ok (PDict [("name", PStr (tool_name t));
                        ("description", tool_description t)]) = Ok declaration0 ->
             exists g,
               declaration0 = PDict g /\
               dict_get g "name" = Some (PStr (tool_name t)) /\
               dict_get g "description" = Some (tool_description t) /\
               dict_get g "parameters" = None /\
               forall k, k <> "name" -> k <> "description" ->
                         k <> "parameters" -> dict_get g k = None) as Hplain.
  { intros declaration0 [= <-]. eexists. split; [reflexivity|].
    split; [reflexivity|]. split; [reflexivity|]. split; [reflexivity|].
    intros k Hn Hd _. now apply Hbase. }
  destruct (inputSchema t) as [schema|]; [|apply Hplain].
  destruct schema as [ | b | z | s | l | [|kv d] | n b ];
    try apply Hplain;
    try (match goal with
         | |- (if truthy ?v then _ else _) = _ -> _ => destruct (truthy v)
         end; apply Hplain).
  cbn [truthy].
  destruct (_convert_mcp_schema_to_gemini (PDict (kv :: d))) as [p|e] eqn:Hc;
    [|discriminate].
  rewrite (converted_is_truthy_mapping _ Hc).
  intros [= <-]. eexists. split; [reflexivity|].
  split; [reflexivity|]. split; [reflexivity|]. split; [reflexivity|].
  intros k Hn Hd Hp.
  change (dict_set [("name", PStr (tool_name t));
                    ("description", tool_description t)] "parameters" p)
    with [("name", PStr (tool_name t)); ("description", tool_description t);
          ("parameters", p)].
  cbn [dict_get].
  destruct (String.eqb_spec "name" k); [congruence|].
  destruct (String.eqb_spec "description" k); [congruence|].
  destruct (String.eqb_spec "parameters" k); congruence.
Qed.
End SchemaProperties.

(** ** The catalogue: lookup order and failures *)

Section CatalogProperties.
Context {W : Type} {E : Environment W}.
Import ToolManager.

Lemma find_tool_lists (ts : list Tool) (n : string) :
  find (fun t => String.eqb (tool_name t) n) ts = None <->
  lists_tool ts n = false.
Proof.
  unfold lists_tool. induction ts as [|t ts IH]; simpl; [tauto|].
  destruct (String.eqb (tool_name t) n); simpl; [split; discriminate | exact IH].
Qed.

Lemma list_tools_ok (c : ClientRef) (ts : list Tool) (s : State W) w' :
  client_list_tools c (world s) = (Ok ts, w') ->
  list_tools c s =
  (Ok ts, mkState (messages s) w' (trace s ++ [EvListTools c])%list).
Proof. intros Hw. unfold list_tools, call_env. now rewrite Hw. Qed.

Lemma list_tools_raise (c : ClientRef) (e : PyExc) (s : State W) w' :
  client_list_tools c (world s) = (Raise e, w') ->
  list_tools c s =
  (Raise e, mkState (messages s) w' (trace s ++ [EvListTools c])%list).
Proof. intros Hw. unfold list_tools, call_env. now rewrite Hw. Qed.

(** Clients that answer without the tool are passed over, each queried
    once. *)
Lemma find_client_skip (pre rest : list ClientRef) (n : string) :
  (forall c', In c' pre ->
              forall w, exists ts w',
                client_list_tools c' w = (Ok ts, w') /\ lists_tool ts n = false) ->
  forall s, exists s1,
    _find_client_with_tool (pre ++ rest) n s = _find_client_with_tool rest n s1 /\
    trace s1 = (trace s ++ map EvListTools pre)%list /\
    messages s1 = messages s.
Proof.
  induction pre as [|c' pre IH]; intros Hpre s.
  - exists s. simpl. now rewrite app_nil_r.
  - destruct (Hpre c' (or_introl eq_refl) (world s)) as (ts & w' & Hw & Hl).
    destruct (IH (fun c0 H0 => Hpre c0 (or_intror H0))
                 (mkState (messages s) w' (trace s ++ [EvListTools c'])%list))
      as (s1 & Heq & Htr & Hm).
    exists s1. split; [|split; [|exact Hm]].
    { rewrite <- app_comm_cons, find_client_cons, (list_tools_ok _ _ Hw).
      apply find_tool_lists in Hl. rewrite Hl. exact Heq. }
    rewrite Htr. simpl. now rewrite <- app_assoc.
Qed.

(** X6. [_find_client_with_tool] returns the first client, in the order
    given, whose tool list holds the name: the clients before it are
    each queried once, it is queried once, and the clients after it are
    not queried. *)
Theorem find_client_first_match (pre : list ClientRef) (c : ClientRef)
        (post : list ClientRef) (n : string) (s : State W) :
  (forall c', In c' pre ->
              forall w, exists ts w',
                client_list_tools c' w = (Ok ts, w') /\ lists_tool ts n = false) ->
  (forall w, exists ts w',
        client_list_tools c w = (Ok ts, w') /\ lists_tool ts n = true) ->
  exists s',
    _find_client_with_tool (pre ++ c :: post) n s = (Ok (Some c), s') /\
    trace s' = (trace s ++ map EvListTools (pre ++ [c]))%list.
Proof.
  intros Hpre Hc.
  destruct (find_client_skip pre (c :: post) n Hpre s) as (s1 & Heq & Htr & _).
  destruct (Hc (world s1)) as (ts & w' & Hw & Hl).
  rewrite Heq, find_client_cons, (list_tools_ok _ _ Hw).
  destruct (find (fun t => String.eqb (tool_name t) n) ts) eqn:Hf.
  - eexists. split; [reflexivity|]. simpl.
    rewrite Htr, map_app, <- app_assoc. reflexivity.
  - apply find_tool_lists in Hf. congruence.
Qed.

(** X7. When a client raises on [list_tools] before any client with the
    tool was met, the lookup raises that exception and queries no
    further client. *)
Theorem find_client_propagates_failure (pre : list ClientRef) (c : ClientRef)
        (post : list ClientRef) (n : string) (e : PyExc) (s : State W) :
  (forall c', In c' pre ->
              forall w, exists ts w',
                client_list_tools c' w = (Ok ts, w') /\ lists_tool ts n = false) ->
  (forall w, exists w', client_list_tools c w = (Raise e, w')) ->
  exists s',
    _find_client_with_tool (pre ++ c :: post) n s = (Raise e, s') /\
    trace s' = (trace s ++ map EvListTools (pre ++ [c]))%list.
Proof.
  intros Hpre Hc.
  destruct (find_client_skip pre (c :: post) n Hpre s) as (s1 & Heq & Htr & _).
  destruct (Hc (world s1)) as (w' & Hw).
  rewrite Heq, find_client_cons, (list_tools_raise _ _ Hw).
  eexists. split; [reflexivity|]. simpl.
  rewrite Htr, map_app, <- app_assoc. reflexivity.
Qed.

Lemma append_tools_closed (ts : list Tool) :
  forall acc out,
    append_tools ts acc = Ok out ->
    exists gs, out = (acc ++ gs)%list /\
               Forall2 (fun t g => gemini_tool_of t = Ok g) ts gs.
Proof.
  induction ts as [|t ts IH]; intros acc out Hrun; simpl in Hrun.
  - injection Hrun as <-. exists []. rewrite app_nil_r. auto.
  - destruct (gemini_tool_of t) as [g|e] eqn:Hg; [|discriminate].
    destruct (IH _ _ Hrun) as (gs & -> & Hall).
    exists (g :: gs). rewrite <- app_assoc. auto.
Qed.

Lemma append_tools_first_failure (ts1 : list Tool) (t : Tool)
      (ts2 : list Tool) (e : PyExc) :
  (forall t', In t' ts1 -> exists g, gemini_tool_of t' = Ok g) ->
  gemini_tool_of t = Raise e ->
  forall acc, append_tools (ts1 ++ t :: ts2) acc = Raise e.
Proof.
  intros Hok Ht. induction ts1 as [|t1 ts1 IH]; intros acc; simpl.
  - now rewrite Ht.
  - destruct (Hok t1 (or_introl eq_refl)) as (g & Hg). rewrite Hg.
    apply IH. intros t' Ht'. apply Hok. now right.
Qed.

Lemma get_all_tools_from_static (cat : ClientRef -> list Tool)
      (cs : list ClientRef) :
  (forall c, In c cs -> forall w, exists w', client_list_tools c w = (Ok (cat c), w')) ->
  (forall c t, In c cs -> In t (cat c) -> exists g, gemini_tool_of t = Ok g) ->
  forall acc s,
  exists gs s',
    get_all_tools_from cs acc s = (Ok (acc ++ gs)%list, s') /\
    Forall2 (fun t g => gemini_tool_of t = Ok g) (flat_map cat cs) gs /\
    trace s' = (trace s ++ map EvListTools cs)%list /\
    messages s' = messages s.
Proof.
  induction cs as [|c cs IH]; intros Hcat Hconv acc s.
  - exists [], s. simpl. unfold ret. rewrite !app_nil_r. auto.
  - destruct (Hcat c (or_introl eq_refl) (world s)) as (w' & Hw).
    destruct (append_tools_ready (cat c)
                (fun t Ht => Hconv c t (or_introl eq_refl) Ht) acc)
      as (out & Hout).
    destruct (append_tools_closed _ _ Hout) as (gs1 & -> & Hall1).
    destruct (IH (fun c0 H0 => Hcat c0 (or_intror H0))
                 (fun c0 t0 H0 => Hconv c0 t0 (or_intror H0))
                 (acc ++ gs1)%list
                 (mkState (messages s) w' (trace s ++ [EvListTools c])%list))
      as (gs2 & s' & Hrun & Hall2 & Htr & Hm).
    exists (gs1 ++ gs2)%list, s'.
    split; [|split; [|split]].
    + simpl. unfold bind. rewrite (list_tools_ok _ _ Hw).
      unfold lift_result. rewrite Hout, Hrun. now rewrite <- app_assoc.
    + simpl. now apply Forall2_app.
    + rewrite Htr. simpl. now rewrite <- app_assoc.
    + exact Hm.
Qed.

(** X8. When every registered client reports a fixed list of tools
    whose schemas convert, [get_all_tools] returns one declaration per
    reported tool, client by client in registration order and tool by
    tool in the reported order, after querying each client exactly once
    and nothing else. *)
Theorem get_all_tools_catalog (clients : list (string * ClientRef))
        (cat : ClientRef -> list Tool) (s : State W) :
  static_catalog clients cat ->
  (forall c t, In c (dict_values clients) -> In t (cat c) ->
               exists g, gemini_tool_of t = Ok g) ->
  exists tools s',
    get_all_tools clients s = (Ok tools, s') /\
    Forall2 (fun t g => gemini_tool_of t = Ok g)
            (flat_map cat (dict_values clients)) tools /\
    trace s' = (trace s ++ map EvListTools (dict_values clients))%list /\
    messages s' = messages s.
Proof.
  intros Hcat Hconv.
  destruct (get_all_tools_from_static cat (dict_values clients) Hcat Hconv [] s)
    as (gs & s' & Hrun & Hall & Htr & Hm).
  exists gs, s'. auto.
Qed.
End CatalogProperties.

(** ** Invocations: results, routing and ids *)

Lemma string_app_inv_head (a n m : string) : a ++ n = a ++ m -> n = m.
Proof.
  induction a as [|c a IH]; simpl; intros H; [exact H|].
  injection H as H. now apply IH.
Qed.

(** X13. A synthesized id determines the position and the tool name it
    was built from: two ids are equal only for the same index and the
    same name. *)
Theorem gemini_tool_use_id_injective (i j : nat) (n m : string) :
  ToolManager.gemini_tool_use_id i n = ToolManager.gemini_tool_use_id j m ->
  i = j /\ n = m.
Proof.
  intros H. pose proof (gemini_tool_use_id_index H) as Hij. subst j.
  split; [reflexivity|].
  unfold ToolManager.gemini_tool_use_id in H.
  apply string_app_inv_head in H. apply string_app_inv_head in H.
  now apply (string_app_inv_head "_").
Qed.

Lemma printable_app (a b : string) :
  printable (a ++ b) = printable a && printable b.
Proof.
  induction a as [|c a IH]; simpl; [reflexivity|].
  rewrite IH. now rewrite andb_assoc.
Qed.

Lemma json_escape_char_printable (c : ascii) :
  printable (json_escape_char c) = true.
Proof.
  destruct c as [[|] [|] [|] [|] [|] [|] [|] [|]]; vm_compute; reflexivity.
Qed.

Lemma json_escape_printable (s : string) : printable (json_escape s) = true.
Proof.
  induction s as [|c s IH]; simpl; [reflexivity|].
  now rewrite printable_app, json_escape_char_printable, IH.
Qed.

Lemma json_quote_printable (s : string) : printable (json_quote s) = true.
Proof.
  unfold json_quote. cbn [printable].
  rewrite printable_app, json_escape_printable. reflexivity.
Qed.

Lemma json_quoted_join_printable (l : list string) :
  printable (str_join ", " (map json_quote l)) = true.
Proof.
  induction l as [|a [|b l] IH]; cbn [map str_join].
  - reflexivity.
  - apply json_quote_printable.
  - rewrite !printable_app, json_quote_printable. exact IH.
Qed.

Lemma json_string_list_printable (l : list string) :
  printable (json_dumps (JArray (map JString l))) = true.
Proof.
  cbn [json_dumps]. rewrite map_map. cbn [json_dumps].
  rewrite !printable_app, json_quoted_join_printable. reflexivity.
Qed.

Lemma json_error_object_printable (m : string) :
  printable (json_dumps (JObject [("error", JString m)])) = true.
Proof.
  cbn [json_dumps map str_join fst snd].
  rewrite !printable_app, !json_quote_printable. reflexivity.
Qed.

Section InvocationProperties.
Context {W : Type} {E : Environment W}.
Import ToolManager.

(** One request whose invocation returns, after the prefix [pre]. *)
Lemma claude_ok_step (clients : list (string * ClientRef))
      (pre : list ToolUse) (req : ToolUse) (post : list ToolUse)
      (s : State W) acc s1 c s2 tool_output s3 :
  claude_loop clients pre [] s = (Ok acc, s1) ->
  _find_client_with_tool (dict_values clients) (tu_name req) s1 = (Ok (Some c), s2) ->
  call_tool c (tu_name req) (tu_input req) s2 = (Ok tool_output, s3) ->
  let r :=
    mkToolResult
      (tu_id req) "tool_result"
      (json_dumps
         (JArray (map JString
                      (text_items match tool_output with
                                  | Some out => ctr_content out
                                  | None => []
                                  end))))
      match tool_output with
      | Some out => isError out
      | None => false
      end in
  claude_loop clients (pre ++ req :: post) [] s =
  claude_loop clients post (acc ++ [r])%list s3 /\
  (forall rs s',
      claude_loop clients (pre ++ req :: post) [] s = (Ok rs, s') ->
      nth_error rs (length pre) = Some r).
Proof.
  intros Hpre Hfind Hcall r.
  assert (claude_loop clients (pre ++ req :: post) [] s =
          claude_loop clients post (acc ++ [r])%list s3) as Hstep.
  { rewrite claude_loop_app, Hpre, claude_loop_cons, Hfind, invoke_tool_eq, Hcall.
    reflexivity. }
  split; [exact Hstep|].
  intros rs s' Hrun. rewrite Hstep in Hrun.
  apply claude_loop_after in Hrun as [_ Hnth].
  now rewrite (claude_loop_done_length _ _ _ Hpre) in Hnth.
Qed.

(** X10. A request whose invocation returns, met after any prefix of a
    batch of either variant, yields one result whose content is the
    JSON list of the texts of the text items of the output, in order
    (an absent output gives the empty list), and whose error flag is
    the one the server reported (unset for an absent output): a failure
    reported by the server is data, not an exception. *)
Theorem successful_call_result (clients : list (string * ClientRef)) :
  (forall (pre : list FunctionCall) (call : FunctionCall)
          (post : list FunctionCall) (s : State W) acc s1 c s2 tool_output s3,
      _execute_gemini_function_calls clients pre s = (Ok acc, s1) ->
      _find_client_with_tool (dict_values clients) (fc_name call) s1
      = (Ok (Some c), s2) ->
      call_tool c (fc_name call) (fc_args call) s2 = (Ok tool_output, s3) ->
      forall rs s',
        _execute_gemini_function_calls clients (pre ++ call :: post) s
        = (Ok rs, s') ->
        nth_error rs (length pre) =
        Some (mkToolResult
                (gemini_tool_use_id (length pre) (fc_name call)) "tool_result"
                (json_dumps
                   (JArray (map JString
                                (text_items match tool_output with
                                            | Some out => ctr_content out
                                            | None => []
                                            end))))
                match tool_output with
                | Some out => isError out
                | None => false
                end)) /\
  (forall (pre : list ToolUse) (req : ToolUse) (post : list ToolUse)
          (s : State W) acc s1 c s2 tool_output s3,
      _execute_claude_tool_requests clients pre s = (Ok acc, s1) ->
      _find_client_with_tool (dict_values clients) (tu_name req) s1
      = (Ok (Some c), s2) ->
      call_tool c (tu_name req) (tu_input req) s2 = (Ok tool_output, s3) ->
      forall rs s',
        _execute_claude_tool_requests clients (pre ++ req :: post) s
        = (Ok rs, s') ->
        nth_error rs (length pre) =
        Some (mkToolResult
                (tu_id req) "tool_result"
                (json_dumps
                   (JArray (map JString
                                (text_items match tool_output with
                                            | Some out => ctr_content out
                                            | None => []
                                            end))))
                match tool_output with
                | Some out => isError out
                | None => false
                end)).
Proof.
  unfold _execute_gemini_function_calls, _execute_claude_tool_requests.
  split.
  - intros pre call post s acc s1 c s2 tool_output s3 Hpre Hfind Hcall rs s' Hrun.
    rewrite gemini_loop_as_claude in Hpre.
    rewrite gemini_loop_as_claude, gemini_requests_split in Hrun.
    destruct (@claude_ok_step
                clients (gemini_requests 0 pre)
                (mkToolUse (gemini_tool_use_id (length pre) (fc_name call))
                           (fc_name call) (fc_args call))
                (gemini_requests (S (length pre)) post)
                s acc s1 c s2 tool_output s3 Hpre Hfind Hcall)
      as (_ & Hres).
    apply Hres in Hrun. simpl in Hrun.
    now rewrite gemini_requests_length in Hrun.
  - intros pre req post s acc s1 c s2 tool_output s3 Hpre Hfind Hcall rs s' Hrun.
    destruct (@claude_ok_step clients pre req post s acc s1 c s2 tool_output s3
                              Hpre Hfind Hcall) as (_ & Hres).
    exact (Hres rs s' Hrun).
Qed.

Lemma claude_loop_results_wellformed (clients : list (string * ClientRef))
      (reqs : list ToolUse) :
  forall acc (s : State W) rs s',
    Forall (fun r => type_ r = "tool_result" /\ printable (content r) = true) acc ->
    claude_loop clients reqs acc s = (Ok rs, s') ->
    Forall (fun r => type_ r = "tool_result" /\ printable (content r) = true) rs.
Proof.
  induction reqs as [|req reqs IH]; intros acc s rs s' Hacc Hrun.
  - simpl in Hrun. now injection Hrun as <- _.
  - rewrite claude_loop_cons in Hrun.
    destruct (_find_client_with_tool _ _ s) as [[[c|]|e] s1]; try discriminate.
    + rewrite invoke_tool_eq in Hrun.
      destruct (call_tool c (tu_name req) (tu_input req) s1) as [[out|e] s2].
      * eapply IH; [|exact Hrun]. apply Forall_app. split; [exact Hacc|].
        constructor; [|constructor]. cbn [type_ content].
        split; [reflexivity | apply json_string_list_printable].
      * eapply IH; [|exact Hrun]. apply Forall_app. split; [exact Hacc|].
        constructor; [|constructor]. cbn [type_ content].
        split; [reflexivity | apply json_error_object_printable].
    + eapply IH; [|exact Hrun]. apply Forall_app. split; [exact Hacc|].
      constructor; [|constructor]. split; reflexivity.
Qed.

(** X12. Every result an executor returns has type ["tool_result"] and
    a content made of printable ASCII characters only, whatever the
    tools returned or raised: control and non-ASCII characters of tool
    output and of error messages are escaped, so a content never holds
    a line break. *)
Theorem result_contents_printable (clients : list (string * ClientRef))
        (response : Response) (s : State W) rs s' :
  execute_tool_requests clients response s = (Ok rs, s') ->
  Forall (fun r => type_ r = "tool_result" /\ printable (content r) = true) rs.
Proof.
  unfold execute_tool_requests, _execute_gemini_function_calls,
    _execute_claude_tool_requests.
  intros Hrun.
  destruct (function_calls response) as [[|fc fcs]|];
    try (destruct (resp_content response);
         [eapply claude_loop_results_wellformed; [constructor | exact Hrun]
         | injection Hrun as <- _; constructor]).
  rewrite gemini_loop_as_claude in Hrun.
  eapply claude_loop_results_wellformed; [constructor | exact Hrun].
Qed.
End InvocationProperties.

Section RoutingProperties.
Context {W : Type} {E : Environment W}.
Import ToolManager.

Lemma call_tool_call_events (c : ClientRef) (n : string) (i : pyval)
      (s : State W) :
  call_events (trace (snd (call_tool c n i s))) =
  (call_events (trace s) ++ [EvCallTool c n i])%list.
Proof.
  unfold call_tool. rewrite call_env_world. simpl.
  unfold call_events. now rewrite filter_app.
Qed.

(** Under a fixed catalogue the lookup returns the first client that
    lists the tool. *)
Lemma find_client_static (cat : ClientRef -> list Tool) (cs : list ClientRef)
      (n : string) :
  (forall c, In c cs -> forall w, exists w', client_list_tools c w = (Ok (cat c), w')) ->
  forall s, exists s',
    _find_client_with_tool cs n s
    = (Ok (find (fun c => lists_tool (cat c) n) cs), s') /\
    call_events (trace s') = call_events (trace s).
Proof.
  induction cs as [|c cs IH]; intros Hcat s.
  - exists s. simpl. auto.
  - destruct (Hcat c (or_introl eq_refl) (world s)) as (w' & Hw).
    rewrite find_client_cons, (list_tools_ok _ _ Hw). simpl find.
    destruct (lists_tool (cat c) n) eqn:Hl.
    + destruct (find (fun t => String.eqb (tool_name t) n) (cat c)) eqn:Hf.
      * eexists. split; [reflexivity|]. simpl.
        unfold call_events. rewrite filter_app. simpl. apply app_nil_r.
      * apply find_tool_lists in Hf. congruence.
    + apply find_tool_lists in Hl. rewrite Hl.
      destruct (IH (fun c0 H0 => Hcat c0 (or_intror H0))
                   (mkState (messages s) w' (trace s ++ [EvListTools c])%list))
        as (s' & Hrun & Hev).
      exists s'. split; [exact Hrun|]. rewrite Hev. simpl.
      unfold call_events. rewrite filter_app. simpl. apply app_nil_r.
Qed.

Lemma claude_loop_routing (clients : list (string * ClientRef))
      (cat : ClientRef -> list Tool) (reqs : list ToolUse) :
  static_catalog clients cat ->
  forall acc (s : State W),
  exists rs s',
    claude_loop clients reqs acc s = (Ok rs, s') /\
    call_events (trace s') =
    (call_events (trace s)
     ++ routed_calls cat (dict_values clients)
                     (map (fun r => (tu_name r, tu_input r)) reqs))%list.
Proof.
  intros Hcat. induction reqs as [|req reqs IH]; intros acc s.
  - exists acc, s. simpl. unfold ret. now rewrite app_nil_r.
  - rewrite claude_loop_cons.
    destruct (find_client_static cat (dict_values clients) (tu_name req) Hcat s)
      as (s1 & Hf & Hev1).
    rewrite Hf. cbn [map routed_calls flat_map fst snd].
    destruct (find (fun c => lists_tool (cat c) (tu_name req)) (dict_values clients))
      as [c|].
    + rewrite invoke_tool_eq.
      pose proof (call_tool_call_events c (tu_name req) (tu_input req) s1) as Hev2.
      destruct (call_tool c (tu_name req) (tu_input req) s1) as [[out|e] s2];
        simpl in Hev2;
        match goal with
        | |- context [claude_loop clients reqs ?a s2] =>
            destruct (IH a s2) as (rs & s' & Hrun & Hev)
        end;
        exists rs, s'; (split; [exact Hrun|]);
        rewrite Hev, Hev2, Hev1, <- app_assoc; reflexivity.
    + match goal with
      | |- context [claude_loop clients reqs ?a s1] =>
          destruct (IH a s1) as (rs & s' & Hrun & Hev)
      end.
      exists rs, s'. split; [exact Hrun|]. now rewrite Hev, Hev1.
Qed.

Lemma gemini_requests_pairs (fcs : list FunctionCall) :
  forall i,
    map (fun r => (tu_name r, tu_input r)) (gemini_requests i fcs) =
    map (fun fc => (fc_name fc, fc_args fc)) fcs.
Proof.
  induction fcs as [|fc fcs IH]; intros i; simpl; [|rewrite IH]; reflexivity.
Qed.

(** X11. When every registered client reports a fixed list of tools, a
    batch of either variant returns its results and invokes, in the
    order of the requests, each request whose tool some client lists
    exactly once, at the first such client in registration order and
    with the request's own name and input; a request no client lists is
    not invoked. *)
Theorem batch_routing (clients : list (string * ClientRef))
        (cat : ClientRef -> list Tool) :
  static_catalog clients cat ->
  (forall (fcs : list FunctionCall) (s : State W),
      exists rs s',
        _execute_gemini_function_calls clients fcs s = (Ok rs, s') /\
        call_events (trace s') =
        (call_events (trace s)
         ++ routed_calls cat (dict_values clients)
                         (map (fun fc => (fc_name fc, fc_args fc)) fcs))%list) /\
  (forall (reqs : list ToolUse) (s : State W),
      exists rs s',
        _execute_claude_tool_requests clients reqs s = (Ok rs, s') /\
        call_events (trace s') =
        (call_events (trace s)
         ++ routed_calls cat (dict_values clients)
                         (map (fun r => (tu_name r, tu_input r)) reqs))%list).
Proof.
  intros Hcat.
  unfold _execute_gemini_function_calls, _execute_claude_tool_requests.
  split.
  - intros fcs s.
    destruct (claude_loop_routing (gemini_requests 0 fcs) Hcat [] s)
      as (rs & s' & Hrun & Hev).
    exists rs, s'. rewrite gemini_loop_as_claude.
    split; [exact Hrun|]. now rewrite Hev, gemini_requests_pairs.
  - intros reqs s. apply claude_loop_routing. exact Hcat.
Qed.

Lemma get_all_tools_from_bad_schema (cat : ClientRef -> list Tool)
      (pre : list ClientRef) (c : ClientRef) (post : list ClientRef)
      (ts1 : list Tool) (t : Tool) (ts2 : list Tool) (e : PyExc) :
  (forall c', In c' (pre ++ [c]) ->
              forall w, exists w', client_list_tools c' w = (Ok (cat c'), w')) ->
  (forall c' t', In c' pre -> In t' (cat c') ->
                 exists g, gemini_tool_of t' = Ok g) ->
  cat c = (ts1 ++ t :: ts2)%list ->
  (forall t', In t' ts1 -> exists g, gemini_tool_of t' = Ok g) ->
  gemini_tool_of t = Raise e ->
  forall acc (s : State W),
  exists s',
    get_all_tools_from (pre ++ c :: post) acc s = (Raise e, s') /\
    trace s' = (trace s ++ map EvListTools (pre ++ [c]))%list.
Proof.
  intros Hcat Hconv Hc Hts1 Ht.
  induction pre as [|c' pre IH]; intros acc s.
  - destruct (Hcat c (or_introl eq_refl) (world s)) as (w' & Hw).
    simpl. unfold bind. rewrite (list_tools_ok _ _ Hw). unfold lift_result.
    rewrite Hc, (@append_tools_first_failure ts1 t ts2 e Hts1 Ht).
    eexists. split; reflexivity.
  - destruct (Hcat c' (or_introl eq_refl) (world s)) as (w' & Hw).
    destruct (append_tools_ready (cat c')
                (fun t' Ht' => Hconv c' t' (or_introl eq_refl) Ht') acc)
      as (out & Hout).
    destruct (IH (fun c0 H0 => Hcat c0 (or_intror H0))
                 (fun c0 t0 H0 => Hconv c0 t0 (or_intror H0))
                 out
                 (mkState (messages s) w' (trace s ++ [EvListTools c'])%list))
      as (s' & Hrun & Htr).
    exists s'. split.
    + rewrite <- app_comm_cons. simpl. unfold bind.
      rewrite (list_tools_ok _ _ Hw). unfold lift_result. rewrite Hout.
      exact Hrun.
    + rewrite Htr. simpl. now rewrite <- app_assoc.
Qed.

(** X9. One tool whose schema cannot be converted (its [properties] is
    not a mapping) makes the whole catalogue query fail: [get_all_tools]
    raises the [AttributeError] once it reaches that tool, and [run]
    raises it in its first iteration, after appending the query and
    before any model call or tool invocation. *)
Theorem bad_schema_aborts_run (clients : list (string * ClientRef))
        (cat : ClientRef -> list Tool)
        (pre : list ClientRef) (c : ClientRef) (post : list ClientRef)
        (ts1 : list Tool) (t : Tool) (ts2 : list Tool) (e : PyExc)
        (query : string) (s : State W) :
  static_catalog clients cat ->
  dict_values clients = (pre ++ c :: post)%list ->
  (forall c' t', In c' pre -> In t' (cat c') ->
                 exists g, gemini_tool_of t' = Ok g) ->
  cat c = (ts1 ++ t :: ts2)%list ->
  (forall t', In t' ts1 -> exists g, gemini_tool_of t' = Ok g) ->
  gemini_tool_of t = Raise e ->
  (exists s1,
      get_all_tools clients s = (Raise e, s1) /\
      trace s1 = (trace s ++ map EvListTools (pre ++ [c]))%list) /\
  (exists s',
      Chat.run clients query s = (Raise e, s') /\
      messages s' = (messages s ++ [mkMessage user (ContentText query)])%list /\
      trace s' = (trace s ++ map EvListTools (pre ++ [c]))%list).
Proof.
  intros Hcat Hcs Hconv Hc Hts1 Ht.
  assert (forall c', In c' (pre ++ [c]) ->
                     forall w, exists w', client_list_tools c' w = (Ok (cat c'), w'))
    as Hcat'.
  { intros c' Hin. apply Hcat. rewrite Hcs.
    apply in_app_or in Hin as [Hin | [<- | []]]; apply in_or_app;
      [now left | right; now left]. }
  split.
  - unfold get_all_tools. rewrite Hcs.
    exact (@get_all_tools_from_bad_schema cat pre c post ts1 t ts2 e
             Hcat' Hconv Hc Hts1 Ht [] s).
  - rewrite run_eq. unfold Chat.max_iterations. rewrite run_loop_S.
    unfold get_all_tools. rewrite Hcs.
    pose proof (quiet_get_all_tools_from (pre ++ c :: post) []
                  (mkState (messages s ++ [mkMessage user (ContentText query)])%list
                           (world s) (trace s))) as [Hm _].
    destruct (@get_all_tools_from_bad_schema cat pre c post ts1 t ts2 e
                Hcat' Hconv Hc Hts1 Ht []
                (mkState (messages s ++ [mkMessage user (ContentText query)])%list
                         (world s) (trace s)))
      as (s' & Hrun & Htr).
    rewrite Hrun in *. simpl in Hm, Htr.
    exists s'. auto.
Qed.
End RoutingProperties.

(** ** The chat loop: transcript and failures *)

Section ChatProperties.
Context {W : Type} {E : Environment W}.
Import ToolManager Chat.

Lemma run_loop_appends (clients : list (string * ClientRef)) :
  forall remaining count final (s : State W),
  exists added,
    messages (snd (run_loop clients remaining count final s))
    = (messages s ++ added)%list /\
    Forall (fun m => (exists r, m = assistant_message r) \/
                     (exists rs, m = user_message rs)) added.
Proof.
  induction remaining as [|k IH]; intros count final s.
  - exists []. simpl. now rewrite app_nil_r.
  - rewrite run_loop_S.
    destruct (quiet_get_all_tools clients s) as [Hm1 _].
    destruct (get_all_tools clients s) as [[tools|e] s1]; simpl in Hm1.
    2:{ exists []. simpl. now rewrite app_nil_r. }
    destruct (ai_chat_with_tools (messages s1) tools (world s1)) as [[r|e] w2].
    2:{ exists []. simpl. now rewrite app_nil_r. }
    cbv zeta. destruct (wants_function_calls r).
    + match goal with
      | |- context [execute_tool_requests clients r ?s3] =>
          destruct (quiet_execute_tool_requests clients r s3) as [Hm4 _];
          destruct (execute_tool_requests clients r s3) as [[parts|e] s4]
      end; simpl in Hm4.
      * match goal with
        | |- context [run_loop clients k ?n final ?s5] =>
            destruct (IH n final s5) as (added & Hm & Hall)
        end.
        exists (assistant_message r :: user_message parts :: added).
        split.
        -- rewrite Hm. simpl. rewrite Hm4, Hm1, <- !app_assoc. reflexivity.
        -- constructor; [left; eauto|]. constructor; [right; eauto | exact Hall].
      * exists [assistant_message r]. simpl. rewrite Hm4, Hm1.
        split; [reflexivity|]. constructor; [left; eauto | constructor].
    + exists [assistant_message r]. simpl. rewrite Hm1.
      split; [reflexivity|]. constructor; [left; eauto | constructor].
Qed.

(** X14. The transcript only grows: whatever the outcome of [run],
    returned or raised, the transcript afterwards is the transcript
    before, the query as a user message, and then only assistant
    messages built from model responses and user messages built from
    tool results. *)
Theorem transcript_append_only (clients : list (string * ClientRef))
        (query : string) (s : State W) :
  exists added,
    messages (snd (run clients query s))
    = (messages s ++ mkMessage user (ContentText query) :: added)%list /\
    Forall (fun m => (exists r, m = assistant_message r) \/
                     (exists rs, m = user_message rs)) added.
Proof.
  rewrite run_eq.
  destruct (run_loop_appends clients max_iterations 0 EmptyString
              (mkState (messages s ++ [mkMessage user (ContentText query)])%list
                       (world s) (trace s)))
    as (added & Hm & Hall).
  exists added. split; [|exact Hall].
  destruct (run_loop clients max_iterations 0 EmptyString _)
    as [[[n txt]|e] s']; simpl in *; rewrite Hm, <- app_assoc; reflexivity.
Qed.

Lemma run_loop_returns (clients : list (string * ClientRef)) :
  catalog_ready clients -> adapter_answers ->
  forall remaining count final (s : State W),
  exists n txt s', run_loop clients remaining count final s = (Ok (n, txt), s').
Proof.
  intros Hready Hans.
  induction remaining as [|k IH]; intros count final s.
  - simpl. unfold ret. eauto.
  - rewrite run_loop_S.
    destruct (get_all_tools_from_ready (dict_values clients) Hready [] s)
      as (tools & s1 & Htools).
    unfold get_all_tools. rewrite Htools.
    destruct (Hans (messages s1) tools (world s1)) as (r & w2 & Hai).
    rewrite Hai. cbv zeta. destruct (wants_function_calls r); [|eauto].
    match goal with
    | |- context [execute_tool_requests clients r ?s3] =>
        destruct (execute_tool_requests_total r s3
                    (catalog_ready_answers Hready)) as (parts & s4 & Hexec)
    end.
    rewrite Hexec. apply IH.
Qed.

(** X15. [run] returns an answer whenever the registered clients list
    their tools (with schemas that convert) and the adapter answers:
    no behaviour of [call_tool], returning, reporting an error or
    raising, makes [run] raise. *)
Theorem run_returns_despite_tool_failures
        (clients : list (string * ClientRef)) (query : string) (s : State W) :
  catalog_ready clients -> adapter_answers ->
  exists ans s', run clients query s = (Ok ans, s').
Proof.
  intros Hready Hans. rewrite run_eq.
  destruct (run_loop_returns Hready Hans max_iterations 0 EmptyString
              (mkState (messages s ++ [mkMessage user (ContentText query)])%list
                       (world s) (trace s)))
    as (n & txt & s' & Hrun).
  rewrite Hrun. eauto.
Qed.

(** X17. An exception of the model adapter is not turned into the
    fallback answer: [run] raises it, after one catalogue query and one
    model call on the transcript extended by the query, with no tool
    invoked and no assistant message appended. *)
Theorem adapter_exception_propagates
        (clients : list (string * ClientRef)) (query : string) (e : PyExc)
        (s : State W) :
  catalog_ready clients ->
  (forall msgs tools w, exists w', ai_chat_with_tools msgs tools w = (Raise e, w')) ->
  exists s' tools,
    run clients query s = (Raise e, s') /\
    messages s' = (messages s ++ [mkMessage user (ContentText query)])%list /\
    chat_events (trace s') =
    (chat_events (trace s)
     ++ [EvChatWithTools
           (messages s ++ [mkMessage user (ContentText query)])%list
           tools (Raise e)])%list /\
    call_events (trace s') = call_events (trace s).
Proof.
  intros Hready Hraise. rewrite run_eq. unfold max_iterations.
  rewrite run_loop_S.
  match goal with
  | |- context [get_all_tools clients ?s0] =>
      destruct (quiet_get_all_tools clients s0) as [Hm Hc];
      destruct (get_all_tools_from_ready (dict_values clients) Hready [] s0)
        as (tools & s1 & Htools);
      assert (call_events (trace s1) = call_events (trace s)) as Hcalls
  end.
  { clear Hm Hc.
    assert (forall cs acc (s0 : State W),
               call_events (trace (snd (get_all_tools_from cs acc s0)))
               = call_events (trace s0)) as Hq.
    { induction cs as [|c cs IH]; intros acc s0; [reflexivity|].
      simpl. unfold bind.
      pose proof (list_tools_call_events c s0) as Hl.
      destruct (list_tools c s0) as [[ts|e0] s2]; simpl in *; [|exact Hl].
      unfold lift_result. destruct (append_tools ts acc); simpl; [|exact Hl].
      now rewrite IH. }
    specialize (Hq (dict_values clients) []
                   (mkState (messages s ++ [mkMessage user (ContentText query)])%list
                            (world s) (trace s))).
    rewrite Htools in Hq. exact Hq. }
  unfold get_all_tools in *. rewrite Htools in *. simpl in Hm, Hc.
  destruct (Hraise (messages s1) tools (world s1)) as (w2 & Hai).
  rewrite Hai. exists (mkState (messages s1) w2
                               (trace s1 ++ [EvChatWithTools (messages s1) tools (Raise e)])%list),
                      tools.
  split; [reflexivity|]. simpl. split; [exact Hm|]. split.
  - unfold chat_events in *. rewrite filter_app, Hc, Hm. reflexivity.
  - unfold call_events in *. rewrite filter_app, Hcalls. simpl.
    apply app_nil_r.
Qed.
End ChatProperties.

(** ** The client: connecting, scoped use and the other methods *)

Section ClientProperties.
Context {Session Ctx X : Type} {T : MCPClient.Transport Session Ctx X}.
Import MCPClient.

Ltac run_client :=
  unfold connect, list_tools, call_tool, session, cleanup, aclose, sleep,
    push_context, set_exit_stack, set_session, extern, try_finally, try_except,
    bind, gets, modify, raise, ret; simpl.

(** X18. When the transport starts, the session opens and the handshake
    completes, [connect] returns with the session set and with the
    session above the transport on the exit stack; from then on
    [list_tools] and [call_tool] are the session's operations and leave
    the client object unchanged. *)
Theorem connect_success (self : t (Session := Session) (Ctx := Ctx)) (x : X)
        transport x1 sess x2 x3 :
  stdio_client (_command self) (_args self) (_env self) x = (Ok transport, x1) ->
  client_session transport x1 = (Ok sess, x2) ->
  session_initialize sess x2 = (Ok tt, x3) ->
  let self' := mk (_command self) (_args self) (_env self) (Some sess)
                  (inr sess :: inl transport :: _exit_stack self) in
  connect (self, x) = (Ok tt, (self', x3)) /\
  (forall y, list_tools (self', y) =
             (fst (session_list_tools sess y),
              (self', snd (session_list_tools sess y)))) /\
  (forall n i y, call_tool n i (self', y) =
                 (fst (session_call_tool sess n i y),
                  (self', snd (session_call_tool sess n i y)))).
Proof.
  intros H1 H2 H3 self'. split; [|split].
  - run_client. rewrite H1. simpl. rewrite H2. simpl. rewrite H3. reflexivity.
  - intros y. run_client. now destruct (session_list_tools sess y).
  - intros n i y. run_client. now destruct (session_call_tool sess n i y).
Qed.

Lemma connect_session_start_fails
      (self : t (Session := Session) (Ctx := Ctx)) (x : X) (e : PyExc)
      transport x1 x2 :
  stdio_client (_command self) (_args self) (_env self) x = (Ok transport, x1) ->
  client_session transport x1 = (Raise e, x2) ->
  connect (self, x) =
  (Raise e,
   (mk (_command self) (_args self) (_env self) (_session self)
       (inl transport :: _exit_stack self), x2)).
Proof.
  intros H1 H2. run_client. rewrite H1. simpl. rewrite H2. reflexivity.
Qed.

(** X19. [connect] propagates the exception of the step that fails and
    keeps what the earlier steps did: a failing transport start leaves
    the client as it was; a failing session start leaves the transport
    on the exit stack and the session unset; a failing handshake leaves
    the session set, so that later calls reach that session instead of
    raising the session-not-ready error. *)
Theorem connect_failures (self : t (Session := Session) (Ctx := Ctx)) (x : X)
        (e : PyExc) :
  (forall x1,
      stdio_client (_command self) (_args self) (_env self) x = (Raise e, x1) ->
      connect (self, x) = (Raise e, (self, x1))) /\
  (forall transport x1 x2,
      stdio_client (_command self) (_args self) (_env self) x = (Ok transport, x1) ->
      client_session transport x1 = (Raise e, x2) ->
      connect (self, x) =
      (Raise e,
       (mk (_command self) (_args self) (_env self) (_session self)
           (inl transport :: _exit_stack self), x2))) /\
  (forall transport x1 sess x2 x3,
      stdio_client (_command self) (_args self) (_env self) x = (Ok transport, x1) ->
      client_session transport x1 = (Ok sess, x2) ->
      session_initialize sess x2 = (Raise e, x3) ->
      let self' := mk (_command self) (_args self) (_env self) (Some sess)
                      (inr sess :: inl transport :: _exit_stack self) in
      connect (self, x) = (Raise e, (self', x3)) /\
      list_tools (self', x3) =
      (fst (session_list_tools sess x3),
       (self', snd (session_list_tools sess x3)))).
Proof.
  split; [|split].
  - intros x1 H1. run_client. rewrite H1. now destruct self.
  - intros transport x1 x2 H1 H2.
    exact (@connect_session_start_fails self x e transport x1 x2 H1 H2).
  - intros transport x1 sess x2 x3 H1 H2 H3 self'. split.
    + run_client. rewrite H1. simpl. rewrite H2. simpl. rewrite H3. reflexivity.
    + run_client. now destruct (session_list_tools sess x3).
Qed.

Lemma cleanup_eq (self : t (Session := Session) (Ctx := Ctx)) (x : X) :
  cleanup (self, x) =
  (Ok tt,
   (mk (_command self) (_args self) (_env self) None [],
    let x1 := match _session self with
              | Some _ => asyncio_sleep x
              | None => x
              end in
    match exit_stack_aclose (_exit_stack self) x1 with
    | (Ok _, x2) => if platform_is_win32 then asyncio_sleep x2 else x2
    | (Raise _, x2) => x2
    end)).
Proof.
  run_client.
  destruct (_session self); simpl;
    match goal with
    | |- context [exit_stack_aclose ?stack ?y] =>
        destruct (exit_stack_aclose stack y) as [[[]|e] x1]
    end; simpl; try destruct platform_is_win32; reflexivity.
Qed.

(** X20. [cleanup] empties the exit stack and keeps the command, the
    arguments and the environment of the client; a second [cleanup]
    returns as well, leaves the client as the first one left it and
    closes an empty stack, so nothing is released twice. *)
Theorem cleanup_releases_once (self : t (Session := Session) (Ctx := Ctx))
        (x : X) :
  exists self' x',
    cleanup (self, x) = (Ok tt, (self', x')) /\
    _exit_stack self' = [] /\
    _session self' = None /\
    (_command self', _args self', _env self')
    = (_command self, _args self, _env self) /\
    cleanup (self', x') =
    (Ok tt,
     (self',
      match exit_stack_aclose [] x' with
      | (Ok _, x2) => if platform_is_win32 then asyncio_sleep x2 else x2
      | (Raise _, x2) => x2
      end)).
Proof.
  do 2 eexists. split; [apply cleanup_eq|].
  split; [reflexivity|]. split; [reflexivity|]. split; [reflexivity|].
  rewrite cleanup_eq. reflexivity.
Qed.
End ClientProperties.

Section ScopedClientProperties.
Context {Session Ctx X Prompt PromptMessage Url : Type}.
Context {T : MCPClient.Transport Session Ctx X}.
Context {R : MCPClientAux.Resources Session X Prompt PromptMessage Url}.
Import MCPClient MCPClientAux.

(** X21. [async with client: body] closes the client on every way out
    of the block: once [connect] has returned, the block's outcome,
    returned or raised, is the outcome of the whole statement, and the
    client ends with its session unset and its exit stack empty.  When
    [connect] raises, the block does not run and neither does
    [cleanup]: the state is the one the failed [connect] left, with the
    transport still on the exit stack when the session start failed. *)
Theorem async_with_closes {A : Type}
        (body : M (ClientState (Session := Session) (Ctx := Ctx) (X := X)) A)
        (st : ClientState (Session := Session) (Ctx := Ctx) (X := X)) :
  (forall st1,
      connect st = (Ok tt, st1) ->
      exists st',
        async_with body st = (fst (body st1), st') /\
        _session (fst st') = None /\
        _exit_stack (fst st') = []) /\
  (forall e st1,
      connect st = (Raise e, st1) ->
      async_with body st = (Raise e, st1)) /\
  (forall e transport x1 x2,
      stdio_client (_command (fst st)) (_args (fst st)) (_env (fst st)) (snd st)
      = (Ok transport, x1) ->
      client_session transport x1 = (Raise e, x2) ->
      exists st1,
        async_with body st = (Raise e, st1) /\
        _exit_stack (fst st1) = inl transport :: _exit_stack (fst st)).
Proof.
  split; [|split].
  - intros st1 Hc. unfold async_with, __aenter__, __aexit__, bind. rewrite Hc.
    unfold try_finally. destruct (body st1) as [r [self2 x2]].
    rewrite cleanup_eq. eexists. split; [reflexivity|]. split; reflexivity.
  - intros e st1 Hc. unfold async_with, __aenter__, bind. now rewrite Hc.
  - intros e transport x1 x2 H1 H2. destruct st as [self x]. simpl in *.
    pose proof (@connect_session_start_fails
                  Session Ctx X T self x e transport x1 x2 H1 H2) as Hb.
    eexists. split.
    + unfold async_with, __aenter__, bind. rewrite Hb. reflexivity.
    + reflexivity.
Qed.

(** X22. On a client without a session, [list_prompts], [get_prompt]
    and [read_resource] raise the session-not-ready error and touch
    neither the client nor the transport; [read_resource] does so for
    every URI, before the URI is validated. *)
Theorem disconnected_methods (self : t (Session := Session) (Ctx := Ctx))
        (x : X) :
  _session self = None ->
  list_prompts (self, x) = (Raise session_not_ready, (self, x)) /\
  (forall n a, get_prompt n a (self, x) = (Raise session_not_ready, (self, x))) /\
  (forall uri, read_resource uri (self, x) = (Raise session_not_ready, (self, x))).
Proof.
  intros Hs.
  unfold list_prompts, get_prompt, read_resource, session, bind, gets, raise.
  simpl. rewrite Hs. auto.
Qed.

(** X23. On a connected client [read_resource] rejects a URI the
    validator rejects without reaching the session; it raises
    [IndexError] when the server returns no content item; it looks at
    the first item only, returning [None] for an item that is not text,
    the decoded JSON (or the decoder's exception) for text of MIME type
    [application/json], and the raw text for any other text. *)
Theorem read_resource_edges (self : t (Session := Session) (Ctx := Ctx))
        (x : X) (sess : Session) (uri : string) :
  _session self = Some sess ->
  (forall e, AnyUrl uri = Raise e ->
             read_resource uri (self, x) = (Raise e, (self, x))) /\
  (forall url x',
      AnyUrl uri = Ok url ->
      session_read_resource sess url x = (Ok [], x') ->
      read_resource uri (self, x) = (Raise IndexError, (self, x'))) /\
  (forall url x' first rest,
      AnyUrl uri = Ok url ->
      session_read_resource sess url x = (Ok (first :: rest), x') ->
      read_resource uri (self, x) =
      (match first with
       | BlobResourceContents => Ok PNone
       | TextResourceContents mimeType resource_text =>
           if match mimeType with
              | Some mime => String.eqb mime "application/json"
              | None => false
              end
           then json_loads resource_text
           else Ok (PStr resource_text)
       end, (self, x'))).
Proof.
  intros Hs.
  unfold read_resource, session, extern, lift_result, bind, gets, raise, ret.
  simpl. rewrite Hs. split; [|split].
  - intros e He. now rewrite He.
  - intros url x' Hu Hr. rewrite Hu. simpl. rewrite Hr. reflexivity.
  - intros url x' first rest Hu Hr. rewrite Hu. simpl. rewrite Hr.
    destruct first as [[mime|] txt|]; try reflexivity.
    destruct (String.eqb mime "application/json"); [|reflexivity].
    now destruct (json_loads txt).
Qed.
End ScopedClientProperties.

(** ** The Gemini adapter: what the model is shown and what is read back *)

Section AdapterProperties.
Context {W : Type} {E : Environment W}.
Import ToolManager Chat GeminiService.

Lemma convert_roles (msgs : list Message) :
  Forall (fun m => msg_content m <> ContentParts []) msgs ->
  map gc_role (_convert_messages_to_gemini_format msgs)
  = map (fun m => gemini_role (role m)) msgs.
Proof.
  induction 1 as [|m msgs Hm _ IH]; [reflexivity|].
  simpl. destruct (msg_content m) as [txt|parts].
  - simpl. now rewrite IH.
  - destruct parts as [|p parts]; [congruence|]. simpl. now rewrite IH.
Qed.

Lemma assistant_message_not_empty (r : Response) :
  msg_content (assistant_message r) <> ContentParts [].
Proof.
  unfold assistant_message.
  destruct (function_calls r) as [[|fc fcs]|]; try discriminate.
  unfold assistant_parts. simpl. intros [= H].
  apply app_eq_nil in H as [_ H]. discriminate.
Qed.

Lemma user_message_not_empty (rs : list ToolResult) :
  msg_content (user_message rs) <> ContentParts [].
Proof. destruct rs; discriminate. Qed.

Lemma tool_turns_not_empty (tl : list Message) :
  tool_turns tl -> Forall (fun m => msg_content m <> ContentParts []) tl.
Proof.
  induction 1 as [|tl r rs _ IH _]; [constructor|].
  apply Forall_app. split; [exact IH|].
  constructor; [apply assistant_message_not_empty|].
  constructor; [apply user_message_not_empty | constructor].
Qed.

(** X24. When no message of the transcript before a run has an empty
    list content, the conversion to Gemini contents keeps every message
    of every transcript the run hands to the adapter: one content per
    message, in order, with role [model] for an assistant message and
    [user] for a user message. *)
Theorem gemini_contents_keep_every_message
        (clients : list (string * ClientRef)) (query : string) (s : State W) :
  Forall (fun m => msg_content m <> ContentParts []) (messages s) ->
  exists evs,
    chat_events (trace (snd (run clients query s)))
    = (chat_events (trace s) ++ evs)%list /\
    forall msgs tools o,
      In (EvChatWithTools msgs tools o) evs ->
      map gc_role (_convert_messages_to_gemini_format msgs)
      = map (fun m => gemini_role (role m)) msgs.
Proof.
  intros Hinit. rewrite run_eq.
  destruct (run_loop clients max_iterations 0 EmptyString _)
    as [lout s1] eqn:Hloop.
  apply (@run_loop_inv
           W E clients (messages s ++ [mkMessage user (ContentText query)])%list
           max_iterations 0 EmptyString _ []) in Hloop;
    [|simpl; now rewrite app_nil_r | constructor].
  destruct Hloop as (evs & Hc & _ & Hall & _). simpl in Hc.
  exists evs. split.
  - destruct lout as [[n txt]|e]; exact Hc.
  - intros msgs tools o Hin. rewrite Forall_forall in Hall.
    destruct (Hall _ Hin) as (ms & ts & o' & tl & Hev & Hms & Htl).
    injection Hev as <- <- <-. apply convert_roles. rewrite Hms.
    apply Forall_app. split; [|now apply tool_turns_not_empty].
    apply Forall_app. split; [exact Hinit|].
    constructor; [discriminate | constructor].
Qed.

(** X25. The assistant message recorded for a response with function
    calls reaches the model as one [model] content whose parts are the
    response text, when it is not empty, and then one text part
    ["Function call: <name>"] per call, in order: the arguments of the
    calls are not shown. *)
Theorem function_calls_rendered_as_text (r : Response)
        (fc : FunctionCall) (fcs : list FunctionCall) :
  function_calls r = Some (fc :: fcs) ->
  _convert_messages_to_gemini_format [assistant_message r] =
  [mkContent "model"
     (match text r with
      | Some t => if String.eqb t EmptyString then [] else [t]
      | None => []
      end
      ++ map (fun c => String.append "Function call: " (fc_name c))
             (fc :: fcs))%list].
Proof.
  intros Hfc. unfold assistant_message, assistant_parts. rewrite Hfc.
  cbn [_convert_messages_to_gemini_format msg_content role gemini_role].
  rewrite map_app, map_map. cbn [gemini_part].
  destruct (text r) as [t|].
  - destruct (String.eqb t EmptyString); reflexivity.
  - reflexivity.
Qed.

Lemma str_join_empty_cons (t : string) (l : list string) :
  str_join EmptyString (t :: l) = t ++ str_join EmptyString l.
Proof. destruct l; simpl; [now rewrite append_nil_r | reflexivity]. Qed.

Lemma read_parts_closed (parts : list GeminiPart) :
  forall calls txt,
    read_parts parts calls txt =
    ((calls ++ flat_map (fun p => match part_function_call p with
                                  | Some (n, a) => [mkFunctionCall n (PDict a)]
                                  | None => []
                                  end) parts)%list,
     txt ++ str_join EmptyString
                     (flat_map (fun p => match part_function_call p, part_text p with
                                         | None, Some t => [t]
                                         | _, _ => []
                                         end) parts)).
Proof.
  induction parts as [|p parts IH]; intros calls txt.
  - simpl. now rewrite app_nil_r, append_nil_r.
  - cbn [read_parts flat_map].
    destruct (part_function_call p) as [[n a]|].
    + rewrite IH. simpl. now rewrite <- app_assoc.
    + destruct (part_text p) as [t|]; [|rewrite IH; reflexivity].
      rewrite app_nil_l.
      match goal with
      | |- context [([t] ++ ?l)%list] => change ([t] ++ l)%list with (t :: l)
      end.
      rewrite str_join_empty_cons.
      destruct (String.eqb_spec t EmptyString) as [->|Hne]; cbn [negb];
        rewrite IH; [reflexivity | now rewrite append_assoc].
Qed.

(** X26. The response read from a Gemini reply always carries a text
    and a list of function calls and never content blocks.  Only the
    parts of the first candidate count: the calls are the function
    calls of those parts, in order; the text is the concatenation of
    the texts of the parts that have no function call, and when there
    is neither call nor text it is [str(response.text)] (so ["None"]
    for a reply whose text is [None]) or empty. *)
Theorem read_response_closed_form (repr : string) (response : GeminiResponse) :
  let parts := match candidates response with
               | Some (Some ps :: _) => ps
               | _ => []
               end in
  let calls := flat_map (fun p => match part_function_call p with
                                  | Some (n, a) => [mkFunctionCall n (PDict a)]
                                  | None => []
                                  end) parts in
  let txt := str_join EmptyString
                      (flat_map (fun p => match part_function_call p, part_text p with
                                          | None, Some t => [t]
                                          | _, _ => []
                                          end) parts) in
  let r := read_response repr response in
  function_calls r = Some calls /\
  resp_content r = None /\
  text r = Some (match calls with
                 | [] => if String.eqb txt EmptyString
                         then str_response_text response
                         else txt
                 | _ => txt
                 end) /\
  Chat.response_text r = match text r with Some t => t | None => EmptyString end.
Proof.
  cbv zeta. unfold read_response, Chat.response_text.
  destruct (candidates response) as [[|[[|p ps]|] cs]|];
    try (cbn; repeat split; reflexivity).
  rewrite read_parts_closed. cbn [app].
  cbn [function_calls resp_content text]. repeat split.
Qed.
End AdapterProperties.

(** ** The further properties on the fixtures *)

Lemma convert_top_level_keys_witness :
  exists g, example_schema = PDict g /\
            dict_keys g = ["type"; "properties"; "required"].
Proof.
  destruct (@SchemaMore.convert_top_level_keys
              [("type", PStr "object");
               ("properties",
                PDict [("x", PDict [("type", PStr "string");
                                    ("description", PStr "d");
                                    ("enum", PList [PStr "a"; PStr "b"])])]);
               ("required", PList [PStr "x"])]
              example_schema eq_refl) as (g & Hg & Hk & _).
  exists g. split; [exact Hg | exact Hk].
Defined.

Lemma loose_properties_NoDup : NoDup (dict_keys loose_properties).
Proof.
  unfold loose_properties; simpl.
  repeat constructor; simpl; intuition discriminate.
Defined.

Lemma convert_property_fields_witness :
  exists g cp cleaned : pydict,
    ToolManager._convert_mcp_schema_to_gemini (PDict loose_schema) = Ok (PDict g) /\
    dict_get g "properties" = Some (PDict cp) /\
    dict_get cp "q" = Some (PDict cleaned) /\
    dict_get cleaned "description" = Some (PStr "query") /\
    dict_get cleaned "minLength" = None.
Proof.
  destruct (@SchemaProperties.convert_property_fields
              loose_schema loose_properties "q"
              [("description", PStr "query"); ("minLength", PInt 1)]
              eq_refl loose_properties_NoDup eq_refl)
    as (g & cp & cleaned & Hc & Hg & Hq & _ & Hd & _ & Hother).
  exists g, cp, cleaned. repeat (split; [assumption|]).
  apply Hother; discriminate.
Defined.

Lemma convert_properties_order_witness :
  exists g cp : pydict,
    ToolManager._convert_mcp_schema_to_gemini (PDict loose_schema) = Ok (PDict g) /\
    dict_get g "properties" = Some (PDict cp) /\
    dict_keys cp = ["q"; "k"].
Proof.
  exact (@SchemaProperties.convert_properties_order
           loose_schema loose_properties eq_refl loose_properties_NoDup).
Defined.

Lemma tool_declaration_parameters_witness :
  exists g,
    dict_get g "name" = Some (PStr "search") /\
    dict_get g "parameters" = Some example_schema /\
    dict_get g "inputSchema" = None.
Proof.
  destruct (@SchemaProperties.tool_declaration_parameters
              (mkTool "search" (PStr "Search documents") (Some example_schema))
              _ eq_refl) as (g & _ & Hn & _ & Hp & Hother).
  exists g. split; [exact Hn|]. split; [exact Hp|].
  apply Hother; discriminate.
Defined.

Lemma find_client_first_match_witness :
  exists s',
    ToolManager._find_client_with_tool [0; 1; 0] "fetch" start = (Ok (Some 1), s') /\
    trace s' = [EvListTools 0; EvListTools 1].
Proof.
  apply (@find_client_first_match _ ScriptedEnv [0] 1 [0] "fetch" start).
  - intros c' [<- | []] w. exists (fixture_tools 0), w. split; reflexivity.
  - intros w. exists (fixture_tools 1), w. split; reflexivity.
Defined.

Lemma find_client_propagates_failure_witness :
  exists s',
    ToolManager._find_client_with_tool [0; 1; 0] "fetch" (initial_state client_down)
    = (Raise (mkExc "ConnectionError" "Connection closed"), s') /\
    trace s' = [EvListTools 0; EvListTools 1].
Proof.
  apply (@find_client_propagates_failure
           _ ClientDownEnv [0] 1 [0] "fetch" _ (initial_state client_down)).
  - intros c' [<- | []] w. exists (fixture_tools 0), w. split; reflexivity.
  - intros w. exists w. reflexivity.
Defined.

Lemma fixture_static_catalog :
  @static_catalog _ ScriptedEnv fixture_clients fixture_tools.
Proof. intros c _ w. exists w. reflexivity. Defined.

Lemma fixture_tools_convert (c : ClientRef) (t : Tool) :
  In c (ToolManager.dict_values fixture_clients) -> In t (fixture_tools c) ->
  exists g, ToolManager.gemini_tool_of t = Ok g.
Proof.
  intros [<- | [<- | []]] Ht; simpl in Ht.
  - destruct Ht as [<- | []]. eexists. vm_compute. reflexivity.
  - destruct Ht as [<- | [<- | []]]; eexists; vm_compute; reflexivity.
Defined.

Lemma get_all_tools_catalog_witness :
  exists tools s',
    ToolManager.get_all_tools fixture_clients start = (Ok tools, s') /\
    length tools = 3 /\
    trace s' = [EvListTools 0; EvListTools 1].
Proof.
  destruct (@get_all_tools_catalog _ ScriptedEnv fixture_clients fixture_tools
              start fixture_static_catalog fixture_tools_convert)
    as (tools & s' & Hrun & Hall & Htr & _).
  exists tools, s'. split; [exact Hrun|]. split; [|exact Htr].
  apply Forall2_length in Hall. now rewrite <- Hall.
Defined.

Lemma bad_schema_aborts_run_witness :
  exists s',
    Chat.run fixture_clients "Summarise the report" (initial_state broken_schema)
    = (Raise (AttributeError_items (PList [])), s') /\
    messages s' = [mkMessage user (ContentText "Summarise the report")] /\
    trace s' = [EvListTools 0; EvListTools 1].
Proof.
  destruct (@bad_schema_aborts_run
              _ BrokenSchemaEnv fixture_clients broken_catalog [0] 1 []
              [mkTool "fetch" (PStr "Fetch a page") None] failing_schema_tool
              [mkTool "boom" PNone None] (AttributeError_items (PList []))
              "Summarise the report" (initial_state broken_schema))
    as [_ Hrun].
  - intros c _ w. exists w. reflexivity.
  - reflexivity.
  - intros c' t' [<- | []] [<- | []]. eexists. vm_compute. reflexivity.
  - reflexivity.
  - intros t' [<- | []]. eexists. vm_compute. reflexivity.
  - reflexivity.
  - exact Hrun.
Defined.

Lemma successful_call_result_witness :
  (exists rs s',
      ToolManager._execute_gemini_function_calls
        fixture_clients batch_search_unknown_boom_fetch start = (Ok rs, s') /\
      nth_error rs 0 =
      Some (mkToolResult "gemini_call_0_search" "tool_result"
                         (json_dumps (JArray [JString "ran search"])) false)) /\
  (exists rs s',
      ToolManager._execute_claude_tool_requests
        fixture_clients requests_fetch_unknown_boom start = (Ok rs, s') /\
      nth_error rs 0 =
      Some (mkToolResult "toolu_01" "tool_result"
                         (json_dumps (JArray [JString "ran fetch"])) false)).
Proof.
  destruct (@successful_call_result _ ScriptedEnv fixture_clients) as [Ha Hb].
  split.
  - destruct (ToolManager._execute_gemini_function_calls
                fixture_clients batch_search_unknown_boom_fetch start)
      as [[rs|e] s'] eqn:Hrun; [|vm_compute in Hrun; discriminate].
    exists rs, s'. split; [reflexivity|].
    refine (Ha [] (mkFunctionCall "search" (PDict []))
               [mkFunctionCall "unknown" (PDict []);
                mkFunctionCall "boom" (PDict []);
                mkFunctionCall "fetch" (PDict [])] start [] start 0
               (snd (ToolManager._find_client_with_tool [0; 1] "search" start))
               (Some (mkCallToolResult [TextContent "ran search"] false))
               (snd (call_tool
                       0 "search" (PDict [])
                       (snd (ToolManager._find_client_with_tool
                               [0; 1] "search" start))))
               _ _ _ rs s' Hrun); reflexivity.
  - destruct (ToolManager._execute_claude_tool_requests
                fixture_clients requests_fetch_unknown_boom start)
      as [[rs|e] s'] eqn:Hrun; [|vm_compute in Hrun; discriminate].
    exists rs, s'. split; [reflexivity|].
    refine (Hb [] (mkToolUse "toolu_01" "fetch" (PDict []))
               [mkToolUse "toolu_02" "unknown" (PDict []);
                mkToolUse "toolu_03" "boom" (PDict [])] start [] start 1
               (snd (ToolManager._find_client_with_tool [0; 1] "fetch" start))
               (Some (mkCallToolResult [TextContent "ran fetch"] false))
               (snd (call_tool
                       1 "fetch" (PDict [])
                       (snd (ToolManager._find_client_with_tool
                               [0; 1] "fetch" start))))
               _ _ _ rs s' Hrun); reflexivity.
Defined.

Lemma batch_routing_witness :
  exists rs s',
    ToolManager._execute_gemini_function_calls
      fixture_clients batch_search_unknown_boom_fetch start = (Ok rs, s') /\
    call_events (trace s') =
    [EvCallTool 0 "search" (PDict []); EvCallTool 1 "boom" (PDict []);
     EvCallTool 1 "fetch" (PDict [])].
Proof.
  destruct (@batch_routing _ ScriptedEnv fixture_clients fixture_tools
                           fixture_static_catalog) as [Ha _].
  exact (Ha batch_search_unknown_boom_fetch start).
Defined.

Lemma result_contents_printable_witness :
  exists rs s',
    ToolManager.execute_tool_requests fixture_clients response_batch start
    = (Ok rs, s') /\
    Forall (fun r => type_ r = "tool_result" /\ printable (content r) = true) rs.
Proof.
  destruct (ToolManager.execute_tool_requests fixture_clients response_batch start)
    as [[rs|e] s'] eqn:Hrun; [|vm_compute in Hrun; discriminate].
  exists rs, s'. split; [reflexivity|].
  exact (@result_contents_printable _ ScriptedEnv fixture_clients response_batch
                                    start rs s' Hrun).
Defined.

Lemma gemini_tool_use_id_injective_witness :
  2 = 2 /\ "fetch" = "fetch".
Proof.
  exact (@gemini_tool_use_id_injective 2 2 "fetch" "fetch" eq_refl).
Defined.

Lemma scripted_adapter_answers : @adapter_answers _ ScriptedEnv.
Proof.
  intros msgs tools [|r w]; [exists (asks "search"), [] | exists r, w];
    reflexivity.
Defined.

Lemma scripted_catalog_ready : @catalog_ready _ ScriptedEnv fixture_clients.
Proof.
  intros c Hc w. exists (fixture_tools c), w. split; [reflexivity|].
  intros t Ht. exact (@fixture_tools_convert c t Hc Ht).
Defined.

Lemma run_returns_despite_tool_failures_witness :
  exists ans s',
    Chat.run fixture_clients "Summarise the report"
             (initial_state [asks "boom"; says "The tool failed."])
    = (Ok ans, s').
Proof.
  exact (@run_returns_despite_tool_failures
           _ ScriptedEnv fixture_clients "Summarise the report"
           (initial_state [asks "boom"; says "The tool failed."])
           scripted_catalog_ready scripted_adapter_answers).
Defined.

Lemma run_answer_by_iteration_witness :
  exists ans s' evs,
    Chat.run fixture_clients "Summarise the report"
             (initial_state script_answer_on_second) = (Ok ans, s') /\
    chat_events (trace s') = evs /\
    length evs <= 5 /\
    (length evs = 5 -> ans = Chat.fallback_text).
Proof.
  destruct (Chat.run fixture_clients "Summarise the report"
                     (initial_state script_answer_on_second))
    as [[ans|e] s'] eqn:Hrun; [|vm_compute in Hrun; discriminate].
  destruct (@run_answer_by_iteration _ ScriptedEnv fixture_clients
              "Summarise the report" (initial_state script_answer_on_second)
              ans s' Hrun) as (evs & Hc & Hlen & _ & Hcap).
  exists ans, s', evs. split; [reflexivity|]. split; [exact Hc|].
  split; [exact Hlen | exact Hcap].
Defined.

Lemma adapter_down_catalog_ready : @catalog_ready _ AdapterDownEnv fixture_clients.
Proof.
  intros c Hc w. exists (fixture_tools c), w. split; [reflexivity|].
  intros t Ht. exact (@fixture_tools_convert c t Hc Ht).
Defined.

Lemma adapter_exception_propagates_witness :
  exists s' tools,
    Chat.run fixture_clients "Summarise the report" (initial_state adapter_down)
    = (Raise quota_error, s') /\
    messages s' = [mkMessage user (ContentText "Summarise the report")] /\
    chat_events (trace s') =
    [EvChatWithTools [mkMessage user (ContentText "Summarise the report")]
                     tools (Raise quota_error)] /\
    call_events (trace s') = [].
Proof.
  apply (@adapter_exception_propagates
           _ AdapterDownEnv fixture_clients "Summarise the report" quota_error
           (initial_state adapter_down) adapter_down_catalog_ready).
  intros msgs tools w. exists w. reflexivity.
Defined.

Lemma connect_success_witness :
  exists st,
    MCPClient.connect (modal_client 0) = (Ok tt, st) /\
    MCPClient._session (fst st) = Some 2 /\
    MCPClient._exit_stack (fst st) = [inr 2; inl 1] /\
    fst (MCPClient.list_tools st) = Ok (fixture_tools 0).
Proof.
  destruct (@connect_success
              nat nat (nat * list string) ModalTransport
              (MCPClient.init "uv" ["run"; "mcp_server.py"] None) (0, [])
              1 (0, ["spawn"]) 2 (0, ["session"; "spawn"])
              (0, ["initialize"; "session"; "spawn"])
              eq_refl eq_refl eq_refl) as (Hc & Hl & _).
  eexists. split; [exact Hc|]. split; [reflexivity|]. split; [reflexivity|].
  rewrite Hl. reflexivity.
Defined.

Lemma connect_failures_witness :
  MCPClient.connect (modal_client 1) = (Raise spawn_error, modal_client 1) /\
  (exists st,
      MCPClient.connect (modal_client 2) = (Raise handshake_error, st) /\
      MCPClient._session (fst st) = None /\
      MCPClient._exit_stack (fst st) = [inl 1]) /\
  (exists st,
      MCPClient.connect (modal_client 3) = (Raise handshake_error, st) /\
      MCPClient._session (fst st) = Some 2 /\
      fst (MCPClient.list_tools st) = Ok (fixture_tools 0)).
Proof.
  split; [|split].
  - destruct (@connect_failures
                nat nat (nat * list string) ModalTransport
                (MCPClient.init "uv" ["run"; "mcp_server.py"] None) (1, [])
                spawn_error) as (Ha & _ & _).
    exact (Ha (1, []) eq_refl).
  - destruct (@connect_failures
                nat nat (nat * list string) ModalTransport
                (MCPClient.init "uv" ["run"; "mcp_server.py"] None) (2, [])
                handshake_error) as (_ & Hb & _).
    eexists. split; [exact (Hb 1 (2, ["spawn"]) (2, ["spawn"]) eq_refl eq_refl)|].
    split; reflexivity.
  - destruct (@connect_failures
                nat nat (nat * list string) ModalTransport
                (MCPClient.init "uv" ["run"; "mcp_server.py"] None) (3, [])
                handshake_error) as (_ & _ & Hc).
    destruct (Hc 1 (3, ["spawn"]) 2 (3, ["session"; "spawn"])
                 (3, ["session"; "spawn"]) eq_refl eq_refl eq_refl)
      as [Hrun Hl].
    eexists. split; [exact Hrun|]. split; [reflexivity|].
    rewrite Hl. reflexivity.
Defined.

Lemma async_with_closes_witness :
  (exists st',
      MCPClientAux.async_with
        (MCPClient.call_tool "boom" (PDict [])) (modal_client 0)
      = (Raise (mkExc "RuntimeError" "kaboom"), st') /\
      MCPClient._session (fst st') = None /\
      MCPClient._exit_stack (fst st') = []) /\
  (exists st1,
      MCPClientAux.async_with MCPClient.list_tools (modal_client 2)
      = (Raise handshake_error, st1) /\
      MCPClient._exit_stack (fst st1) = [inl 1]).
Proof.
  split.
  - destruct (@MCPClient.connect nat nat (nat * list string) ModalTransport
                                 (modal_client 0)) as [r st1] eqn:Hc.
    assert (r = Ok tt) as -> by (vm_compute in Hc; now injection Hc as <- _).
    destruct (@async_with_closes
                nat nat (nat * list string) ModalTransport _
                (MCPClient.call_tool "boom" (PDict [])) (modal_client 0))
      as (Ha & _ & _).
    destruct (Ha st1 Hc) as (st' & Hrun & Hs & Hk).
    exists st'. split; [|split; assumption].
    unfold MCPClientAux.async_with in *. rewrite Hrun. f_equal.
    vm_compute in Hc. injection Hc as <-. vm_compute. reflexivity.
  - destruct (@async_with_closes
                nat nat (nat * list string) ModalTransport _
                MCPClient.list_tools (modal_client 2))
      as (_ & _ & Hc).
    exact (Hc handshake_error 1 (2, ["spawn"]) (2, ["spawn"]) eq_refl eq_refl).
Defined.

Lemma disconnected_methods_witness :
  MCPClientAux.list_prompts (Prompt := string) (PromptMessage := string)
                            (Url := string) fresh_client
  = (Raise MCPClient.session_not_ready, fresh_client) /\
  MCPClientAux.read_resource (Prompt := string) (PromptMessage := string)
                             (Url := string) EmptyString fresh_client
  = (Raise MCPClient.session_not_ready, fresh_client).
Proof.
  destruct (@disconnected_methods
              nat nat (list string) string string string FixtureResources
              (MCPClient.init "uv" ["run"; "mcp_server.py"] None) []
              eq_refl) as (Hl & _ & Hr).
  split; [exact Hl | exact (Hr EmptyString)].
Defined.

Lemma read_resource_edges_witness :
  let connected := snd (MCPClient.connect fresh_client) in
  fst (MCPClientAux.read_resource (Prompt := string) (PromptMessage := string)
                                  (Url := string) EmptyString connected)
  = Raise (mkExc "ValidationError" "Input should be a valid URL") /\
  fst (MCPClientAux.read_resource (Prompt := string) (PromptMessage := string)
                                  (Url := string) "docs://empty" connected)
  = Raise MCPClientAux.IndexError /\
  fst (MCPClientAux.read_resource (Prompt := string) (PromptMessage := string)
                                  (Url := string) "docs://documents" connected)
  = Ok (PList [PInt 1]) /\
  fst (MCPClientAux.read_resource (Prompt := string) (PromptMessage := string)
                                  (Url := string) "docs://image" connected)
  = Ok PNone.
Proof.
  intros connected.
  split; [|split; [|split]].
  - destruct (@read_resource_edges
                nat nat (list string) string string string FixtureResources
                (fst connected) (snd connected) 2 EmptyString eq_refl)
      as (Ha & _ & _).
    change connected with (fst connected, snd connected).
    rewrite (Ha _ eq_refl). reflexivity.
  - destruct (@read_resource_edges
                nat nat (list string) string string string FixtureResources
                (fst connected) (snd connected) 2 "docs://empty" eq_refl)
      as (_ & Hb & _).
    change connected with (fst connected, snd connected).
    rewrite (Hb "docs://empty" _ eq_refl eq_refl). reflexivity.
  - destruct (@read_resource_edges
                nat nat (list string) string string string FixtureResources
                (fst connected) (snd connected) 2 "docs://documents" eq_refl)
      as (_ & _ & Hc).
    change connected with (fst connected, snd connected).
    rewrite (Hc "docs://documents" _ _ _ eq_refl eq_refl). reflexivity.
  - destruct (@read_resource_edges
                nat nat (list string) string string string FixtureResources
                (fst connected) (snd connected) 2 "docs://image" eq_refl)
      as (_ & _ & Hc).
    change connected with (fst connected, snd connected).
    rewrite (Hc "docs://image" _ _ _ eq_refl eq_refl). reflexivity.
Defined.

Lemma gemini_contents_keep_every_message_witness :
  exists evs,
    chat_events
      (trace (snd (Chat.run fixture_clients "Summarise the report"
                            (initial_state script_answer_on_second))))
    = evs /\
    forall msgs tools o,
      In (EvChatWithTools msgs tools o) evs ->
      map GeminiService.gc_role
          (GeminiService._convert_messages_to_gemini_format msgs)
      = map (fun m => GeminiService.gemini_role (role m)) msgs.
Proof.
  exact (@gemini_contents_keep_every_message
           _ ScriptedEnv fixture_clients "Summarise the report"
           (initial_state script_answer_on_second) (Forall_nil _)).
Defined.

Lemma function_calls_rendered_as_text_witness :
  GeminiService._convert_messages_to_gemini_format
    [Chat.assistant_message
       (mkResponse (Some "Let me check.")
                   (Some [mkFunctionCall "search" (PDict [("q", PStr "report")]);
                          mkFunctionCall "fetch" (PDict [])])
                   None "MockResponse")]
  = [GeminiService.mkContent
       "model" ["Let me check."; "Function call: search"; "Function call: fetch"]].
Proof.
  exact (@function_calls_rendered_as_text
           (mkResponse (Some "Let me check.")
                       (Some [mkFunctionCall "search" (PDict [("q", PStr "report")]);
                              mkFunctionCall "fetch" (PDict [])])
                       None "MockResponse")
           (mkFunctionCall "search" (PDict [("q", PStr "report")]))
           [mkFunctionCall "fetch" (PDict [])] eq_refl).
Defined.

Example read_mixed_reply :
  GeminiService.read_response "MockResponse" mixed_reply
  = mkResponse (Some "Let me check. ")
               (Some [mkFunctionCall "search" (PDict [("q", PStr "report")]);
                      mkFunctionCall "fetch" (PDict [])])
               None "MockResponse" /\
  text (GeminiService.read_response
          "MockResponse"
          (GeminiService.mkGeminiResponse (Some []) (Some None)))
  = Some "None".
Proof. split; reflexivity. Qed.

(** ** The summary of tool results *)

Lemma count_newlines_app (a b : string) :
  count_newlines (a ++ b) = count_newlines a + count_newlines b.
Proof.
  induction a as [|c a IH]; simpl; [reflexivity|]. rewrite IH. lia.
Qed.

Lemma printable_no_newline (s : string) :
  printable s = true -> count_newlines s = 0.
Proof.
  induction s as [|c s IH]; cbn [printable count_newlines]; [reflexivity|].
  intros H. apply andb_true_iff in H as [H Hs].
  apply andb_true_iff in H as [Hlo _]. apply Nat.leb_le in Hlo.
  destruct (Nat.eqb_spec (nat_of_ascii c) 10) as [Heq|_]; [lia|].
  now rewrite IH.
Qed.

Lemma result_line_one_newline (r : ToolResult) :
  printable (tool_use_id r) = true -> printable (content r) = true ->
  count_newlines (Chat.result_line r) = 1.
Proof.
  intros Hid Hc. unfold Chat.result_line.
  rewrite !count_newlines_app, (printable_no_newline _ Hid),
    (printable_no_newline _ Hc).
  now destruct (is_error r).
Qed.

(** X27. The user message that reports a non-empty batch of results
    whose ids and contents are printable is the header line followed by
    exactly one line per result: its text has one more line break than
    there are results.  An empty batch gives the placeholder, which has
    no line break. *)
Theorem summary_one_line_per_result (results : list ToolResult) :
  Forall (fun r => printable (tool_use_id r) = true /\
                   printable (content r) = true) results ->
  exists txt,
    Chat.user_message results = mkMessage user (ContentText txt) /\
    count_newlines txt =
    match results with
    | [] => 0
    | _ => 1 + length results
    end.
Proof.
  intros Hall. destruct results as [|r rs]; [eexists; split; reflexivity|].
  eexists. split; [reflexivity|].
  rewrite result_lines_join, count_newlines_app.
  change (count_newlines ("Tool execution results:" ++ newline)) with 1.
  f_equal.
  induction Hall as [|r0 rs0 [Hid Hc] _ IH]; [reflexivity|].
  cbn [map]. rewrite str_join_empty_cons, count_newlines_app, IH.
  now rewrite (result_line_one_newline _ Hid Hc).
Qed.

Lemma summary_one_line_per_result_witness :
  exists txt,
    Chat.user_message
      [mkToolResult "gemini_call_0_search" "tool_result"
                    (json_dumps (JArray [JString "ran search"])) false;
       mkToolResult "gemini_call_1_unknown" "tool_result"
                    "Could not find that tool" true]
    = mkMessage user (ContentText txt) /\
    count_newlines txt = 3.
Proof.
  apply (@summary_one_line_per_result
           [mkToolResult "gemini_call_0_search" "tool_result"
                         (json_dumps (JArray [JString "ran search"])) false;
            mkToolResult "gemini_call_1_unknown" "tool_result"
                         "Could not find that tool" true]).
  repeat constructor.
Defined.
